(** * pi_pact: BLE beacon advertiser / scanner

    A shallow embedding of [pi_pact.py]: the validated parameter model of
    the [Advertiser] and [Scanner] classes, the control-file protocol, the
    two polling loops, the scan-record pipeline ([process_scans],
    [filter_advertisements]) and [load_config].

    Modelling conventions.
    - Python values are the inductive [pyval].  A [float] is the rational
      it denotes when it is finite, NaN, or one of the two infinities; a
      [datetime] is a count of microseconds since 1970-01-01 00:00:00.
    - A Python [dict] keeps insertion order, and the program iterates over
      dicts, so a dict is an association list with the source's
      [get]/[set]/[del].
    - Code that can raise returns a [result]; code with effects (files,
      clock, radio service, logger, the global [DEFAULT_CONFIG]) is a
      computation in the monad [M], a state monad in which a raised
      exception keeps the state reached so far.
    - What the program does not control is the record [env]: the answers
      of the radio service, the YAML loader and the operating system
      (which may refuse a file operation), the clock, and the parts of
      pandas and of the interpreter that are not modelled here.
    - The two [while run:] loops take a fuel argument; [OutOfFuel] is the
      answer of a run that was cut before the loop ended. *)

From Stdlib Require Import ZArith QArith Qround List String Ascii Bool Lia Lqa.
From Stdlib Require Import Permutation Sorted DecimalString.
Import ListNotations.

Local Open Scope string_scope.
Local Open Scope Z_scope.

(* ===================================================================== *)
(** ** Python values *)
(* ===================================================================== *)

Module Py.

Inductive exn : Type :=
| TypeError
| ValueError
| KeyError
| AttributeError
| IndexError
| FileNotFoundError
| RadioServiceError
| PermissionError
| OSError
| SyntaxError
| NameError.

Inductive result (A : Type) : Type :=
| Ok (a : A)
| Raise (e : exn)
| OutOfFuel.

Arguments Ok {A} a.
Arguments Raise {A} e.
Arguments OutOfFuel {A}.

Definition rbind {A B} (r : result A) (k : A -> result B) : result B :=
  match r with
  | Ok a => k a
  | Raise e => Raise e
  | OutOfFuel => OutOfFuel
  end.

(** [PFloat q] is a finite float; [PNaN] and [PInf] are the floats
    [float('nan')], [float('inf')] and [float('-inf')]. *)
#[warnings="-register-all"]
Inductive pyval : Type :=
| PNone
| PBool (b : bool)
| PInt (z : Z)
| PFloat (q : Q)
| PStr (s : string)
| PTime (t : Z)
| PFile (path : string) (is_open : bool)
| PList (l : list pyval)
| PDict (d : list (string * pyval))
| PNaN
| PInf (negative : bool).

Definition dict : Type := list (string * pyval).

(** [key in l] for a list of strings. *)
Definition str_in (key : string) (l : list string) : bool :=
  existsb (String.eqb key) l.

(** [d.get(key)]: [None] when the key is absent. *)
Fixpoint dict_get (d : dict) (key : string) : option pyval :=
  match d with
  | [] => None
  | (k, v) :: d' => if String.eqb key k then Some v else dict_get d' key
  end.

(** [key in d]. *)
Definition dict_mem (d : dict) (key : string) : bool :=
  match dict_get d key with Some _ => true | None => false end.

(** [d[key]]. *)
Definition getitem (d : dict) (key : string) : result pyval :=
  match dict_get d key with Some v => Ok v | None => Raise KeyError end.

(** [d[key] = value]: an existing key keeps its place, a new one goes last. *)
Fixpoint dict_set (d : dict) (key : string) (value : pyval) : dict :=
  match d with
  | [] => [(key, value)]
  | (k, v) :: d' =>
      if String.eqb key k then (k, value) :: d'
      else (k, v) :: dict_set d' key value
  end.

(** [del d[key]]. *)
Fixpoint dict_del (d : dict) (key : string) : dict :=
  match d with
  | [] => []
  | (k, v) :: d' =>
      if String.eqb key k then dict_del d' key else (k, v) :: dict_del d' key
  end.

(** [{**a, **b}]. *)
Definition dict_merge (a b : dict) : dict :=
  fold_left (fun acc kv => dict_set acc (fst kv) (snd kv)) b a.

Definition keys (d : dict) : list string := map fst d.

(** [bool(v)]: NaN and the infinities are not zero. *)
Definition truthy (v : pyval) : bool :=
  match v with
  | PNone => false
  | PBool b => b
  | PInt z => negb (z =? 0)
  | PFloat q => negb (Qeq_bool q 0)
  | PStr s => negb (String.eqb s EmptyString)
  | PTime _ => true
  | PFile _ _ => true
  | PList l => match l with [] => false | _ => true end
  | PDict d => match d with [] => false | _ => true end
  | PNaN => true
  | PInf _ => true
  end.

Definition is_None (v : pyval) : bool :=
  match v with PNone => true | _ => false end.

Definition is_nan (v : pyval) : bool :=
  match v with PNaN => true | _ => false end.

(** The integer behind a value for which [isinstance(v, int)] holds
    ([bool] is a subclass of [int]). *)
Definition int_of (v : pyval) : option Z :=
  match v with
  | PBool b => Some (if b then 1 else 0)
  | PInt z => Some z
  | _ => None
  end.

(** The finite number behind a [bool], an [int] or a finite [float]. *)
Definition num_of (v : pyval) : option Q :=
  match v with
  | PBool b => Some (if b then 1%Q else 0%Q)
  | PInt z => Some (inject_Z z)
  | PFloat q => Some q
  | _ => None
  end.

(** What a number is worth in a comparison. *)
Inductive number : Type :=
| Finite (q : Q)
| NaN
| Infinite (negative : bool).

(** The number behind a value for which [isinstance(v, (float, int))]
    holds. *)
Definition number_of (v : pyval) : option number :=
  match v with
  | PNaN => Some NaN
  | PInf negative => Some (Infinite negative)
  | _ => option_map Finite (num_of v)
  end.

(** [a <= b], [a < b] and [a == b] on numbers: every comparison with NaN
    is false. *)
Definition number_le (a b : number) : bool :=
  match a, b with
  | NaN, _ | _, NaN => false
  | Finite x, Finite y => Qle_bool x y
  | Infinite true, _ => true
  | _, Infinite false => true
  | Finite _, Infinite true => false
  | Infinite false, _ => false
  end.

Definition number_lt (a b : number) : bool :=
  match a, b with
  | NaN, _ | _, NaN => false
  | Finite x, Finite y => negb (Qle_bool y x)
  | Infinite true, Infinite true => false
  | Infinite true, _ => true
  | Infinite false, _ => false
  | Finite _, Infinite negative => negb negative
  end.

Definition number_eqb (a b : number) : bool :=
  match a, b with
  | Finite x, Finite y => Qeq_bool x y
  | Infinite m, Infinite n => Bool.eqb m n
  | _, _ => false
  end.

Definition isinstance_str (v : pyval) : bool :=
  match v with PStr _ => true | _ => false end.

Definition isinstance_dict (v : pyval) : bool :=
  match v with PDict _ => true | _ => false end.

(** [len(v)]; a value without a length raises [TypeError]. *)
Definition py_len (v : pyval) : result nat :=
  match v with
  | PStr s => Ok (String.length s)
  | PList l => Ok (List.length l)
  | PDict d => Ok (List.length d)
  | _ => Raise TypeError
  end.

(** [v[i]] on a sequence; a dict is asked for the key [i], which no dict
    of the program holds. *)
Definition py_index (v : pyval) (i : nat) : result pyval :=
  match v with
  | PList l => match nth_error l i with Some x => Ok x | None => Raise IndexError end
  | PStr s => match String.get i s with
              | Some c => Ok (PStr (String c EmptyString))
              | None => Raise IndexError
              end
  | PDict _ => Raise KeyError
  | _ => Raise TypeError
  end.

(** [a == b]: numbers compare by value across [bool], [int] and [float];
    a container equals no scalar. *)
Definition py_eqb (a b : pyval) : bool :=
  match number_of a, number_of b with
  | Some x, Some y => number_eqb x y
  | _, _ =>
      match a, b with
      | PNone, PNone => true
      | PStr s, PStr t => String.eqb s t
      | PTime s, PTime t => s =? t
      | _, _ => false
      end
  end.

End Py.
Export Py.

(* ===================================================================== *)
(** ** The outside world and the effect monad *)
(* ===================================================================== *)

(** One received advertisement, as [BeaconService.scan] reports it:
    [[uuid, major, minor, tx power, rssi]]. *)
Record payload : Type := mkPayload {
  p_uuid : string;
  p_major : Z;
  p_minor : Z;
  p_tx_power : Z;
  p_rssi : Z
}.

(** The result of one [BeaconService.scan]: address to payload, in the
    order the dict yields its items. *)
Definition scan_result : Type := list (string * payload).

(** What happens during the n-th blocking call of a session
    ([time.sleep] for the advertiser, [BeaconService.scan] for the
    scanner). *)
Record cycle : Type := mkCycle {
  c_now : Z;                          (* datetime.now() when the cycle starts *)
  c_duration : Q;                     (* seconds the blocking call takes *)
  c_write : option (string * string); (* an external write: path, content *)
  c_scan : result scan_result         (* what BeaconService.scan answers *)
}.

(** A DataFrame: column labels, and rows carrying their index label. *)
Record DataFrame : Type := mkDataFrame {
  df_columns : list string;
  df_rows : list (nat * dict)
}.

(** The file operations of the program that the operating system can
    refuse: [Path.touch()], [Path.chmod()], [open(mode='w')] and
    [open(mode='r+')]. *)
Inductive fs_op : Type := Touch | Chmod | OpenWrite | OpenUpdate.

(** Why the operating system refuses: a missing directory on the way to
    the path, missing rights, anything else. *)
Inductive os_error : Type := NoSuchDirectory | NotPermitted | OtherOSError.

Definition os_exn (e : os_error) : exn :=
  match e with
  | NoSuchDirectory => FileNotFoundError
  | NotPermitted => PermissionError
  | OtherOSError => OSError
  end.

(** What an expression of a pandas query can raise. *)
Inductive query_error : Type :=
| QSyntaxError | QNameError | QTypeError | QValueError | QKeyError.

Definition query_exn (e : query_error) : exn :=
  match e with
  | QSyntaxError => SyntaxError
  | QNameError => NameError
  | QTypeError => TypeError
  | QValueError => ValueError
  | QKeyError => KeyError
  end.

(** Everything the program does not control. *)
Record env : Type := mkEnv {
  e_resolve : string -> string;        (* Path(value).resolve() *)
  e_uuid1 : string;                    (* str(uuid1()) *)
  e_yaml : string -> result pyval;     (* open + yaml.load of a path *)
  e_beacon_service : option exn;       (* fault of BeaconService(BLE_DEVICE) *)
  e_start_advertising : option exn;    (* fault of start_advertising *)
  e_stop_advertising : option exn;     (* fault of stop_advertising *)
  e_cycle : nat -> cycle;
  (* the refusal of a file operation on a path, after so many blocking
     calls *)
  e_refuses : nat -> fs_op -> string -> option os_error;
  (* str(value) for a finite float or a container *)
  e_str : pyval -> string;
  (* the boolean mask of a query whose text is outside the fragment
     evaluated here *)
  e_eval : string -> DataFrame -> query_error + list bool
}.

Record file : Type := mkFile {
  f_content : string;
  f_mode : Z
}.

Inductive event : Type :=
| EvLog (level : string) (msg : string)
| EvWrite (path content : string)
| EvOpen (path : string)
| EvClose (path : string)
| EvUnlink (path : string)
| EvStartAdvertising (uuid major minor tx_power interval : pyval)
| EvStopAdvertising
| EvSleep (seconds : Z)
| EvScan (revisit : pyval).

Record state : Type := mkState {
  st_env : env;
  st_self : dict;                       (* attributes of the controller *)
  st_DEFAULT_CONFIG : dict;             (* the module-level global *)
  st_fs : string -> option file;
  st_clock : Q;                         (* time.monotonic() *)
  st_tick : nat;                        (* blocking calls completed *)
  st_advertising : bool;
  st_csv : list (pyval * Z * DataFrame); (* files written by to_csv *)
  st_trace : list event                 (* newest first *)
}.

Definition M (A : Type) : Type := state -> result A * state.

Definition ret {A} (a : A) : M A := fun s => (Ok a, s).

Definition bind {A B} (m : M A) (k : A -> M B) : M B :=
  fun s =>
    match m s with
    | (Ok a, s') => k a s'
    | (Raise e, s') => (Raise e, s')
    | (OutOfFuel, s') => (OutOfFuel, s')
    end.

Definition raise {A} (e : exn) : M A := fun s => (Raise e, s).

Definition out_of_fuel {A} : M A := fun s => (OutOfFuel, s).

Definition lift {A} (r : result A) : M A := fun s => (r, s).

Definition gets {A} (f : state -> A) : M A := fun s => (Ok (f s), s).

Definition modify (f : state -> state) : M unit := fun s => (Ok tt, f s).

Declare Scope py_scope.
Delimit Scope py_scope with py.
Notation "x <- c1 ;; c2" := (bind c1 (fun x => c2))
  (at level 61, c1 at next level, right associativity) : py_scope.
Notation "c1 ;; c2" := (bind c1 (fun _ => c2))
  (at level 61, right associativity) : py_scope.
Local Open Scope py_scope.

(** [for x in l: body], threading nothing but the state. *)
Fixpoint for_each {A} (l : list A) (body : A -> M unit) : M unit :=
  match l with
  | [] => ret tt
  | x :: l' => body x ;; for_each l' body
  end.

(** *** State updates *)

Definition set_self (o : dict) (s : state) : state :=
  mkState (st_env s) o (st_DEFAULT_CONFIG s) (st_fs s) (st_clock s)
          (st_tick s) (st_advertising s) (st_csv s) (st_trace s).

Definition set_DEFAULT_CONFIG (d : dict) (s : state) : state :=
  mkState (st_env s) (st_self s) d (st_fs s) (st_clock s)
          (st_tick s) (st_advertising s) (st_csv s) (st_trace s).

Definition set_fs (fs : string -> option file) (s : state) : state :=
  mkState (st_env s) (st_self s) (st_DEFAULT_CONFIG s) fs (st_clock s)
          (st_tick s) (st_advertising s) (st_csv s) (st_trace s).

Definition set_time (clock : Q) (tick : nat) (s : state) : state :=
  mkState (st_env s) (st_self s) (st_DEFAULT_CONFIG s) (st_fs s) clock
          tick (st_advertising s) (st_csv s) (st_trace s).

Definition set_advertising (b : bool) (s : state) : state :=
  mkState (st_env s) (st_self s) (st_DEFAULT_CONFIG s) (st_fs s) (st_clock s)
          (st_tick s) b (st_csv s) (st_trace s).

Definition add_csv (f : pyval * Z * DataFrame) (s : state) : state :=
  mkState (st_env s) (st_self s) (st_DEFAULT_CONFIG s) (st_fs s) (st_clock s)
          (st_tick s) (st_advertising s) (f :: st_csv s) (st_trace s).

Definition add_event (ev : event) (s : state) : state :=
  mkState (st_env s) (st_self s) (st_DEFAULT_CONFIG s) (st_fs s) (st_clock s)
          (st_tick s) (st_advertising s) (st_csv s) (ev :: st_trace s).

Definition emit (ev : event) : M unit := modify (add_event ev).

(** *** The logger *)

Definition log_debug (msg : string) : M unit := emit (EvLog "DEBUG" msg).
Definition log_info (msg : string) : M unit := emit (EvLog "INFO" msg).

(** *** Attributes of [self] *)

Definition getattr (name : string) : M pyval :=
  fun s => match dict_get (st_self s) name with
           | Some v => (Ok v, s)
           | None => (Raise AttributeError, s)
           end.

Definition store (name : string) (value : pyval) : M unit :=
  modify (fun s => set_self (dict_set (st_self s) name value) s).

(** *** Files *)

Definition fs_upd (fs : string -> option file) (p : string) (f : option file)
  : string -> option file :=
  fun q => if String.eqb q p then f else fs q.

Definition content_of (s : state) (p : string) : option string :=
  option_map f_content (st_fs s p).

(** The operating system is asked for a file operation: it refuses with
    an [OSError], or lets the program go on. *)
Definition os_check (op : fs_op) (p : string) : M unit :=
  fun s => match e_refuses (st_env s) (st_tick s) op p with
           | Some e => (Raise (os_exn e), s)
           | None => (Ok tt, s)
           end.

(** A write by any process with [open(p, 'w')]: creates or truncates. *)
Definition write_file (p content : string) (s : state) : state :=
  let mode := match st_fs s p with Some f => f_mode f | None => 420 end in
  set_fs (fs_upd (st_fs s) p (Some (mkFile content mode))) s.

(** [Path.touch()]. *)
Definition path_touch (p : string) : M unit :=
  os_check Touch p ;;
  modify (fun s => match st_fs s p with
                   | Some _ => s
                   | None => set_fs (fs_upd (st_fs s) p (Some (mkFile EmptyString 420))) s
                   end).

(** [Path.chmod(mode)]. *)
Definition path_chmod (p : string) (mode : Z) : M unit :=
  os_check Chmod p ;;
  fun s => match st_fs s p with
           | Some f => (Ok tt, set_fs (fs_upd (st_fs s) p (Some (mkFile (f_content f) mode))) s)
           | None => (Raise FileNotFoundError, s)
           end.

(** [with open(p, 'w') as f: f.write(content)]. *)
Definition write_text (p content : string) : M unit :=
  os_check OpenWrite p ;;
  modify (write_file p content) ;; emit (EvWrite p content).

(** [Path.open(mode='r+')]. *)
Definition open_rplus (p : string) : M pyval :=
  os_check OpenUpdate p ;;
  fun s => match st_fs s p with
           | Some _ => (Ok (PFile p true), add_event (EvOpen p) s)
           | None => (Raise FileNotFoundError, s)
           end.

(** [handle.seek(0); handle.read()]. *)
Definition seek0_read (handle : pyval) : M string :=
  match handle with
  | PFile p true =>
      fun s => match st_fs s p with
               | Some f => (Ok (f_content f), s)
               | None => (Ok EmptyString, s)
               end
  | PFile _ false => raise ValueError
  | _ => raise AttributeError
  end.

(** [handle.close()] on the handle stored in [self]. *)
Definition close_handle (handle : pyval) : M unit :=
  match handle with
  | PFile p true => store "control_file_handle" (PFile p false) ;; emit (EvClose p)
  | PFile p false => ret tt
  | _ => raise AttributeError
  end.

(** [Path.unlink()]. *)
Definition path_unlink (p : string) : M unit :=
  fun s => match st_fs s p with
           | Some _ => (Ok tt, add_event (EvUnlink p) (set_fs (fs_upd (st_fs s) p None) s))
           | None => (Raise FileNotFoundError, s)
           end.

(** *** Time and the blocking calls *)

Definition monotonic : M Q := gets st_clock.

Definition datetime_now : M Z := gets (fun s => c_now (e_cycle (st_env s) (st_tick s))).

(** A blocking call: the clock advances by the cycle's duration and the
    cycle's external write, if any, lands. *)
Definition pass_cycle (s : state) : state :=
  let c := e_cycle (st_env s) (st_tick s) in
  let s1 := match c_write c with
            | Some (p, content) => write_file p content s
            | None => s
            end in
  set_time (st_clock s + c_duration c)%Q (S (st_tick s)) s1.

(** [time.sleep(seconds)]. *)
Definition sleep (seconds : Z) : M unit :=
  emit (EvSleep seconds) ;; modify pass_cycle.

(** *** The radio service *)

(** [BeaconService(device)]: the service object is known by its device. *)
Definition BeaconService (device : string) : M pyval :=
  fault <- gets (fun s => e_beacon_service (st_env s)) ;;
  match fault with
  | Some e => raise e
  | None => ret (PStr device)
  end.

(** [BeaconService.scan(revisit)]. *)
Definition service_scan (revisit : pyval) : M scan_result :=
  emit (EvScan revisit) ;;
  c <- gets (fun s => e_cycle (st_env s) (st_tick s)) ;;
  modify pass_cycle ;;
  lift (c_scan c).

(** [BeaconService.start_advertising(...)]. *)
Definition start_advertising (uuid major minor tx_power interval : pyval) : M unit :=
  fault <- gets (fun s => e_start_advertising (st_env s)) ;;
  match fault with
  | Some e => raise e
  | None => modify (set_advertising true) ;;
            emit (EvStartAdvertising uuid major minor tx_power interval)
  end.

(** [BeaconService.stop_advertising()]. *)
Definition stop_advertising : M unit :=
  fault <- gets (fun s => e_stop_advertising (st_env s)) ;;
  match fault with
  | Some e => raise e
  | None => modify (set_advertising false) ;; emit EvStopAdvertising
  end.

(* ===================================================================== *)
(** ** Module-level settings *)
(* ===================================================================== *)

Definition LOG_NAME : string := "pi_pact.log".

(** The [logger] section keeps its name only; the [logging] dictionary it
    carries is not read by any code modelled here. *)
Definition DEFAULT_CONFIG : dict :=
  [ ("advertiser", PDict
       [ ("control_file", PStr "advertiser_control");
         ("timeout", PNone);
         ("uuid", PStr EmptyString);
         ("major", PInt 1);
         ("minor", PInt 1);
         ("tx_power", PInt 1);
         ("interval", PInt 200) ]);
    ("scanner", PDict
       [ ("control_file", PStr "scanner_control");
         ("scan_prefix", PStr "pi_pact_scan");
         ("timeout", PNone);
         ("revisit", PInt 1);
         ("filters", PDict []) ]);
    ("logger", PDict
       [ ("name", PStr LOG_NAME);
         ("config", PDict [ ("version", PInt 1) ]) ]) ].

Definition BLE_DEVICE : string := "hci0".
Definition CONTROL_INTERVAL : Z := 1.
Definition MAX_TIMEOUT : Z := 600.
Definition ID_FILTERS : list string :=
  ["ADDRESS"; "UUID"; "MAJOR"; "MINOR"; "TX POWER"].
Definition MEASUREMENT_FILTERS : list string := ["TIMESTAMP"; "RSSI"].

Definition MAJOR_LIMITS : Z * Z := (1, 65535).
Definition MINOR_LIMITS : Z * Z := (1, 65535).
Definition TX_POWER_LIMITS : Z * Z := (-40, 4).
Definition INTERVAL_LIMITS : Z * Z := (20, 10000).
Definition ALLOWABLE_FILTERS : list string := ID_FILTERS ++ MEASUREMENT_FILTERS.

(** [v.items()]: only a dict has the method. *)
Definition items (v : pyval) : result dict :=
  match v with
  | PDict d => Ok d
  | _ => Raise AttributeError
  end.

(** [**v] inside a dict display: only a mapping unpacks. *)
Definition unpack (v : pyval) : result dict :=
  match v with
  | PDict d => Ok d
  | _ => Raise TypeError
  end.

(** The path behind a [pathlib.Path] attribute. *)
Definition as_path (v : pyval) : result string :=
  match v with
  | PStr p => Ok p
  | _ => Raise AttributeError
  end.

(** [limits[0] <= value <= limits[1]] failing, as the setters test it:
    [value < limits[0] or value > limits[1]]. *)
Definition outside (value : Z) (limits : Z * Z) : bool :=
  (value <? fst limits) || (value >? snd limits).

(** [(time.monotonic() - start_time) > timeout]. *)
Definition elapsed_gt (elapsed : Q) (timeout : pyval) : result bool :=
  match number_of timeout with
  | Some t => Ok (number_lt t (Finite elapsed))
  | None => Raise TypeError
  end.

(** The stop test on the control file, shared by both loops:
    [handle.seek(0); control_flag = handle.read(); control_flag != "0"]. *)
Definition poll : M bool :=
  handle <- getattr "control_file_handle" ;;
  control_flag <- seek0_read handle ;;
  ret (negb (String.eqb control_flag "0")).

(* ===================================================================== *)
(** ** class Advertiser *)
(* ===================================================================== *)

Module Advertiser.

Definition control_file_setter (value : pyval) : M unit :=
  match value with
  | PStr v =>
      p <- gets (fun s => e_resolve (st_env s) v) ;;
      store "control_file" (PStr p) ;;
      path_touch p ;;
      path_chmod p 511 ;;
      write_text p "0" ;;
      store "control_file_handle" PNone
  | _ => raise TypeError
  end.

Definition timeout_setter (value : pyval) : M unit :=
  (if negb (is_None value) then
     match number_of value with
     | None => raise TypeError
     | Some x =>
         if number_le x (Finite 0) then raise ValueError
         else if number_lt (Finite (inject_Z MAX_TIMEOUT)) x then raise ValueError
         else ret tt
     end
   else ret tt) ;;
  store "timeout" value.

Definition uuid_setter (value : pyval) : M unit :=
  if negb (isinstance_str value) then raise TypeError
  else if negb (truthy value) then
    u <- gets (fun s => e_uuid1 (st_env s)) ;;
    store "uuid" (PStr u) ;;
    log_debug "Beacon advertiser UUID set"
  else store "uuid" value.

Definition major_setter (value : pyval) : M unit :=
  match int_of value with
  | None => raise TypeError
  | Some z =>
      if outside z MAJOR_LIMITS then raise ValueError
      else store "major" value
  end.

Definition minor_setter (value : pyval) : M unit :=
  match int_of value with
  | None => raise TypeError
  | Some z =>
      if outside z MINOR_LIMITS then raise ValueError
      else store "minor" value
  end.

Definition tx_power_setter (value : pyval) : M unit :=
  match int_of value with
  | None => raise TypeError
  | Some z =>
      if outside z TX_POWER_LIMITS then raise ValueError
      else store "tx_power" value
  end.

Definition interval_setter (value : pyval) : M unit :=
  match int_of value with
  | None => raise TypeError
  | Some z =>
      if outside z INTERVAL_LIMITS then raise ValueError
      else store "interval" value
  end.

(** [setattr(self, key, value)]: a property runs its setter, any other
    name is a plain attribute. *)
Definition setattr (key : string) (value : pyval) : M unit :=
  if String.eqb key "control_file" then control_file_setter value
  else if String.eqb key "timeout" then timeout_setter value
  else if String.eqb key "uuid" then uuid_setter value
  else if String.eqb key "major" then major_setter value
  else if String.eqb key "minor" then minor_setter value
  else if String.eqb key "tx_power" then tx_power_setter value
  else if String.eqb key "interval" then interval_setter value
  else store key value.

(** The body of the constructor's loop for one item of
    [DEFAULT_CONFIG['advertiser']]. *)
Definition init_item (kwargs : dict) (item : string * pyval) : M unit :=
  let (key, value) := item in
  match dict_get kwargs key with
  | Some given =>
      if truthy given then setattr key given
      else log_debug "Using default beacon advertiser configuration" ;;
           setattr key value
  | None =>
      log_debug "Using default beacon advertiser configuration" ;;
      setattr key value
  end.

Definition __init__ (kwargs : dict) : M unit :=
  config <- gets st_DEFAULT_CONFIG ;;
  section <- lift (rbind (getitem config "advertiser") items) ;;
  for_each section (init_item kwargs) ;;
  service <- BeaconService BLE_DEVICE ;;
  store "service" service ;;
  log_info "Initialized beacon advertiser.".

Definition __del__ : M unit :=
  handle <- getattr "control_file_handle" ;;
  (if negb (is_None handle) then close_handle handle else ret tt) ;;
  control_file <- getattr "control_file" ;;
  p <- lift (as_path control_file) ;;
  path_unlink p.

(** One turn of the [while run:] loop; the answer is the new [run]. *)
Definition advertise_cycle (timeout : pyval) (start_time : Q) : M bool :=
  sleep CONTROL_INTERVAL ;;
  run <- (if negb (is_None timeout) then
            now <- monotonic ;;
            late <- lift (elapsed_gt (now - start_time)%Q timeout) ;;
            if late then log_debug "Beacon advertiser timed out." ;; ret false
            else ret true
          else ret true) ;;
  stop <- poll ;;
  if stop then
    log_debug "Beacon advertiser control flag set to stop." ;; ret false
  else ret run.

Fixpoint advertise_loop (fuel : nat) (timeout : pyval) (start_time : Q) : M unit :=
  match fuel with
  | O => out_of_fuel
  | S fuel' =>
      run <- advertise_cycle timeout start_time ;;
      if run then advertise_loop fuel' timeout start_time else ret tt
  end.

Definition advertise (fuel : nat) (timeout : pyval) : M unit :=
  timeout <- (if py_eqb timeout (PInt 0) then getattr "timeout" else ret timeout) ;;
  control_file <- getattr "control_file" ;;
  p <- lift (as_path control_file) ;;
  write_text p "0" ;;
  log_info "Starting beacon advertiser" ;;
  uuid <- getattr "uuid" ;;
  major <- getattr "major" ;;
  minor <- getattr "minor" ;;
  tx_power <- getattr "tx_power" ;;
  interval <- getattr "interval" ;;
  start_advertising uuid major minor tx_power interval ;;
  start_time <- monotonic ;;
  handle <- open_rplus p ;;
  store "control_file_handle" handle ;;
  advertise_loop fuel timeout start_time ;;
  log_info "Stopping beacon advertiser." ;;
  stop_advertising ;;
  handle <- getattr "control_file_handle" ;;
  close_handle handle ;;
  write_text p "0".

End Advertiser.

(* ===================================================================== *)
(** ** Text: what an f-string prints *)
(* ===================================================================== *)

(** [str(z)] for an [int]. *)
Definition decimal (z : Z) : string := NilZero.string_of_int (Z.to_int z).

Fixpoint zeros (n : nat) : string :=
  match n with
  | O => EmptyString
  | S n' => String "0" (zeros n')
  end.

(** A number that is not negative, in decimal, padded with zeros to a
    width: the [%02d] of a date. *)
Definition zero_pad (width : nat) (z : Z) : string :=
  let digits := decimal z in
  zeros (width - String.length digits) ++ digits.

(** Year, month and day of the day that lies so many days after
    1970-01-01 in the Gregorian calendar. *)
Definition civil_from_days (days : Z) : Z * Z * Z :=
  let z := days + 719468 in
  let era := z / 146097 in
  let doe := z - era * 146097 in
  let yoe := (doe - doe / 1460 + doe / 36524 - doe / 146096) / 365 in
  let doy := doe - (365 * yoe + yoe / 4 - yoe / 100) in
  let mp := (5 * doy + 2) / 153 in
  let d := doy - (153 * mp + 2) / 5 + 1 in
  let m := if mp <? 10 then mp + 3 else mp - 9 in
  let y := yoe + era * 400 + (if m <=? 2 then 1 else 0) in
  (y, m, d).

(** [str(t)] for a [datetime]: [YYYY-MM-DD HH:MM:SS], and the
    microseconds when there are any. *)
Definition str_datetime (t : Z) : string :=
  let microsecond := t mod 1000000 in
  let seconds := t / 1000000 in
  let second_of_day := seconds mod 86400 in
  let '(y, m, d) := civil_from_days (seconds / 86400) in
  zero_pad 4 y ++ "-" ++ zero_pad 2 m ++ "-" ++ zero_pad 2 d ++ " "
  ++ zero_pad 2 (second_of_day / 3600) ++ ":"
  ++ zero_pad 2 (second_of_day mod 3600 / 60) ++ ":"
  ++ zero_pad 2 (second_of_day mod 60)
  ++ (if microsecond =? 0 then EmptyString else "." ++ zero_pad 6 microsecond).

(** [f"{v}"], that is [str(v)]: a string prints as itself, without
    quotes.  The text of a finite float and of a container is the
    interpreter's. *)
Definition py_str (e : env) (v : pyval) : string :=
  match v with
  | PNone => "None"
  | PBool true => "True"
  | PBool false => "False"
  | PInt z => decimal z
  | PStr s => s
  | PTime t => str_datetime t
  | PNaN => "nan"
  | PInf false => "inf"
  | PInf true => "-inf"
  | _ => e_str e v
  end.

(* ===================================================================== *)
(** ** The pandas operations the pipeline uses *)
(* ===================================================================== *)

(** [pd.DataFrame(records, columns=columns)]: one row per record, labelled
    from zero, holding the record's value for each column in column order
    (a missing value where the record lacks the column). *)
Definition pd_DataFrame (records : list dict) (columns : list string) : DataFrame :=
  let row_of (d : dict) :=
    map (fun c => (c, match dict_get d c with Some v => v | None => PNone end))
        columns in
  mkDataFrame columns (combine (seq 0 (List.length records)) (map row_of records)).

(** Boolean-mask selection [df[mask]]: the rows whose mask is true, with
    the labels they had. *)
Fixpoint select (mask : list bool) (rows : list (nat * dict)) : list (nat * dict) :=
  match mask, rows with
  | keep :: mask', row :: rows' =>
      if keep then row :: select mask' rows' else select mask' rows'
  | _, _ => []
  end.

(** The value a row holds in a column. *)
Definition cell (row : dict) (key : string) : pyval :=
  match dict_get row key with Some v => v | None => PNone end.

(** [df[key]]: the column, when the table has it. *)
Definition column (df : DataFrame) (key : string) : result (list pyval) :=
  if str_in key (df_columns df)
  then Ok (map (fun row => cell (snd row) key) (df_rows df))
  else Raise KeyError.

(** [series.isin(values)]: a cell is in the list when it equals one of
    its values; NaN is found in a list that holds NaN. *)
Definition isin (cells values : list pyval) : list bool :=
  map (fun c => existsb (fun v => py_eqb c v || (is_nan c && is_nan v)) values)
      cells.

(** [df[df[key].isin([value])]]. *)
Definition isin_mask (key : string) (value : pyval) (df : DataFrame)
  : result DataFrame :=
  rbind (column df key) (fun cells =>
  Ok (mkDataFrame (df_columns df) (select (isin cells [value]) (df_rows df)))).

(** *** The text of a query *)

(** The words of an expression, for texts written with digits, letters,
    dots, blanks and operator signs. *)
Inductive token : Type :=
| TNumber (text : string)
| TName (text : string)
| TOperator (text : string).

Definition is_digit (c : ascii) : bool :=
  let n := nat_of_ascii c in (48 <=? n)%nat && (n <=? 57)%nat.

Definition is_letter (c : ascii) : bool :=
  let n := nat_of_ascii c in
  ((65 <=? n)%nat && (n <=? 90)%nat) || ((97 <=? n)%nat && (n <=? 122)%nat)
  || (n =? 95)%nat.

Definition is_sign (c : ascii) : bool :=
  existsb (Ascii.eqb c)
          (list_ascii_of_string "<>=!+-*/%,:&|~^").

(** The word being read. *)
Inductive lexing : Type :=
| Idle
| Number (text : string)
| Name (text : string)
| Operator (text : string).

Definition close (l : lexing) (out : list token) : list token :=
  match l with
  | Idle => out
  | Number t => TNumber t :: out
  | Name t => TName t :: out
  | Operator t => TOperator t :: out
  end.

(** The words of a text, or nothing when the text holds a character or a
    junction of characters (a quote, a bracket, a letter glued to a
    number, a dot glued to a name) that is left to pandas. *)
Fixpoint lex (text : string) (l : lexing) (out : list token)
  : option (list token) :=
  match text with
  | EmptyString => Some (rev (close l out))
  | String c rest =>
      let one := String c EmptyString in
      if is_digit c then
        match l with
        | Number t => lex rest (Number (t ++ one)) out
        | Name t => lex rest (Name (t ++ one)) out
        | _ => lex rest (Number one) (close l out)
        end
      else if Ascii.eqb c "." then
        match l with
        | Number t => lex rest (Number (t ++ one)) out
        | Name _ => None
        | _ => lex rest (Number one) (close l out)
        end
      else if is_letter c then
        match l with
        | Name t => lex rest (Name (t ++ one)) out
        | Number _ => None
        | _ => lex rest (Name one) (close l out)
        end
      else if Ascii.eqb c " " then lex rest Idle (close l out)
      else if is_sign c then
        match l with
        | Operator t => lex rest (Operator (t ++ one)) out
        | _ => lex rest (Operator one) (close l out)
        end
      else None
  end.

(** Two numbers side by side: no expression has them. *)
Fixpoint adjacent_numbers (tokens : list token) : bool :=
  match tokens with
  | [] => false
  | t :: rest =>
      match t, rest with
      | TNumber _, TNumber _ :: _ => true
      | _, _ => adjacent_numbers rest
      end
  end.

(** The value of a run of digits. *)
Fixpoint digits_value (text : string) (acc : Z) : option Z :=
  match text with
  | EmptyString => Some acc
  | String c rest =>
      if is_digit c
      then digits_value rest (10 * acc + Z.of_nat (nat_of_ascii c - 48))
      else None
  end.

(** The part of a text before its first dot, and the part after it. *)
Fixpoint split_dot (text : string) : string * option string :=
  match text with
  | EmptyString => (EmptyString, None)
  | String c rest =>
      if Ascii.eqb c "." then (EmptyString, Some rest)
      else let (whole, fraction) := split_dot rest in (String c whole, fraction)
  end.

(** The value of a decimal literal: [12], [0], [1.5], [.5], [5.]; an
    integer literal does not start with a zero it could do without. *)
Definition read_number (text : string) : option Q :=
  match split_dot text with
  | (whole, None) =>
      match whole with
      | EmptyString => None
      | String c rest =>
          if Ascii.eqb c "0" && negb (String.eqb rest EmptyString) then None
          else option_map inject_Z (digits_value whole 0)
      end
  | (whole, Some fraction) =>
      if String.eqb whole EmptyString && String.eqb fraction EmptyString then None
      else
        match digits_value whole 0, digits_value fraction 0 with
        | Some w, Some f =>
            Some (inject_Z w + inject_Z f / inject_Z (10 ^ Z.of_nat (String.length fraction)))%Q
        | _, _ => None
        end
  end.

(** A bound of the range: a decimal literal, with a sign or without. *)
Definition operand (tokens : list token) : option (Q * list token) :=
  match tokens with
  | TNumber t :: rest => option_map (fun q => (q, rest)) (read_number t)
  | TOperator sign :: TNumber t :: rest =>
      if String.eqb sign "-"
      then option_map (fun q => (Qopp q, rest)) (read_number t)
      else if String.eqb sign "+"
      then option_map (fun q => (q, rest)) (read_number t)
      else None
  | _ => None
  end.

(** The names Python keeps for itself. *)
Definition KEYWORDS : list string :=
  ["False"; "None"; "True"; "and"; "as"; "assert"; "async"; "await"; "break";
   "class"; "continue"; "def"; "del"; "elif"; "else"; "except"; "finally";
   "for"; "from"; "global"; "if"; "import"; "in"; "is"; "lambda"; "nonlocal";
   "not"; "or"; "pass"; "raise"; "return"; "try"; "while"; "with"; "yield"].

(** What is known of a query from its text: it is the range test
    [low <= column and column' <= high] with decimal bounds, or it is no
    expression at all, or it is left to pandas. *)
Inductive parsed_query : Type :=
| Range (low : Q) (column column' : string) (high : Q)
| Malformed
| Unmodelled.

Definition range_of (tokens : list token) : parsed_query :=
  match operand tokens with
  | Some (low, TOperator op :: TName c :: TName word :: TName c' :: TOperator op'
               :: rest) =>
      match operand rest with
      | Some (high, []) =>
          if String.eqb op "<=" && String.eqb word "and" && String.eqb op' "<="
             && negb (str_in c KEYWORDS) && negb (str_in c' KEYWORDS)
          then Range low c c' high
          else Unmodelled
      | _ => Unmodelled
      end
  | _ => Unmodelled
  end.

Definition parse_query (text : string) : parsed_query :=
  match lex text Idle [] with
  | None => Unmodelled
  | Some tokens =>
      if adjacent_numbers tokens then Malformed else range_of tokens
  end.

(** A cell of a column of numbers. *)
Definition numeric_cell (v : pyval) : option Q :=
  match v with
  | PInt z => Some (inject_Z z)
  | PFloat q => Some q
  | _ => None
  end.

Fixpoint range_rows (low : Q) (c c' : string) (high : Q) (rows : list (nat * dict))
  : option (list bool) :=
  match rows with
  | [] => Some []
  | (_, row) :: rest =>
      match numeric_cell (cell row c), numeric_cell (cell row c'),
            range_rows low c c' high rest with
      | Some x, Some y, Some mask => Some ((Qle_bool low x && Qle_bool y high) :: mask)
      | _, _, _ => None
      end
  end.

(** The mask of a range test on columns of numbers; a test on another
    column is left to pandas. *)
Definition range_mask (low : Q) (c c' : string) (high : Q) (df : DataFrame)
  : option (list bool) :=
  if str_in c (df_columns df) && str_in c' (df_columns df)
  then range_rows low c c' high (df_rows df)
  else None.

(** The rows a query keeps. *)
Definition query_mask (e : env) (text : string) (df : DataFrame)
  : result (list bool) :=
  let pandas := match e_eval e text df with
                | inl err => Raise (query_exn err)
                | inr mask => Ok mask
                end in
  match parse_query text with
  | Malformed => Raise SyntaxError
  | Range low c c' high =>
      match range_mask low c c' high df with
      | Some mask => Ok mask
      | None => pandas
      end
  | Unmodelled => pandas
  end.

(** [df.query(text)]. *)
Definition query (e : env) (text : string) (df : DataFrame) : result DataFrame :=
  rbind (query_mask e text df) (fun mask =>
  Ok (mkDataFrame (df_columns df) (select mask (df_rows df)))).

(** [df.reset_index(inplace=True, drop=True)]. *)
Definition reset_index (df : DataFrame) : DataFrame :=
  mkDataFrame (df_columns df)
              (combine (seq 0 (List.length (df_rows df))) (map snd (df_rows df))).

(** [itertools.zip_longest(l, m)]. *)
Fixpoint zip_longest {A B} (l : list A) (m : list B) : list (option A * option B) :=
  match l with
  | [] => map (fun b => (None, Some b)) m
  | a :: l' =>
      match m with
      | [] => (Some a, None) :: zip_longest l' []
      | b :: m' => (Some a, Some b) :: zip_longest l' m'
      end
  end.

(* ===================================================================== *)
(** ** class Scanner *)
(* ===================================================================== *)

Module Scanner.

Definition COLUMNS : list string :=
  ["ADDRESS"; "TIMESTAMP"; "UUID"; "MAJOR"; "MINOR"; "TX POWER"; "RSSI"].

Definition control_file_setter (value : pyval) : M unit :=
  match value with
  | PStr v =>
      p <- gets (fun s => e_resolve (st_env s) v) ;;
      store "control_file" (PStr p) ;;
      path_touch p ;;
      path_chmod p 511 ;;
      write_text p "0" ;;
      store "control_file_handle" PNone
  | _ => raise TypeError
  end.

Definition scan_prefix_setter (value : pyval) : M unit :=
  if negb (isinstance_str value) then raise TypeError
  else store "scan_prefix" value.

Definition timeout_setter (value : pyval) : M unit :=
  (if negb (is_None value) then
     match number_of value with
     | None => raise TypeError
     | Some x =>
         if number_le x (Finite 0) then raise ValueError
         else if number_lt (Finite (inject_Z MAX_TIMEOUT)) x then raise ValueError
         else ret tt
     end
   else ret tt) ;;
  store "timeout" value.

Definition revisit_setter (value : pyval) : M unit :=
  match int_of value with
  | None => raise TypeError
  | Some z =>
      if z <=? 0 then raise ValueError
      else store "revisit" value
  end.

Definition filters_setter (value : pyval) : M unit :=
  match value with
  | PDict d =>
      if negb (forallb (fun key => str_in key ALLOWABLE_FILTERS) (keys d))
      then raise KeyError
      else store "filters" value
  | _ => raise TypeError
  end.

Definition setattr (key : string) (value : pyval) : M unit :=
  if String.eqb key "control_file" then control_file_setter value
  else if String.eqb key "scan_prefix" then scan_prefix_setter value
  else if String.eqb key "timeout" then timeout_setter value
  else if String.eqb key "revisit" then revisit_setter value
  else if String.eqb key "filters" then filters_setter value
  else store key value.

Definition init_item (kwargs : dict) (item : string * pyval) : M unit :=
  let (key, value) := item in
  match dict_get kwargs key with
  | Some given =>
      if truthy given then setattr key given
      else log_debug "Using default beacon scanner configuration" ;;
           setattr key value
  | None =>
      log_debug "Using default beacon scanner configuration" ;;
      setattr key value
  end.

Definition __init__ (kwargs : dict) : M unit :=
  config <- gets st_DEFAULT_CONFIG ;;
  section <- lift (rbind (getitem config "scanner") items) ;;
  for_each section (init_item kwargs) ;;
  service <- BeaconService BLE_DEVICE ;;
  store "service" service ;;
  log_info "Initialized beacon scanner.".

Definition __del__ : M unit :=
  handle <- getattr "control_file_handle" ;;
  (if negb (is_None handle) then close_handle handle else ret tt) ;;
  control_file <- getattr "control_file" ;;
  p <- lift (as_path control_file) ;;
  path_unlink p.

(** The body of the loop over [self.filters.items()]. *)
Definition apply_filter (e : env) (item : string * pyval)
           (advertisements : DataFrame) : result DataFrame :=
  let (key, value) := item in
  if str_in key ID_FILTERS then isin_mask key value advertisements
  else
    rbind (py_index value 0) (fun low =>
    rbind (py_index value 1) (fun high =>
    let query_str :=
      py_str e low ++ " <= " ++ key ++ " and " ++ key ++ " <= " ++ py_str e high in
    query e query_str advertisements)).

Fixpoint apply_filters (e : env) (filters : dict) (advertisements : DataFrame)
  : result DataFrame :=
  match filters with
  | [] => Ok advertisements
  | item :: rest =>
      rbind (apply_filter e item advertisements) (apply_filters e rest)
  end.

Definition filter_advertisements (e : env) (filters : dict)
           (advertisements : DataFrame) : result DataFrame :=
  rbind (apply_filters e filters advertisements) (fun advertisements =>
  Ok (reset_index advertisements)).

(** The dict built for one item of one scan. *)
Definition advertisement (timestamp : pyval) (item : string * payload) : dict :=
  let (address, payload) := item in
  let advertisement := [("ADDRESS", PStr address); ("TIMESTAMP", timestamp)] in
  let advertisement := dict_set advertisement "UUID" (PStr (p_uuid payload)) in
  let advertisement := dict_set advertisement "MAJOR" (PInt (p_major payload)) in
  let advertisement := dict_set advertisement "MINOR" (PInt (p_minor payload)) in
  let advertisement := dict_set advertisement "TX POWER" (PInt (p_tx_power payload)) in
  dict_set advertisement "RSSI" (PInt (p_rssi payload)).

(** The outer loop of [process_scans] over the zipped pairs; a pair
    without a scan has [None] where [scan.items()] is called. *)
Fixpoint collect (pairs : list (option scan_result * option pyval))
                 (advertisements : list dict) : result (list dict) :=
  match pairs with
  | [] => Ok advertisements
  | (scan, timestamp) :: rest =>
      match scan with
      | None => Raise AttributeError
      | Some scan =>
          let timestamp := match timestamp with Some t => t | None => PNone end in
          collect rest (advertisements ++ map (advertisement timestamp) scan)%list
      end
  end.

Definition process_scans (scans : list scan_result) (timestamps : list pyval)
  : result DataFrame :=
  rbind (collect (zip_longest scans timestamps) []) (fun advertisements =>
  Ok (pd_DataFrame advertisements COLUMNS)).

(** One turn of the [while run:] loop: the new [run], the timestamp taken
    and the scan received. *)
Definition scan_cycle (timeout : pyval) (start_time : Q) (scan_count : nat)
  : M (bool * pyval * scan_result) :=
  revisit <- getattr "revisit" ;;
  log_debug "Performing scan" ;;
  now <- datetime_now ;;
  scan <- service_scan revisit ;;
  run <- (if negb (is_None timeout) then
            now <- monotonic ;;
            late <- lift (elapsed_gt (now - start_time)%Q timeout) ;;
            if late then log_debug "Beacon scanner timed out." ;; ret false
            else ret true
          else ret true) ;;
  stop <- poll ;;
  run <- (if stop then
            log_debug "Beacon scanner control flag set to stop." ;; ret false
          else ret run) ;;
  ret (run, PTime now, scan).

Fixpoint scan_loop (fuel : nat) (timeout : pyval) (start_time : Q)
                   (scan_count : nat) (timestamps : list pyval)
                   (scans : list scan_result)
  : M (list pyval * list scan_result) :=
  match fuel with
  | O => out_of_fuel
  | S fuel' =>
      let scan_count := S scan_count in
      r <- scan_cycle timeout start_time scan_count ;;
      let '(run, timestamp, scan) := r in
      let timestamps := (timestamps ++ [timestamp])%list in
      let scans := (scans ++ [scan])%list in
      if run then scan_loop fuel' timeout start_time scan_count timestamps scans
      else ret (timestamps, scans)
  end.

(** [scan(scan_prefix, timeout, revisit)]; the [revisit] argument is not
    read by the body, which scans for [self.revisit]. *)
Definition scan (fuel : nat) (scan_prefix timeout revisit : pyval) : M DataFrame :=
  scan_prefix <- (if py_eqb scan_prefix (PStr EmptyString) then getattr "scan_prefix"
                  else ret scan_prefix) ;;
  timeout <- (if py_eqb timeout (PInt 0) then getattr "timeout" else ret timeout) ;;
  control_file <- getattr "control_file" ;;
  p <- lift (as_path control_file) ;;
  write_text p "0" ;;
  session <- datetime_now ;;
  log_info "Starting beacon scanner" ;;
  handle <- open_rplus p ;;
  store "control_file_handle" handle ;;
  start_time <- monotonic ;;
  r <- scan_loop fuel timeout start_time 0 [] [] ;;
  let '(timestamps, scans) := r in
  log_info "Stopping beacon scanner." ;;
  handle <- getattr "control_file_handle" ;;
  close_handle handle ;;
  write_text p "0" ;;
  advertisements <- lift (process_scans scans timestamps) ;;
  filters <- getattr "filters" ;;
  filters <- lift (items filters) ;;
  e <- gets st_env ;;
  advertisements <- lift (filter_advertisements e filters advertisements) ;;
  modify (add_csv (scan_prefix, session, advertisements)) ;;
  ret advertisements.

End Scanner.

(* ===================================================================== *)
(** ** load_config *)
(* ===================================================================== *)

(** [config[section]] where a mapping is needed ([key in ...],
    [...[key] = value], [...[key]]). *)
Definition section_of (config : dict) (section : string) : result dict :=
  rbind (getitem config section) unpack.

(** [key in config[section]]. *)
Definition key_in_section (config : dict) (section key : string) : result bool :=
  rbind (section_of config section) (fun d => Ok (dict_mem d key)).

(** [config[section][key] = value]. *)
Definition set_in_section (config : dict) (section key : string) (value : pyval)
  : result dict :=
  rbind (section_of config section) (fun d =>
  Ok (dict_set config section (PDict (dict_set d key value)))).

(** The body of the loop over [parsed_args.items()]. *)
Definition override (item : string * pyval) (config : dict) : result dict :=
  let (key, value) := item in
  if negb (is_None value) then
    rbind (key_in_section config "advertiser" key) (fun in_advertiser =>
    rbind (if in_advertiser then set_in_section config "advertiser" key value
           else Ok config) (fun config =>
    rbind (key_in_section config "scanner" key) (fun in_scanner =>
    if in_scanner then set_in_section config "scanner" key value
    else Ok config)))
  else Ok config.

(** A store through the name [config]: when [config] is the global object
    itself ([config = DEFAULT_CONFIG]) the global sees it. *)
Definition put_config (aliased : bool) (config : dict) : M unit :=
  if aliased then modify (set_DEFAULT_CONFIG config) else ret tt.

Fixpoint merge_args (aliased : bool) (parsed_args : dict) (config : dict) : M dict :=
  match parsed_args with
  | [] => ret config
  | item :: rest =>
      config <- lift (override item config) ;;
      put_config aliased config ;;
      merge_args aliased rest config
  end.

(** The three tests of the filter loop, in the order of the [if]/[elif]
    chain. *)
Definition malformed (item : string * pyval) : result bool :=
  let (key, value) := item in
  if negb (str_in key ALLOWABLE_FILTERS) then Ok true
  else if is_None value then Ok true
  else if str_in key MEASUREMENT_FILTERS then
    rbind (py_len value) (fun n => Ok (negb (Nat.eqb n 2)))
  else Ok false.

Fixpoint filters_to_remove (filters : dict) : result (list string) :=
  match filters with
  | [] => Ok []
  | (key, value) :: rest =>
      rbind (malformed (key, value)) (fun bad =>
      rbind (filters_to_remove rest) (fun more =>
      Ok (if bad then key :: more else more)))
  end.

(** Lines 634-646: [# Remove malformed filters]. *)
Definition remove_malformed_filters (config : dict) : result dict :=
  rbind (section_of config "scanner") (fun scanner =>
  rbind (getitem scanner "filters") (fun filters =>
  if negb (is_None filters) then
    rbind (items filters) (fun entries =>
    rbind (filters_to_remove entries) (fun to_remove =>
    set_in_section config "scanner" "filters"
                   (PDict (fold_left dict_del to_remove entries))))
  else Ok config)).

(** Lines 616-633: the defaults, the file and the command line merged. *)
Definition merge_config (parsed_args : dict) : M (bool * dict) :=
  config_yml <- lift (getitem parsed_args "config_yml") ;;
  if is_None config_yml then
    config <- gets st_DEFAULT_CONFIG ;;
    config <- merge_args true parsed_args config ;;
    ret (true, config)
  else
    path <- lift (match config_yml with PStr p => Ok p | _ => Raise TypeError end) ;;
    loaded <- gets (fun s => e_yaml (st_env s) path) ;;
    config <- lift (rbind loaded unpack) ;;
    defaults <- gets st_DEFAULT_CONFIG ;;
    d_advertiser <- lift (section_of defaults "advertiser") ;;
    c_advertiser <- lift (section_of config "advertiser") ;;
    let config := dict_set config "advertiser"
                           (PDict (dict_merge d_advertiser c_advertiser)) in
    d_scanner <- lift (section_of defaults "scanner") ;;
    c_scanner <- lift (section_of config "scanner") ;;
    let config := dict_set config "scanner"
                           (PDict (dict_merge d_scanner c_scanner)) in
    config <- merge_args false parsed_args config ;;
    ret (false, config).

(** The filters dict of the merged config is the very object
    [DEFAULT_CONFIG['scanner']['filters']] when the whole config is the
    global, and also when the file gave no [filters] and no argument
    replaced it: deletions then show in the global. *)
Definition filters_shared (aliased : bool) (parsed_args : dict) : M bool :=
  if aliased then ret true
  else
    config_yml <- lift (getitem parsed_args "config_yml") ;;
    path <- lift (match config_yml with PStr p => Ok p | _ => Raise TypeError end) ;;
    loaded <- gets (fun s => e_yaml (st_env s) path) ;;
    c_scanner <- lift (rbind (rbind loaded unpack) (fun c => section_of c "scanner")) ;;
    ret (negb (dict_mem c_scanner "filters")
         && negb (existsb (fun item => String.eqb (fst item) "filters"
                                       && negb (is_None (snd item)))
                          parsed_args)).

Definition load_config (parsed_args : dict) : M dict :=
  r <- merge_config parsed_args ;;
  let '(aliased, config) := r in
  config <- lift (remove_malformed_filters config) ;;
  shared <- filters_shared aliased parsed_args ;;
  (if shared then
     defaults <- gets st_DEFAULT_CONFIG ;;
     filters <- lift (rbind (section_of config "scanner")
                            (fun scanner => getitem scanner "filters")) ;;
     defaults <- lift (set_in_section defaults "scanner" "filters" filters) ;;
     modify (set_DEFAULT_CONFIG defaults)
   else ret tt) ;;
  ret config.

(* ===================================================================== *)
(** ** Specification vocabulary *)
(* ===================================================================== *)

Module Spec.

(** The documented range of each configuration field (class docstrings and
    the data model): [major], [minor] in [1, 65535]; [tx_power] in
    [-40, 4]; [interval] in [20, 10000]; [revisit] strictly positive;
    [timeout] strictly positive and at most 600, or [None].  NaN and the
    infinities are floats outside the range of [timeout]. *)
Definition int_between (lo hi : Z) (v : pyval) : bool :=
  match int_of v with
  | Some z => (lo <=? z) && (z <=? hi)
  | None => false
  end.

Definition documented_range (field : string) (v : pyval) : bool :=
  if String.eqb field "major" then int_between 1 65535 v
  else if String.eqb field "minor" then int_between 1 65535 v
  else if String.eqb field "tx_power" then int_between (-40) 4 v
  else if String.eqb field "interval" then int_between 20 10000 v
  else if String.eqb field "revisit" then
    match int_of v with Some z => 0 <? z | None => false end
  else if String.eqb field "timeout" then
    match number_of v with
    | Some (Finite q) => negb (Qle_bool q 0) && Qle_bool q 600
    | Some _ => false
    | None => is_None v
    end
  else true.

(** The type each field is documented to have. *)
Definition documented_type (field : string) (v : pyval) : bool :=
  if str_in field ["major"; "minor"; "tx_power"; "interval"; "revisit"]
  then match int_of v with Some _ => true | None => false end
  else if String.eqb field "timeout"
  then match number_of v with Some _ => true | None => is_None v end
  else if str_in field ["control_file"; "uuid"; "scan_prefix"]
  then isinstance_str v
  else if String.eqb field "filters"
  then match v with
       | PDict d => forallb (fun key => str_in key ALLOWABLE_FILTERS) (keys d)
       | _ => false
       end
  else true.

Definition RANGED_FIELDS : list string :=
  ["major"; "minor"; "tx_power"; "interval"; "revisit"; "timeout"].

(** One role's section of the built-in defaults, and its keys. *)
Definition default_section (role : string) : dict :=
  match section_of DEFAULT_CONFIG role with
  | Ok d => d
  | _ => []
  end.

Definition default_keys (role : string) : list string :=
  keys (default_section role).

(** Keyword arguments whose truthy values have the documented types. *)
Definition well_typed (kwargs : dict) : Prop :=
  forall key v, dict_get kwargs key = Some v -> truthy v = true ->
                documented_type key v = true.

(** Keyword arguments whose truthy values lie in the documented ranges. *)
Definition all_in_range (kwargs : dict) : Prop :=
  forall key v, dict_get kwargs key = Some v -> truthy v = true ->
                documented_range key v = true.

(** Keyword arguments with a truthy value, NaN apart, outside the
    documented range of one of the role's fields. *)
Definition some_out_of_range (role : string) (kwargs : dict) : Prop :=
  exists key v, In key (default_keys role) /\ dict_get kwargs key = Some v
                /\ truthy v = true /\ documented_range key v = false
                /\ is_nan v = false.

(** The constructor stored every truthy keyword of the role as given (the
    control file is stored as a resolved path). *)
Definition stored_as_given (role : string) (kwargs : dict) (s : state) : Prop :=
  forall key v, In key (default_keys role) -> key <> "control_file" ->
                dict_get kwargs key = Some v -> truthy v = true ->
                dict_get (st_self s) key = Some v.

(** The value the constructor hands to [setattr] for one item of the
    default section: the keyword when it is given and truthy. *)
Definition chosen (kwargs : dict) (item : string * pyval) : pyval :=
  match dict_get kwargs (fst item) with
  | Some given => if truthy given then given else snd item
  | None => snd item
  end.

(** The items the constructor of a role iterates over:
    [DEFAULT_CONFIG[role].items()] as the module holds it now. *)
Definition role_section (s : state) (role : string) : dict :=
  match rbind (getitem (st_DEFAULT_CONFIG s) role) items with
  | Ok section => section
  | _ => []
  end.

(** The role's section of [DEFAULT_CONFIG] still has the keys it was
    written with. *)
Definition known_keys (s : state) (role : string) : Prop :=
  keys (role_section s role) = default_keys role.

(** What a setter lets through: the documented range and, for the
    timeout, NaN, of which neither [value <= 0] nor [value > MAX_TIMEOUT]
    holds. *)
Definition passes (field : string) (v : pyval) : bool :=
  documented_range field v || (String.eqb field "timeout" && is_nan v).

(** The world and the module's defaults are as they were. *)
Definition same_world (s s' : state) : Prop :=
  st_env s' = st_env s /\ st_tick s' = st_tick s
  /\ st_DEFAULT_CONFIG s' = st_DEFAULT_CONFIG s.

(** The exception a setter raises on a value of the wrong type: the
    filters setter answers an unknown filter name with [KeyError]. *)
Definition type_error (key : string) (v : pyval) : exn :=
  if String.eqb key "filters" && isinstance_dict v then KeyError else TypeError.

(** The values [DEFAULT_CONFIG] holds for the role have the documented
    types. *)
Definition typed_defaults (s : state) (role : string) : Prop :=
  known_keys s role
  /\ forall item, In item (role_section s role) ->
                  documented_type (fst item) (snd item) = true.

(** The values [DEFAULT_CONFIG] holds for the role pass their setters. *)
Definition sound_defaults (s : state) (role : string) : Prop :=
  forall item, In item (role_section s role) ->
               passes (fst item) (snd item) = true.

(** The operating system refuses nothing on the path at the moment. *)
Definition permits_now (s : state) (p : string) : Prop :=
  forall op, e_refuses (st_env s) (st_tick s) op p = None.

(** The operating system refuses nothing on the path, now or later. *)
Definition permits (s : state) (p : string) : Prop :=
  forall t op, e_refuses (st_env s) t op p = None.

(** The operating system lets the constructor create the control file it
    is about to name. *)
Definition control_file_free (s : state) (role : string) (kwargs : dict) : Prop :=
  forall default value,
    dict_get (role_section s role) "control_file" = Some default ->
    chosen kwargs ("control_file", default) = PStr value ->
    permits_now s (e_resolve (st_env s) value).

(** Every attribute under another name is as it was; the handle attribute
    belongs to the control-file setter. *)
Definition frames (key : string) (s s' : state) : Prop :=
  forall k, k <> key -> k <> "control_file_handle" ->
            dict_get (st_self s') k = dict_get (st_self s) k.

(** The attribute holds the value handed in; [control_file] holds the
    resolved path and an empty [uuid] is replaced by a generated one. *)
Definition keeps (key : string) (v : pyval) (s' : state) : Prop :=
  key <> "control_file" -> (key = "uuid" -> truthy v = true) ->
  dict_get (st_self s') key = Some v.

(** Every attribute of the role holds the value the constructor chose for
    it. *)
Definition holds_chosen (section kwargs : dict) (s : state) : Prop :=
  forall item, In item section ->
               keeps (fst item) (chosen kwargs item) s.

(** The attribute holds a value of the documented type that its setter
    lets through. *)
Definition valid_attribute (key : string) (s : state) : Prop :=
  exists v, dict_get (st_self s) key = Some v
            /\ documented_type key v = true
            /\ passes key v = true.

(** *** The scan-record pipeline *)

(** The cycles as [process_scans] reads them when there are at least as
    many scans as timestamps: a scan without a timestamp is paired with
    [None]. *)
Fixpoint pair_up (scans : list scan_result) (timestamps : list pyval)
  : list (scan_result * pyval) :=
  match scans with
  | [] => []
  | scan :: scans' =>
      match timestamps with
      | [] => (scan, PNone) :: pair_up scans' []
      | t :: timestamps' => (scan, t) :: pair_up scans' timestamps'
      end
  end.

(** The records of one cycle, in the order the scan yields its items. *)
Definition cycle_records (c : scan_result * pyval) : list dict :=
  map (Scanner.advertisement (snd c)) (fst c).

(** The timestamp of the first row is not after that of the second. *)
Definition time_le (r1 r2 : dict) : Prop :=
  exists t1 t2, dict_get r1 "TIMESTAMP" = Some (PTime t1)
                /\ dict_get r2 "TIMESTAMP" = Some (PTime t2)
                /\ t1 <= t2.

Definition has_address (a : string) (row : dict) : bool :=
  match dict_get row "ADDRESS" with
  | Some (PStr b) => String.eqb a b
  | _ => false
  end.

(** Rows with one address are next to each other. *)
Definition grouped_by_address (rows : list dict) : Prop :=
  forall i j k ri rj rk, (i < j < k)%nat ->
    nth_error rows i = Some ri -> nth_error rows j = Some rj ->
    nth_error rows k = Some rk ->
    dict_get ri "ADDRESS" = dict_get rk "ADDRESS" ->
    dict_get rj "ADDRESS" = dict_get ri "ADDRESS".

(** *** Resolving the configuration *)

(** [config[role][key]], when it is there. *)
Definition section_get (config : dict) (role key : string) : option pyval :=
  match section_of config role with
  | Ok d => dict_get d key
  | _ => None
  end.

(** The two role sections of the loaded file; both empty when no file is
    named. *)
Definition loaded_sections (s : state) (parsed_args : dict) : option (dict * dict) :=
  match dict_get parsed_args "config_yml" with
  | Some PNone => Some ([], [])
  | Some (PStr path) =>
      match e_yaml (st_env s) path with
      | Ok (PDict doc) =>
          match dict_get doc "advertiser", dict_get doc "scanner" with
          | Some (PDict a), Some (PDict b) => Some (a, b)
          | _, _ => None
          end
      | _ => None
      end
  | _ => None
  end.

(** No configuration file is named on the command line. *)
Definition no_file (parsed_args : dict) : bool :=
  match dict_get parsed_args "config_yml" with
  | Some PNone => true
  | _ => false
  end.

(** What the command line leaves in a section [sec]. *)
Definition over (sec parsed_args : dict) (key : string) : option pyval :=
  match dict_get parsed_args key with
  | Some v => if negb (is_None v) && dict_mem sec key then Some v
              else dict_get sec key
  | None => dict_get sec key
  end.

(** Precedence: a command-line value, when it is not [None] and the key is
    known to the role, then the file's value, then the default. *)
Definition resolved (defaults file parsed_args : dict) (key : string)
  : option pyval :=
  let lower := match dict_get file key with
               | Some v => Some v
               | None => dict_get defaults key
               end in
  match dict_get parsed_args key with
  | Some v =>
      if negb (is_None v) && (dict_mem defaults key || dict_mem file key)
      then Some v
      else lower
  | None => lower
  end.

(** A filter entry that [load_config] keeps. *)
Definition well_formed_filter (item : string * pyval) : Prop :=
  let (key, value) := item in
  str_in key ALLOWABLE_FILTERS = true
  /\ value <> PNone
  /\ (str_in key MEASUREMENT_FILTERS = true -> py_len value = Ok 2%nat).

(** A filter entry whose value has a length when the loop asks for it. *)
Definition sized_filter (item : string * pyval) : Prop :=
  let (key, value) := item in
  str_in key MEASUREMENT_FILTERS = true ->
  value = PNone \/ exists n, py_len value = Ok n.

(** Nothing has been said and nothing done outside the module's
    defaults: no log record, no write, no file or attribute changed. *)
Definition silent (s s' : state) : Prop :=
  st_trace s' = st_trace s /\ st_fs s' = st_fs s /\ st_self s' = st_self s.

(** *** The scan loop's clock *)

(** The cycle brings no stop signal to the control file at [p]. *)
Definition no_stop_signal (p : string) (c : cycle) : Prop :=
  match c_write c with
  | None => True
  | Some (q, content) => q <> p \/ content = "0"
  end.

(** From the state's tick on, every scan takes [revisit] seconds, answers,
    and nobody asks to stop. *)
Definition steady (s : state) (p : string) (revisit : Z) : Prop :=
  forall k, (st_tick s <= k)%nat ->
    let c := e_cycle (st_env s) k in
    (c_duration c == inject_Z revisit)%Q
    /\ no_stop_signal p c
    /\ exists scan, c_scan c = Ok scan.

(** A scanner inside a session: the handle is open on the control file,
    which holds "0", and [self.revisit] is set. *)
Definition scanning (s : state) (p : string) (revisit : Z) : Prop :=
  dict_get (st_self s) "control_file_handle" = Some (PFile p true)
  /\ content_of s p = Some "0"
  /\ dict_get (st_self s) "revisit" = Some (PInt revisit).

(** *** Sessions *)

(** The timeout a session runs with: the argument, or the attribute when
    the argument is left at zero. *)
Definition effective_timeout (s : state) (timeout : pyval) : option pyval :=
  if py_eqb timeout (PInt 0) then dict_get (st_self s) "timeout"
  else Some timeout.

(** A timeout the loops can compare the elapsed time with: [None] or a
    number. *)
Definition session_timeout (t : pyval) : Prop :=
  t = PNone \/ exists x, number_of t = Some x.

(** A controller inside a session: the handle is open on the control
    file, which holds "0". *)
Definition polling (s : state) (p : string) : Prop :=
  dict_get (st_self s) "control_file_handle" = Some (PFile p true)
  /\ content_of s p = Some "0".

(** From the state's tick on, nobody asks to stop. *)
Definition undisturbed (s : state) (p : string) : Prop :=
  forall k, (st_tick s <= k)%nat -> no_stop_signal p (e_cycle (st_env s) k).

(** Nobody asks to stop during the next [k] blocking calls, and during
    the one after them somebody writes [content] to the control file. *)
Definition stop_request (s : state) (p content : string) (k : nat) : Prop :=
  (forall j, (j < k)%nat -> no_stop_signal p (e_cycle (st_env s) (st_tick s + j)))
  /\ c_write (e_cycle (st_env s) (st_tick s + k)) = Some (p, content).

(** An advertiser that can start a session on the control file [p]: it
    holds the path and the five beacon parameters, and the radio obeys. *)
Definition advertiser_ready (s : state) (p : string) : Prop :=
  dict_get (st_self s) "control_file" = Some (PStr p)
  /\ (forall key, In key ["uuid"; "major"; "minor"; "tx_power"; "interval"] ->
                  dict_get (st_self s) key <> None)
  /\ e_start_advertising (st_env s) = None
  /\ e_stop_advertising (st_env s) = None.

(** A scanner that can start a session on the control file [p]: it holds
    the path, a prefix and a revisit interval, and every scan answers. *)
Definition scanner_ready (s : state) (p : string) : Prop :=
  dict_get (st_self s) "control_file" = Some (PStr p)
  /\ dict_get (st_self s) "scan_prefix" <> None
  /\ dict_get (st_self s) "revisit" <> None
  /\ forall k, exists scan, c_scan (e_cycle (st_env s) k) = Ok scan.

End Spec.

(* ===================================================================== *)
(** ** Assertions about runs *)
(* ===================================================================== *)

(** [sat x Q E F]: the run [x] ended normally in a state where [Q] holds
    of its answer, or raised an exception of which [E] holds in the state
    it was raised in, or was cut short by the fuel in a state where [F]
    holds. *)
Definition sat {A} (x : result A * state)
           (Q : A -> state -> Prop) (E : exn -> state -> Prop)
           (F : state -> Prop) : Prop :=
  match x with
  | (Ok a, s') => Q a s'
  | (Raise e, s') => E e s'
  | (OutOfFuel, s') => F s'
  end.

(** Partial correctness: nothing is said of a run cut short. *)
Definition post {A} (x : result A * state)
           (Q : A -> state -> Prop) (E : exn -> state -> Prop) : Prop :=
  sat x Q E (fun _ => True).

(** The run returns, and [Q] holds of its answer. *)
Definition returns {A} (x : result A * state) (Q : A -> state -> Prop) : Prop :=
  sat x Q (fun _ _ => False) (fun _ => False).

(** The controller's handle on the control file is open. *)
Definition handle_open (s : state) : Prop :=
  exists p, dict_get (st_self s) "control_file_handle" = Some (PFile p true).

(** A fault of the radio service found the handle open. *)
Definition fault_leaves_open (e : exn) (s : state) : Prop :=
  e = RadioServiceError -> handle_open s.

(** The exception is not a fault of the radio service. *)
Definition not_radio (e : exn) (s : state) : Prop :=
  e <> RadioServiceError.

(** The STOPPING clean-up has run: the handle is closed and the control
    file holds "0". *)
Definition cleaned_up (p : string) (s : state) : Prop :=
  dict_get (st_self s) "control_file_handle" = Some (PFile p false)
  /\ content_of s p = Some "0".

(* ===================================================================== *)
(** ** Sample worlds *)
(* ===================================================================== *)

Module Sample.

(** A quiet cycle: one second long, nobody writes, the scan hears
    nothing. *)
Definition quiet (n : nat) : cycle := mkCycle (Z.of_nat n) 1 None (Ok []).

Definition env0 : env :=
  mkEnv (fun p => p) "5f1c2a3e-0000-11ee-be56-0242ac120002"
        (fun _ => Raise FileNotFoundError) None None None quiet
        (fun _ _ _ => None) (fun _ => "?") (fun _ _ => inl QNameError).

(** A radio service whose every scan fails. *)
Definition deaf (n : nat) : cycle :=
  mkCycle (Z.of_nat n) 1 None (Raise RadioServiceError).

Definition env_deaf : env :=
  mkEnv (fun p => p) "5f1c2a3e-0000-11ee-be56-0242ac120002"
        (fun _ => Raise FileNotFoundError) None None None deaf
        (fun _ _ _ => None) (fun _ => "?") (fun _ _ => inl QNameError).

(** The state of a fresh process: no controller yet, pristine global, no
    control file. *)
Definition fresh (e : env) : state :=
  mkState e [] DEFAULT_CONFIG (fun _ => None) 0 0 false [] [].

(** A scanner built from the defaults in a world whose radio is deaf. *)
Definition deaf_scanner : state :=
  snd (Scanner.__init__ [] (fresh env_deaf)).

(** A scanner with a timeout of two seconds whose session has just
    started: the handle is open and the loop is about to begin. *)
Definition started_scanner : state :=
  snd ((Scanner.__init__ [("timeout", PInt 2)] ;;
        handle <- open_rplus "scanner_control" ;;
        store "control_file_handle" handle) (fresh env0)).

(** A world in which somebody writes "1" to the advertiser's control
    file during the third blocking call. *)
Definition stop_at_third (n : nat) : cycle :=
  mkCycle (Z.of_nat n) 1
          (if Nat.eqb n 2 then Some ("advertiser_control", "1") else None)
          (Ok []).

Definition env_stop : env :=
  mkEnv (fun p => p) "5f1c2a3e-0000-11ee-be56-0242ac120002"
        (fun _ => Raise FileNotFoundError) None None None stop_at_third
        (fun _ _ _ => None) (fun _ => "?") (fun _ _ => inl QNameError).

(** An advertiser built from the defaults in that world; the control
    file still holds the "1" that ended an earlier session. *)
Definition stopped_advertiser : state :=
  write_file "advertiser_control" "1"
             (snd (Advertiser.__init__ [] (fresh env_stop))).

(** A scanner built from the defaults in a quiet world; the control file
    still holds the "1" that ended an earlier session. *)
Definition stopped_scanner : state :=
  write_file "scanner_control" "1"
             (snd (Scanner.__init__ [] (fresh env0))).

(** A scanner is built from the defaults and scans until it stops. *)
Definition scanner_session (fuel : nat) (kwargs : dict) : M DataFrame :=
  Scanner.__init__ kwargs ;;
  Scanner.scan fuel (PStr EmptyString) (PInt 0) (PInt 1).

(** Two cycles that both hear the beacons AA and BB. *)
Definition two_beacons : scan_result :=
  [ ("AA", mkPayload "u1" 1 2 (-59) (-65));
    ("BB", mkPayload "u2" 1 3 (-59) (-70)) ].

(** The scans of the end-to-end scenario: one beacon heard twice. *)
Definition scenario_scans : list scan_result :=
  [ [("AA:BB", mkPayload "uuid1" 1 2 (-59) (-65))];
    [("AA:BB", mkPayload "uuid1" 1 2 (-59) (-70))] ].

Definition scenario_filters : dict :=
  [ ("RSSI", PList [PInt (-68); PInt (-60)]) ].

(** A filter on the timestamp: the whole of the first of January 2020,
    as datetimes. *)
Definition new_year_2020 : Z := 1577836800000000.

Definition timestamp_filters : dict :=
  [ ("TIMESTAMP", PList [PTime new_year_2020;
                         PTime (new_year_2020 + 86400000000)]) ].

Definition scenario_table : DataFrame :=
  match Scanner.process_scans scenario_scans [PTime 1; PTime 2] with
  | Ok df => df
  | _ => mkDataFrame [] []
  end.

(** A configuration file that sets two advertiser keys and gives the
    scanner one sound and three malformed filters. *)
Definition yaml_doc : pyval :=
  PDict [ ("advertiser", PDict [ ("major", PInt 5); ("interval", PInt 100) ]);
          ("scanner", PDict [ ("filters", PDict
             [ ("RSSI", PList [PInt (-80); PInt (-40)]);
               ("COLOUR", PStr "red");
               ("UUID", PNone);
               ("TIMESTAMP", PList [PTime 0]) ]) ]) ].

(** A configuration file whose RSSI filter is a bare number. *)
Definition yaml_bare_bound : pyval :=
  PDict [ ("advertiser", PDict []);
          ("scanner", PDict [ ("filters", PDict [ ("RSSI", PInt (-60)) ]) ]) ].

(** A configuration file that sets one advertiser key and says nothing
    of the scanner. *)
Definition yaml_partial : pyval :=
  PDict [ ("advertiser", PDict [ ("major", PInt 5) ]) ].

Definition env_yaml : env :=
  mkEnv (fun p => p) "5f1c2a3e-0000-11ee-be56-0242ac120002"
        (fun path => if String.eqb path "beacon.yml" then Ok yaml_doc
                     else if String.eqb path "bare.yml" then Ok yaml_bare_bound
                     else if String.eqb path "partial.yml" then Ok yaml_partial
                     else Raise FileNotFoundError)
        None None None quiet
        (fun _ _ _ => None) (fun _ => "?") (fun _ _ => inl QNameError).

(** The two role sections of [yaml_doc]. *)
Definition yaml_advertiser : dict := [ ("major", PInt 5); ("interval", PInt 100) ].
Definition yaml_scanner : dict :=
  [ ("filters", PDict
       [ ("RSSI", PList [PInt (-80); PInt (-40)]);
         ("COLOUR", PStr "red");
         ("UUID", PNone);
         ("TIMESTAMP", PList [PTime 0]) ]) ].

(** The parsed command line [--scanner --config_yml beacon.yml --major 7
    --timeout 2]. *)
Definition parsed_args : dict :=
  [ ("advertiser", PBool false); ("scanner", PBool true);
    ("config_yml", PStr "beacon.yml"); ("control_file", PNone);
    ("scan_prefix", PNone); ("timeout", PFloat 2); ("uuid", PNone);
    ("major", PInt 7); ("minor", PNone); ("tx_power", PNone);
    ("interval", PNone); ("revisit", PNone) ].

(** The parsed command line [--advertiser --config_yml partial.yml]. *)
Definition parsed_args_partial : dict :=
  [ ("advertiser", PBool true); ("scanner", PBool false);
    ("config_yml", PStr "partial.yml"); ("control_file", PNone);
    ("scan_prefix", PNone); ("timeout", PNone); ("uuid", PNone);
    ("major", PNone); ("minor", PNone); ("tx_power", PNone);
    ("interval", PNone); ("revisit", PNone) ].

(** The parsed command line [--scanner --config_yml bare.yml]. *)
Definition parsed_args_bare : dict :=
  [ ("advertiser", PBool false); ("scanner", PBool true);
    ("config_yml", PStr "bare.yml"); ("control_file", PNone);
    ("scan_prefix", PNone); ("timeout", PNone); ("uuid", PNone);
    ("major", PNone); ("minor", PNone); ("tx_power", PNone);
    ("interval", PNone); ("revisit", PNone) ].

(** The parsed command line [--advertiser --major 0]: no configuration
    file. *)
Definition parsed_args_major_0 : dict :=
  [ ("advertiser", PBool true); ("scanner", PBool false);
    ("config_yml", PNone); ("control_file", PNone);
    ("scan_prefix", PNone); ("timeout", PNone); ("uuid", PNone);
    ("major", PInt 0); ("minor", PNone); ("tx_power", PNone);
    ("interval", PNone); ("revisit", PNone) ].

(** The advertiser configuration of the end-to-end scenario. *)
Definition scenario_kwargs : dict :=
  [ ("major", PInt 5); ("minor", PInt 9); ("tx_power", PInt (-20));
    ("interval", PInt 100); ("timeout", PInt 2) ].

End Sample.

Import Spec.

(* ===================================================================== *)
(** ** Dictionaries *)
(* ===================================================================== *)

Lemma dict_get_set (d : dict) (k k' : string) (v : pyval) :
  dict_get (dict_set d k v) k' = if String.eqb k' k then Some v else dict_get d k'.
Proof.
  induction d as [|[k0 v0] d IH]; simpl.
  - reflexivity.
  - destruct (String.eqb_spec k k0) as [->|Hk]; simpl.
    + destruct (String.eqb_spec k' k0); reflexivity.
    + rewrite IH. destruct (String.eqb_spec k' k0) as [->|Hk'].
      * destruct (String.eqb_spec k0 k); [congruence | reflexivity].
      * reflexivity.
Qed.

Lemma dict_get_set_same (d : dict) (k : string) (v : pyval) :
  dict_get (dict_set d k v) k = Some v.
Proof. rewrite dict_get_set, String.eqb_refl. reflexivity. Qed.

Lemma dict_get_set_other (d : dict) (k k' : string) (v : pyval) :
  k' <> k -> dict_get (dict_set d k v) k' = dict_get d k'.
Proof.
  intros H. rewrite dict_get_set.
  destruct (String.eqb_spec k' k); [contradiction | reflexivity].
Qed.

Lemma dict_get_del (d : dict) (k k' : string) :
  dict_get (dict_del d k) k' = if String.eqb k' k then None else dict_get d k'.
Proof.
  induction d as [|[k0 v0] d IH]; simpl.
  - destruct (String.eqb k' k); reflexivity.
  - destruct (String.eqb_spec k k0) as [->|Hk]; simpl.
    + rewrite IH. destruct (String.eqb_spec k' k0); reflexivity.
    + rewrite IH. destruct (String.eqb_spec k' k0) as [->|Hk'].
      * destruct (String.eqb_spec k0 k); [congruence | reflexivity].
      * reflexivity.
Qed.

(* ===================================================================== *)
(** ** Running computations *)
(* ===================================================================== *)

Lemma bind_ok {A B} (m : M A) (k : A -> M B) (s s1 : state) (a : A) :
  m s = (Ok a, s1) -> bind m k s = k a s1.
Proof. intros H. unfold bind. rewrite H. reflexivity. Qed.

Lemma bind_raise {A B} (m : M A) (k : A -> M B) (s s1 : state) (e : exn) :
  m s = (Raise e, s1) -> bind m k s = (Raise e, s1).
Proof. intros H. unfold bind. rewrite H. reflexivity. Qed.

(** What a finished [bind] says about its two halves. *)
Lemma bind_inv {A B} (m : M A) (k : A -> M B) (s s' : state) (r : result B) :
  bind m k s = (r, s') ->
  (exists a s1, m s = (Ok a, s1) /\ k a s1 = (r, s'))
  \/ (exists e, m s = (Raise e, s') /\ r = Raise e)
  \/ (m s = (OutOfFuel, s') /\ r = OutOfFuel).
Proof.
  unfold bind. destruct (m s) as [[a|e|] s1]; intros H.
  - left. eauto.
  - right. left. inversion H; subst. eauto.
  - right. right. inversion H; subst. eauto.
Qed.

Lemma init_item_falsy_A (kwargs : dict) (key : string) (given dflt : pyval) :
  dict_get kwargs key = Some given -> truthy given = false ->
  Advertiser.init_item kwargs (key, dflt)
  = (log_debug "Using default beacon advertiser configuration" ;;
     Advertiser.setattr key dflt).
Proof. intros H1 H2. unfold Advertiser.init_item. rewrite H1, H2. reflexivity. Qed.


(* ===================================================================== *)
(** ** Rules for runs *)
(* ===================================================================== *)

Section Rules.

Context {A : Type}.
Variable Q : A -> state -> Prop.
Variable E : exn -> state -> Prop.
Variable F : state -> Prop.

Lemma sat_bind {B} (m : M B) (k : B -> M A) (s : state) :
  sat (m s) (fun a s1 => sat (k a s1) Q E F) E F ->
  sat (bind m k s) Q E F.
Proof.
  unfold sat, bind. destruct (m s) as [[a|e|] s1]; auto.
Qed.

Lemma sat_ret (a : A) (s : state) : Q a s -> sat (ret a s) Q E F.
Proof. auto. Qed.

Lemma sat_lift (r : result A) (s : state) :
  (forall a, r = Ok a -> Q a s) -> (forall e, r = Raise e -> E e s) ->
  (r = OutOfFuel -> F s) ->
  sat (lift r s) Q E F.
Proof. unfold sat, lift. destruct r; auto. Qed.

Lemma sat_gets (f : state -> A) (s : state) :
  Q (f s) s -> sat (gets f s) Q E F.
Proof. auto. Qed.

End Rules.

Section UnitRules.

Variable Q : unit -> state -> Prop.
Variable E : exn -> state -> Prop.
Variable F : state -> Prop.

Lemma sat_modify (f : state -> state) (s : state) :
  Q tt (f s) -> sat (modify f s) Q E F.
Proof. auto. Qed.

Lemma sat_os_check (op : fs_op) (p : string) (s : state) :
  (e_refuses (st_env s) (st_tick s) op p = None -> Q tt s) ->
  (forall err, e_refuses (st_env s) (st_tick s) op p = Some err ->
               E (os_exn err) s) ->
  sat (os_check op p s) Q E F.
Proof.
  intros H1 H2. unfold sat, os_check.
  destruct (e_refuses (st_env s) (st_tick s) op p) as [err|]; auto.
Qed.

Lemma sat_write_text (p c : string) (s : state) :
  (e_refuses (st_env s) (st_tick s) OpenWrite p = None ->
   Q tt (add_event (EvWrite p c) (write_file p c s))) ->
  (forall err, e_refuses (st_env s) (st_tick s) OpenWrite p = Some err ->
               E (os_exn err) s) ->
  sat (write_text p c s) Q E F.
Proof.
  intros H1 H2. unfold sat, write_text, bind, os_check, modify, emit.
  destruct (e_refuses (st_env s) (st_tick s) OpenWrite p) as [err|] eqn:Er; simpl;
    [apply (H2 _ eq_refl)|].
  apply (H1 eq_refl).
Qed.

Lemma sat_path_touch (p : string) (s : state) :
  (e_refuses (st_env s) (st_tick s) Touch p = None ->
   Q tt (match st_fs s p with
         | Some _ => s
         | None => set_fs (fs_upd (st_fs s) p (Some (mkFile EmptyString 420))) s
         end)) ->
  (forall err, e_refuses (st_env s) (st_tick s) Touch p = Some err ->
               E (os_exn err) s) ->
  sat (path_touch p s) Q E F.
Proof.
  intros H1 H2. unfold sat, path_touch, bind, os_check, modify.
  destruct (e_refuses (st_env s) (st_tick s) Touch p) as [err|] eqn:Er; simpl;
    [apply (H2 _ eq_refl)|].
  apply (H1 eq_refl).
Qed.

Lemma sat_path_chmod (p : string) (mode : Z) (s : state) :
  (e_refuses (st_env s) (st_tick s) Chmod p = None ->
   forall f, st_fs s p = Some f ->
     Q tt (set_fs (fs_upd (st_fs s) p (Some (mkFile (f_content f) mode))) s)) ->
  (e_refuses (st_env s) (st_tick s) Chmod p = None ->
   st_fs s p = None -> E FileNotFoundError s) ->
  (forall err, e_refuses (st_env s) (st_tick s) Chmod p = Some err ->
               E (os_exn err) s) ->
  sat (path_chmod p mode s) Q E F.
Proof.
  intros H1 H2 H3. unfold sat, path_chmod, bind, os_check.
  destruct (e_refuses (st_env s) (st_tick s) Chmod p) as [err|] eqn:Er; simpl;
    [apply (H3 _ eq_refl)|].
  destruct (st_fs s p) as [f|] eqn:Ef; [apply (H1 eq_refl f eq_refl) | apply (H2 eq_refl eq_refl)].
Qed.

Lemma sat_close_handle (h : pyval) (s : state) :
  (forall p, h = PFile p true ->
     Q tt (add_event (EvClose p)
             (set_self (dict_set (st_self s) "control_file_handle" (PFile p false)) s))) ->
  (forall p, h = PFile p false -> Q tt s) ->
  ((forall p b, h <> PFile p b) -> E AttributeError s) ->
  sat (close_handle h s) Q E F.
Proof.
  intros H1 H2 H3. destruct h as [| | | | | |p [|]| | | |];
    try (apply H3; intros; discriminate).
  - apply (H1 p eq_refl).
  - apply (H2 p eq_refl).
Qed.

Lemma sat_start_advertising (u ma mi tx iv : pyval) (s : state) :
  (e_start_advertising (st_env s) = None ->
     Q tt (add_event (EvStartAdvertising u ma mi tx iv) (set_advertising true s))) ->
  (forall e, e_start_advertising (st_env s) = Some e -> E e s) ->
  sat (start_advertising u ma mi tx iv s) Q E F.
Proof.
  intros H1 H2. unfold sat, start_advertising, bind, gets.
  destruct (e_start_advertising (st_env s)) as [e|].
  - apply (H2 e eq_refl).
  - apply (H1 eq_refl).
Qed.

Lemma sat_stop_advertising (s : state) :
  (e_stop_advertising (st_env s) = None ->
     Q tt (add_event EvStopAdvertising (set_advertising false s))) ->
  (forall e, e_stop_advertising (st_env s) = Some e -> E e s) ->
  sat (stop_advertising s) Q E F.
Proof.
  intros H1 H2. unfold sat, stop_advertising, bind, gets.
  destruct (e_stop_advertising (st_env s)) as [e|].
  - apply (H2 e eq_refl).
  - apply (H1 eq_refl).
Qed.

End UnitRules.

Lemma sat_conseq {A} (x : result A * state)
      (Q Q' : A -> state -> Prop) (E E' : exn -> state -> Prop)
      (F F' : state -> Prop) :
  sat x Q E F ->
  (forall a s, Q a s -> Q' a s) -> (forall e s, E e s -> E' e s) ->
  (forall s, F s -> F' s) ->
  sat x Q' E' F'.
Proof.
  unfold sat. destruct x as [[a|e|] s]; auto.
Qed.

Lemma post_conseq {A} (x : result A * state)
      (Q Q' : A -> state -> Prop) (E E' : exn -> state -> Prop)
      (F' : state -> Prop) :
  post x Q E ->
  (forall a s, Q a s -> Q' a s) -> (forall e s, E e s -> E' e s) ->
  (forall s, F' s) ->
  sat x Q' E' F'.
Proof.
  intros H HQ HE HF. apply (sat_conseq _ _ _ _ _ _ _ H HQ HE).
  intros s _. apply HF.
Qed.

Lemma sat_getattr (name : string) (s : state)
      (Q : pyval -> state -> Prop) (E : exn -> state -> Prop) (F : state -> Prop) :
  (forall v, dict_get (st_self s) name = Some v -> Q v s) ->
  (dict_get (st_self s) name = None -> E AttributeError s) ->
  sat (getattr name s) Q E F.
Proof.
  unfold sat, getattr. destruct (dict_get (st_self s) name); auto.
Qed.

Lemma sat_open_rplus (p : string) (s : state)
      (Q : pyval -> state -> Prop) (E : exn -> state -> Prop) (F : state -> Prop) :
  (forall f, st_fs s p = Some f -> Q (PFile p true) (add_event (EvOpen p) s)) ->
  (st_fs s p = None -> E FileNotFoundError s) ->
  (forall err, e_refuses (st_env s) (st_tick s) OpenUpdate p = Some err ->
               E (os_exn err) s) ->
  sat (open_rplus p s) Q E F.
Proof.
  intros H1 H2 H3. unfold sat, open_rplus, bind, os_check.
  destruct (e_refuses (st_env s) (st_tick s) OpenUpdate p) as [err|] eqn:Er; simpl;
    [apply (H3 _ eq_refl)|].
  destruct (st_fs s p) as [f|] eqn:Ef; [apply (H1 f eq_refl) | apply (H2 eq_refl)].
Qed.

Lemma sat_BeaconService (device : string) (s : state)
      (Q : pyval -> state -> Prop) (E : exn -> state -> Prop) (F : state -> Prop) :
  (e_beacon_service (st_env s) = None -> Q (PStr device) s) ->
  (forall e, e_beacon_service (st_env s) = Some e -> E e s) ->
  sat (BeaconService device s) Q E F.
Proof.
  intros H1 H2. unfold sat, BeaconService, bind, gets.
  destruct (e_beacon_service (st_env s)) as [e|] eqn:Eb;
    [apply (H2 e eq_refl) | apply (H1 eq_refl)].
Qed.

Lemma sat_seek0_read (h : pyval) (s : state)
      (Q : string -> state -> Prop) (E : exn -> state -> Prop) (F : state -> Prop) :
  (forall p, h = PFile p true ->
     Q (match st_fs s p with Some f => f_content f | None => EmptyString end) s) ->
  (forall p, h = PFile p false -> E ValueError s) ->
  ((forall p b, h <> PFile p b) -> E AttributeError s) ->
  sat (seek0_read h s) Q E F.
Proof.
  intros H1 H2 H3. destruct h as [| | | | | |p [|]| | | |];
    try (apply H3; intros; discriminate).
  - specialize (H1 p eq_refl). unfold sat, seek0_read.
    destruct (st_fs s p); exact H1.
  - apply (H2 p eq_refl).
Qed.

Lemma sat_service_scan (revisit : pyval) (s : state)
      (Q : scan_result -> state -> Prop) (E : exn -> state -> Prop)
      (F : state -> Prop) :
  let c := e_cycle (st_env s) (st_tick s) in
  let s' := pass_cycle (add_event (EvScan revisit) s) in
  (forall scan, c_scan c = Ok scan -> Q scan s') ->
  (forall e, c_scan c = Raise e -> E e s') ->
  (c_scan c = OutOfFuel -> F s') ->
  sat (service_scan revisit s) Q E F.
Proof.
  intros c s' H1 H2 H3. unfold sat, service_scan, bind, emit, modify, gets, lift.
  simpl. subst c s'. simpl in *. destruct (c_scan _); auto.
Qed.

(** One step of symbolic execution. *)
Ltac run1 :=
  lazymatch goal with
  | |- post _ _ _ => unfold post
  | |- returns _ _ => unfold returns
  | |- sat (bind _ _ _) _ _ _ => apply sat_bind
  | |- sat (ret _ _) _ _ _ => apply sat_ret
  | |- sat (lift _ _) _ _ _ =>
      apply sat_lift; [intros ? ? | intros ? ? | intros ?]
  | |- sat (gets _ _) _ _ _ => apply sat_gets
  | |- sat (monotonic _) _ _ _ => apply sat_gets
  | |- sat (datetime_now _) _ _ _ => apply sat_gets
  | |- sat (modify _ _) _ _ _ => apply sat_modify
  | |- sat (emit _ _) _ _ _ => apply sat_modify
  | |- sat (log_debug _ _) _ _ _ => apply sat_modify
  | |- sat (log_info _ _) _ _ _ => apply sat_modify
  | |- sat (store _ _ _) _ _ _ => apply sat_modify
  | |- sat (sleep _ _) _ _ _ =>
      unfold sleep; apply sat_bind; apply sat_modify; apply sat_modify
  | |- sat (getattr _ _) _ _ _ =>
      apply sat_getattr; [intros ? ? | intros ?]
  | |- sat (os_check _ _ _) _ _ _ =>
      apply sat_os_check; [intros ? | intros ? ?]
  | |- sat (write_text _ _ _) _ _ _ =>
      apply sat_write_text; [intros ? | intros ? ?]
  | |- sat (path_touch _ _) _ _ _ =>
      apply sat_path_touch; [intros ? | intros ? ?]
  | |- sat (path_chmod _ _ _) _ _ _ =>
      apply sat_path_chmod; [intros ? ? ? | intros ? ? | intros ? ?]
  | |- sat (open_rplus _ _) _ _ _ =>
      apply sat_open_rplus; [intros ? ? | intros ? | intros ? ?]
  | |- sat (BeaconService _ _) _ _ _ =>
      apply sat_BeaconService; [intros ? | intros ? ?]
  | |- sat (close_handle _ _) _ _ _ =>
      apply sat_close_handle; [intros ? ? | intros ? ? | intros ?]
  | |- sat (seek0_read _ _) _ _ _ =>
      apply sat_seek0_read; [intros ? ? | intros ? ? | intros ?]
  | |- sat (service_scan _ _) _ _ _ =>
      apply sat_service_scan; [intros ? ? | intros ? ? | intros ?]
  | |- sat (start_advertising _ _ _ _ _ _) _ _ _ =>
      apply sat_start_advertising; [intros ? | intros ? ?]
  | |- sat (stop_advertising _) _ _ _ =>
      apply sat_stop_advertising; [intros ? | intros ? ?]
  | |- sat (poll _) _ _ _ => unfold poll
  | |- sat ((if ?c then _ else _) _) _ _ _ => destruct c eqn:?
  | |- sat (if ?c then _ else _) _ _ _ => destruct c eqn:?
  end.

Ltac run := repeat run1; try exact I.

Lemma st_self_pass_cycle (s : state) : st_self (pass_cycle s) = st_self s.
Proof.
  unfold pass_cycle. simpl.
  destruct (c_write _) as [[p c]|]; reflexivity.
Qed.

Lemma st_self_pass_cycle_eq (s0 s : state) :
  st_self s = st_self s0 -> st_self (pass_cycle s) = st_self s0.
Proof. intros <-. apply st_self_pass_cycle. Qed.

Ltac self_kept :=
  repeat first [ rewrite st_self_pass_cycle
               | progress cbn [st_self st_env add_event set_advertising] ];
  try reflexivity.

Lemma scan_cycle_self (timeout : pyval) (start : Q) (n : nat) (s : state) :
  post (Scanner.scan_cycle timeout start n s)
       (fun _ s' => st_self s' = st_self s)
       (fun e s' => st_self s' = st_self s).
Proof. unfold Scanner.scan_cycle. run; self_kept. Qed.

Lemma scan_loop_self (fuel : nat) (timeout : pyval) (start : Q) :
  forall (n : nat) (timestamps : list pyval) (scans : list scan_result) (s : state),
    post (Scanner.scan_loop fuel timeout start n timestamps scans s)
         (fun _ s' => st_self s' = st_self s)
         (fun e s' => st_self s' = st_self s).
Proof.
  induction fuel as [|fuel IH]; intros n timestamps scans s; simpl.
  - exact I.
  - apply sat_bind.
    eapply post_conseq; [apply scan_cycle_self | | intros e s1 H; exact H | exact (fun _ => I)].
    intros [[run timestamp] scan] s1 Hs1. destruct run.
    + eapply post_conseq; [apply IH | | | exact (fun _ => I)];
        simpl; intros; congruence.
    + apply sat_ret. exact Hs1.
Qed.

Lemma st_env_pass_cycle (s : state) : st_env (pass_cycle s) = st_env s.
Proof.
  unfold pass_cycle. simpl.
  destruct (c_write _) as [[p c]|]; reflexivity.
Qed.

Ltac env_kept :=
  repeat first [ rewrite st_self_pass_cycle
               | rewrite st_env_pass_cycle
               | progress cbn [st_self st_env add_event set_advertising] ];
  try (split; reflexivity); try reflexivity.

(** *** Which exceptions the pure parts raise *)

Ltac split_result H :=
  repeat match type of H with
         | context [match ?x with _ => _ end] => destruct x
         end;
  try discriminate H; inversion H; subst.

Lemma os_exn_not_radio (err : os_error) : os_exn err <> RadioServiceError.
Proof. destruct err; discriminate. Qed.

Lemma query_exn_not_radio (err : query_error) : query_exn err <> RadioServiceError.
Proof. destruct err; discriminate. Qed.

Lemma elapsed_gt_raises (elapsed : Q) (timeout : pyval) (e : exn) :
  elapsed_gt elapsed timeout = Raise e -> e <> RadioServiceError.
Proof. unfold elapsed_gt. intros H. split_result H. discriminate. Qed.

Lemma as_path_raises (v : pyval) (e : exn) :
  as_path v = Raise e -> e <> RadioServiceError.
Proof. unfold as_path. intros H. split_result H. all: discriminate. Qed.

Lemma items_raises (v : pyval) (e : exn) :
  items v = Raise e -> e <> RadioServiceError.
Proof. unfold items. intros H. split_result H. all: discriminate. Qed.

Lemma collect_raises (pairs : list (option scan_result * option pyval)) :
  forall acc e, Scanner.collect pairs acc = Raise e -> e <> RadioServiceError.
Proof.
  induction pairs as [|[[scan|] timestamp] pairs IH]; intros acc e H;
    simpl in H.
  - discriminate.
  - apply (IH _ _ H).
  - inversion H. discriminate.
Qed.

Lemma process_scans_raises (scans : list scan_result) (timestamps : list pyval)
      (e : exn) :
  Scanner.process_scans scans timestamps = Raise e -> e <> RadioServiceError.
Proof.
  unfold Scanner.process_scans. intros H.
  destruct (Scanner.collect _ _) as [ads|e'|] eqn:E; simpl in H;
    try discriminate.
  inversion H; subst. apply (collect_raises _ _ _ E).
Qed.

Lemma py_index_raises (v : pyval) (i : nat) (e : exn) :
  py_index v i = Raise e -> e <> RadioServiceError.
Proof. unfold py_index. intros H. split_result H. all: discriminate. Qed.

Lemma query_raises (env : env) (text : string) (df : DataFrame) (e : exn) :
  query env text df = Raise e -> e <> RadioServiceError.
Proof.
  unfold query, query_mask. intros H.
  destruct (parse_query text) as [low c c' high| |]; simpl in H.
  - destruct (range_mask low c c' high df); simpl in H; [discriminate|].
    destruct (e_eval env text df) as [err|mask]; simpl in H; [|discriminate].
    inversion H. apply query_exn_not_radio.
  - inversion H. discriminate.
  - destruct (e_eval env text df) as [err|mask]; simpl in H; [|discriminate].
    inversion H. apply query_exn_not_radio.
Qed.

Lemma apply_filter_raises (env : env) (item : string * pyval) (df : DataFrame)
      (e : exn) :
  Scanner.apply_filter env item df = Raise e -> e <> RadioServiceError.
Proof.
  destruct item as [key value]. unfold Scanner.apply_filter. intros H.
  destruct (str_in key ID_FILTERS).
  - unfold isin_mask, column in H. destruct (str_in key (df_columns df));
      simpl in H; [discriminate|]. inversion H. discriminate.
  - destruct (py_index value 0) as [low|e'|] eqn:E0; simpl in H;
      try discriminate;
      [|inversion H; subst; apply (py_index_raises _ _ _ E0)].
    destruct (py_index value 1) as [high|e'|] eqn:E1; simpl in H;
      try discriminate;
      [|inversion H; subst; apply (py_index_raises _ _ _ E1)].
    apply (query_raises _ _ _ _ H).
Qed.

Lemma filter_advertisements_raises (env : env) (filters : dict) (df : DataFrame)
      (e : exn) :
  Scanner.filter_advertisements env filters df = Raise e -> e <> RadioServiceError.
Proof.
  unfold Scanner.filter_advertisements. intros H.
  destruct (Scanner.apply_filters env filters df) as [df'|e'|] eqn:E; simpl in H;
    try discriminate.
  inversion H; subst. clear H. revert df E.
  induction filters as [|item filters IH]; intros df E; simpl in E.
  - discriminate.
  - destruct (Scanner.apply_filter env item df) as [df0|e0|] eqn:E0; simpl in E;
      try discriminate.
    + apply (IH df0 E).
    + inversion E; subst. apply (apply_filter_raises _ _ _ _ E0).
Qed.

Lemma run_post {A} (m : M A) (s s' : state) (r : result A) Q E :
  post (m s) Q E -> m s = (r, s') ->
  match r with
  | Ok a => Q a s'
  | Raise e => E e s'
  | OutOfFuel => True
  end.
Proof. intros H Hrun. rewrite Hrun in H. exact H. Qed.

Lemma bind_ok_inv {A B} (m : M A) (k : A -> M B) (s s' : state) (b : B) :
  bind m k s = (Ok b, s') ->
  exists a s1, m s = (Ok a, s1) /\ k a s1 = (Ok b, s').
Proof.
  intros H. destruct (bind_inv _ _ _ _ _ H) as [G|[(e & _ & G)|(_ & G)]];
    [exact G | discriminate | discriminate].
Qed.

Lemma run_sat {A} (m : M A) (s s' : state) (r : result A) Q E F :
  sat (m s) Q E F -> m s = (r, s') ->
  match r with
  | Ok a => Q a s'
  | Raise e => E e s'
  | OutOfFuel => F s'
  end.
Proof. intros H Hrun. rewrite Hrun in H. exact H. Qed.

Lemma returns_ok {A} (x : result A * state) (Q : A -> state -> Prop) :
  returns x Q -> exists a s', x = (Ok a, s') /\ Q a s'.
Proof.
  unfold returns, sat. destruct x as [[a|e|] s']; try contradiction. eauto.
Qed.

Lemma cut_short {A} (x : result A * state) (F : state -> Prop) :
  sat x (fun _ _ => False) (fun _ _ => False) F ->
  exists s', x = (OutOfFuel, s') /\ F s'.
Proof.
  unfold sat. destruct x as [[a|e|] s']; try contradiction. eauto.
Qed.
(* ===================================================================== *)
(** ** The validating setters *)
(* ===================================================================== *)

Lemma outside_between (z lo hi : Z) :
  outside z (lo, hi) = negb ((lo <=? z) && (z <=? hi)).
Proof. unfold outside; simpl. lia. Qed.

Ltac key_cases key :=
  repeat match goal with
         | |- context [String.eqb key ?c] =>
             destruct (String.eqb_spec key c); [subst key | ]
         end.

Ltac in_cases H :=
  simpl in H;
  repeat match type of H with
         | _ \/ _ => destruct H as [H|H]
         end;
  try contradiction; try subst.

Lemma same_world_refl (s : state) : same_world s s.
Proof. repeat split. Qed.

Lemma same_world_trans (s s1 s2 : state) :
  same_world s s1 -> same_world s1 s2 -> same_world s s2.
Proof.
  intros (H1 & H2 & H3) (H4 & H5 & H6). repeat split; congruence.
Qed.

Lemma permits_now_same (s s' : state) (p : string) :
  same_world s s' -> permits_now s p -> permits_now s' p.
Proof.
  intros (He & Ht & _) H op. rewrite He, Ht. apply H.
Qed.

Lemma store_frames (key : string) (v : pyval) (s : state) :
  frames key s (snd (store key v s)) /\ keeps key v (snd (store key v s)).
Proof.
  split.
  - intros k Hk _. simpl. apply dict_get_set_other; assumption.
  - intros _ _. simpl. apply dict_get_set_same.
Qed.

(** *** The control file *)

(** A control-file setter that returns has left "0" in a file open to
    every user, and no handle; it fails when the operating system refuses
    to touch the file, to change its mode or to open it for writing, and
    only then. *)
Lemma A_control_file_setter_sat (v : string) (s : state) :
  let p := e_resolve (st_env s) v in
  sat (Advertiser.control_file_setter (PStr v) s)
      (fun _ s' =>
         st_self s' = dict_set (dict_set (st_self s) "control_file" (PStr p))
                               "control_file_handle" PNone
         /\ st_fs s' p = Some (mkFile "0" 511) /\ same_world s s')
      (fun e s' => exists op err,
                     e_refuses (st_env s) (st_tick s) op p = Some err
                     /\ e = os_exn err)
      (fun _ => False).
Proof.
  intros p. subst p. unfold Advertiser.control_file_setter. run.
  all: set (p := e_resolve (st_env s) v) in *.
  all: cbn [st_env st_tick set_self set_fs add_event write_file st_fs st_self] in *.
  all: destruct (st_fs s p) eqn:Efs.
  all: cbn [st_env st_tick set_self set_fs add_event write_file st_fs st_self] in *.
  all: unfold fs_upd in *; rewrite ?String.eqb_refl in *.
  all: try discriminate.
  all: try congruence.
  all: try (eexists _, _; split; [eassumption|reflexivity]).
  all: repeat split.
Qed.

(** When the operating system refuses nothing, the control-file setter
    runs to the end. *)
Lemma A_control_file_setter_runs (v : string) (s : state) :
  let p := e_resolve (st_env s) v in
  permits_now s p ->
  exists s', Advertiser.control_file_setter (PStr v) s = (Ok tt, s')
             /\ st_self s'
                = dict_set (dict_set (st_self s) "control_file" (PStr p))
                           "control_file_handle" PNone
             /\ st_fs s' p = Some (mkFile "0" 511)
             /\ same_world s s'.
Proof.
  intros p Hp.
  destruct (Advertiser.control_file_setter (PStr v) s) as [r s'] eqn:Hrun.
  pose proof (run_sat _ _ _ _ _ _ _ (A_control_file_setter_sat v s) Hrun) as H.
  destruct r as [[]|e|]; [|exfalso|contradiction].
  - exists s'. split; [reflexivity | exact H].
  - destruct H as (op & err & Href & _). fold p in Href.
    rewrite (Hp op) in Href. discriminate.
Qed.

Lemma S_control_file_setter_sat (v : string) (s : state) :
  let p := e_resolve (st_env s) v in
  sat (Scanner.control_file_setter (PStr v) s)
      (fun _ s' =>
         st_self s' = dict_set (dict_set (st_self s) "control_file" (PStr p))
                               "control_file_handle" PNone
         /\ st_fs s' p = Some (mkFile "0" 511) /\ same_world s s')
      (fun e s' => exists op err,
                     e_refuses (st_env s) (st_tick s) op p = Some err
                     /\ e = os_exn err)
      (fun _ => False).
Proof. exact (A_control_file_setter_sat v s). Qed.

Lemma S_control_file_setter_runs (v : string) (s : state) :
  let p := e_resolve (st_env s) v in
  permits_now s p ->
  exists s', Scanner.control_file_setter (PStr v) s = (Ok tt, s')
             /\ st_self s'
                = dict_set (dict_set (st_self s) "control_file" (PStr p))
                           "control_file_handle" PNone
             /\ st_fs s' p = Some (mkFile "0" 511)
             /\ same_world s s'.
Proof. exact (A_control_file_setter_runs v s). Qed.

(** *** The other setters *)

Lemma timeout_setter_spec (v : pyval) (s : state) :
  Advertiser.timeout_setter v s
  = if negb (documented_type "timeout" v) then (Raise TypeError, s)
    else if passes "timeout" v
         then (Ok tt, set_self (dict_set (st_self s) "timeout" v) s)
         else (Raise ValueError, s).
Proof.
  unfold Advertiser.timeout_setter, passes, documented_type, documented_range,
    bind, store, modify.
  cbn [str_in existsb String.eqb Ascii.eqb Bool.eqb orb andb].
  destruct v as [|b|z|q| | | | | | |[|]]; try reflexivity;
    cbn [is_None negb number_of num_of option_map number_le number_lt is_nan
         orb andb];
    change (inject_Z MAX_TIMEOUT) with 600%Q.
  all: try (destruct (Qle_bool _ 0); cbn [negb andb orb]; [reflexivity|];
            destruct (Qle_bool _ 600); reflexivity).
Qed.

Lemma int_setter_spec (key : string) (lo hi : Z) (v : pyval) (s : state) :
  (match int_of v with
   | None => raise TypeError
   | Some z => if outside z (lo, hi) then raise ValueError else store key v
   end) s
  = if negb (match int_of v with Some _ => true | None => false end)
    then (Raise TypeError, s)
    else if int_between lo hi v
         then (Ok tt, set_self (dict_set (st_self s) key v) s)
         else (Raise ValueError, s).
Proof.
  unfold int_between. destruct (int_of v) as [z|]; [|reflexivity].
  rewrite outside_between. cbn [negb].
  destruct ((lo <=? z) && (z <=? hi)); reflexivity.
Qed.

(** Assignment to an attribute of an [Advertiser] other than the control
    file and the UUID: a value of another type raises [TypeError], a
    value the range test lets through is stored, any other raises
    [ValueError]; a rejected assignment changes nothing. *)
Lemma A_setattr_spec (key : string) (v : pyval) (s : state) :
  In key (default_keys "advertiser") ->
  key <> "control_file" -> key <> "uuid" ->
  Advertiser.setattr key v s
  = if negb (documented_type key v) then (Raise (type_error key v), s)
    else if passes key v
         then (Ok tt, set_self (dict_set (st_self s) key v) s)
         else (Raise ValueError, s).
Proof.
  intros Hin Hc Hu. in_cases Hin; try contradiction;
    unfold Advertiser.setattr; cbn [String.eqb Ascii.eqb Bool.eqb].
  - apply timeout_setter_spec.
  - unfold Advertiser.major_setter, MAJOR_LIMITS. rewrite int_setter_spec.
    unfold passes. rewrite orb_false_r. reflexivity.
  - unfold Advertiser.minor_setter, MINOR_LIMITS. rewrite int_setter_spec.
    unfold passes. rewrite orb_false_r. reflexivity.
  - unfold Advertiser.tx_power_setter, TX_POWER_LIMITS. rewrite int_setter_spec.
    unfold passes. rewrite orb_false_r. reflexivity.
  - unfold Advertiser.interval_setter, INTERVAL_LIMITS. rewrite int_setter_spec.
    unfold passes. rewrite orb_false_r. reflexivity.
Qed.

(** The same for a [Scanner]; the filters setter answers a dictionary
    with an unknown filter name with [KeyError]. *)
Lemma S_setattr_spec (key : string) (v : pyval) (s : state) :
  In key (default_keys "scanner") ->
  key <> "control_file" ->
  Scanner.setattr key v s
  = if negb (documented_type key v) then (Raise (type_error key v), s)
    else if passes key v
         then (Ok tt, set_self (dict_set (st_self s) key v) s)
         else (Raise ValueError, s).
Proof.
  intros Hin Hc. in_cases Hin; try contradiction;
    unfold Scanner.setattr; cbn [String.eqb Ascii.eqb Bool.eqb].
  - unfold Scanner.scan_prefix_setter, documented_type, passes; simpl.
    destruct (isinstance_str v); reflexivity.
  - apply timeout_setter_spec.
  - unfold Scanner.revisit_setter, documented_type, passes, documented_range;
      simpl. destruct (int_of v) as [z|]; [|reflexivity]. simpl.
    rewrite orb_false_r.
    destruct (Z.leb_spec z 0), (Z.ltb_spec 0 z); try lia; reflexivity.
  - unfold Scanner.filters_setter, documented_type, passes, type_error; simpl.
    destruct v; try reflexivity.
    change (keys d) with (map fst d).
    destruct (forallb _ _); reflexivity.
Qed.

Lemma uuid_setter_spec (v : pyval) (s : state) :
  Advertiser.uuid_setter v s
  = if negb (isinstance_str v) then (Raise TypeError, s)
    else if truthy v then (Ok tt, set_self (dict_set (st_self s) "uuid" v) s)
    else (Ok tt, add_event (EvLog "DEBUG" "Beacon advertiser UUID set")
                   (set_self (dict_set (st_self s) "uuid"
                                       (PStr (e_uuid1 (st_env s)))) s)).
Proof.
  unfold Advertiser.uuid_setter.
  destruct (isinstance_str v); [|reflexivity].
  destruct (truthy v); reflexivity.
Qed.

(** *** Assignment, case by case *)

Lemma A_setattr_valid (key : string) (v : pyval) (s : state) :
  In key (default_keys "advertiser") ->
  documented_type key v = true ->
  passes key v = true ->
  (forall x, key = "control_file" -> v = PStr x ->
             permits_now s (e_resolve (st_env s) x)) ->
  exists s', Advertiser.setattr key v s = (Ok tt, s')
             /\ frames key s s' /\ keeps key v s' /\ same_world s s'.
Proof.
  intros Hin Ht Hp Hfree.
  destruct (String.eqb_spec key "control_file") as [->|Hc].
  - destruct v as [| | | |x| | | | | |]; try discriminate Ht.
    destruct (A_control_file_setter_runs x s (Hfree x eq_refl eq_refl))
      as (s' & Hrun & Hself & _ & Hw).
    exists s'. split; [exact Hrun|]. split; [|split; [|exact Hw]].
    + intros k Hk Hh. rewrite Hself.
      rewrite !dict_get_set_other by assumption. reflexivity.
    + intros Hc. congruence.
  - destruct (String.eqb_spec key "uuid") as [->|Hu].
    + change (Advertiser.setattr "uuid" v s) with (Advertiser.uuid_setter v s).
      rewrite uuid_setter_spec.
      change (documented_type "uuid" v) with (isinstance_str v) in Ht.
      rewrite Ht. cbn [negb].
      destruct (truthy v) eqn:Etr; eexists; (split; [reflexivity|]).
      * split; [|split; [|repeat split]]; apply store_frames.
      * split; [|split; [|repeat split]].
        -- intros k Hk _. simpl. apply dict_get_set_other; assumption.
        -- intros _ Hu. specialize (Hu eq_refl). congruence.
    + rewrite (A_setattr_spec key v s Hin Hc Hu), Ht, Hp. cbn [negb].
      eexists. split; [reflexivity|].
      split; [|split; [|repeat split]]; apply store_frames.
Qed.

Lemma A_setattr_value_error (key : string) (v : pyval) (s : state) :
  In key (default_keys "advertiser") ->
  documented_type key v = true ->
  passes key v = false ->
  Advertiser.setattr key v s = (Raise ValueError, s).
Proof.
  intros Hin Ht Hp.
  destruct (String.eqb_spec key "control_file") as [->|Hc]; [discriminate Hp|].
  destruct (String.eqb_spec key "uuid") as [->|Hu]; [discriminate Hp|].
  rewrite (A_setattr_spec key v s Hin Hc Hu), Ht, Hp. reflexivity.
Qed.

Lemma A_setattr_type_error (key : string) (v : pyval) (s : state) :
  In key (default_keys "advertiser") ->
  documented_type key v = false ->
  Advertiser.setattr key v s = (Raise (type_error key v), s).
Proof.
  intros Hin Ht.
  destruct (String.eqb_spec key "control_file") as [->|Hc].
  - destruct v; try discriminate Ht; reflexivity.
  - destruct (String.eqb_spec key "uuid") as [->|Hu].
    + change (Advertiser.setattr "uuid" v s) with (Advertiser.uuid_setter v s).
      rewrite uuid_setter_spec.
      change (documented_type "uuid" v) with (isinstance_str v) in Ht.
      rewrite Ht. reflexivity.
    + rewrite (A_setattr_spec key v s Hin Hc Hu), Ht. reflexivity.
Qed.

(** A setter that returns has stored a value it lets through. *)
Lemma A_setattr_stores (key : string) (v : pyval) (s s' : state) :
  In key (default_keys "advertiser") ->
  Advertiser.setattr key v s = (Ok tt, s') ->
  documented_type key v = true /\ passes key v = true
  /\ frames key s s' /\ keeps key v s' /\ same_world s s'
  /\ valid_attribute key s'.
Proof.
  intros Hin Hrun.
  destruct (documented_type key v) eqn:Ht;
    [|rewrite (A_setattr_type_error key v s Hin Ht) in Hrun; discriminate].
  destruct (passes key v) eqn:Hp;
    [|rewrite (A_setattr_value_error key v s Hin Ht Hp) in Hrun; discriminate].
  split; [reflexivity|]. split; [reflexivity|].
  destruct (String.eqb_spec key "control_file") as [->|Hc].
  - destruct v as [| | | |x| | | | | |]; try discriminate Ht.
    pose proof (run_sat _ _ _ _ _ _ _ (A_control_file_setter_sat x s) Hrun)
      as (Hself & _ & Hw).
    split; [|split; [|split; [exact Hw|]]].
    + intros k Hk Hh. rewrite Hself.
      rewrite !dict_get_set_other by assumption. reflexivity.
    + intros Hc. congruence.
    + exists (PStr (e_resolve (st_env s) x)). split; [|split; reflexivity].
      rewrite Hself. rewrite dict_get_set_other by discriminate.
      apply dict_get_set_same.
  - destruct (A_setattr_valid key v s Hin Ht Hp) as (s1 & Hrun1 & Hfr & Hk & Hw).
    { intros x E. contradiction. }
    assert (s1 = s') by congruence. subst s1.
    split; [exact Hfr|]. split; [exact Hk|]. split; [exact Hw|].
    destruct (String.eqb_spec key "uuid") as [->|Hu].
    + destruct v as [| | | |x| | | | | |]; try discriminate Ht.
      change (Advertiser.setattr "uuid" (PStr x) s)
        with (Advertiser.uuid_setter (PStr x) s) in Hrun.
      rewrite uuid_setter_spec in Hrun. cbn [isinstance_str negb] in Hrun.
      destruct (truthy (PStr x)) eqn:Etr; inversion Hrun; subst.
      * exists (PStr x). split; [|split; reflexivity].
        simpl. apply dict_get_set_same.
      * exists (PStr (e_uuid1 (st_env s))). split; [|split; reflexivity].
        simpl. apply dict_get_set_same.
    + exists v. split; [|split; assumption].
      apply Hk; [exact Hc|]. intros E. contradiction.
Qed.

Lemma S_setattr_valid (key : string) (v : pyval) (s : state) :
  In key (default_keys "scanner") ->
  documented_type key v = true ->
  passes key v = true ->
  (forall x, key = "control_file" -> v = PStr x ->
             permits_now s (e_resolve (st_env s) x)) ->
  exists s', Scanner.setattr key v s = (Ok tt, s')
             /\ frames key s s' /\ keeps key v s' /\ same_world s s'.
Proof.
  intros Hin Ht Hp Hfree.
  destruct (String.eqb_spec key "control_file") as [->|Hc].
  - destruct v as [| | | |x| | | | | |]; try discriminate Ht.
    destruct (S_control_file_setter_runs x s (Hfree x eq_refl eq_refl))
      as (s' & Hrun & Hself & _ & Hw).
    exists s'. split; [exact Hrun|]. split; [|split; [|exact Hw]].
    + intros k Hk Hh. rewrite Hself.
      rewrite !dict_get_set_other by assumption. reflexivity.
    + intros Hc. congruence.
  - rewrite (S_setattr_spec key v s Hin Hc), Ht, Hp. cbn [negb].
    eexists. split; [reflexivity|].
    split; [|split; [|repeat split]]; apply store_frames.
Qed.

Lemma S_setattr_value_error (key : string) (v : pyval) (s : state) :
  In key (default_keys "scanner") ->
  documented_type key v = true ->
  passes key v = false ->
  Scanner.setattr key v s = (Raise ValueError, s).
Proof.
  intros Hin Ht Hp.
  destruct (String.eqb_spec key "control_file") as [->|Hc]; [discriminate Hp|].
  rewrite (S_setattr_spec key v s Hin Hc), Ht, Hp. reflexivity.
Qed.

Lemma S_setattr_type_error (key : string) (v : pyval) (s : state) :
  In key (default_keys "scanner") ->
  documented_type key v = false ->
  Scanner.setattr key v s = (Raise (type_error key v), s).
Proof.
  intros Hin Ht.
  destruct (String.eqb_spec key "control_file") as [->|Hc].
  - destruct v; try discriminate Ht; reflexivity.
  - rewrite (S_setattr_spec key v s Hin Hc), Ht. reflexivity.
Qed.

Lemma S_setattr_stores (key : string) (v : pyval) (s s' : state) :
  In key (default_keys "scanner") ->
  Scanner.setattr key v s = (Ok tt, s') ->
  documented_type key v = true /\ passes key v = true
  /\ frames key s s' /\ keeps key v s' /\ same_world s s'
  /\ valid_attribute key s'.
Proof.
  intros Hin Hrun.
  destruct (documented_type key v) eqn:Ht;
    [|rewrite (S_setattr_type_error key v s Hin Ht) in Hrun; discriminate].
  destruct (passes key v) eqn:Hp;
    [|rewrite (S_setattr_value_error key v s Hin Ht Hp) in Hrun; discriminate].
  split; [reflexivity|]. split; [reflexivity|].
  destruct (String.eqb_spec key "control_file") as [->|Hc].
  - destruct v as [| | | |x| | | | | |]; try discriminate Ht.
    pose proof (run_sat _ _ _ _ _ _ _ (S_control_file_setter_sat x s) Hrun)
      as (Hself & _ & Hw).
    split; [|split; [|split; [exact Hw|]]].
    + intros k Hk Hh. rewrite Hself.
      rewrite !dict_get_set_other by assumption. reflexivity.
    + intros Hc. congruence.
    + exists (PStr (e_resolve (st_env s) x)). split; [|split; reflexivity].
      rewrite Hself. rewrite dict_get_set_other by discriminate.
      apply dict_get_set_same.
  - destruct (S_setattr_valid key v s Hin Ht Hp) as (s1 & Hrun1 & Hfr & Hk & Hw).
    { intros x E. contradiction. }
    assert (s1 = s') by congruence. subst s1.
    split; [exact Hfr|]. split; [exact Hk|]. split; [exact Hw|].
    exists v. split; [|split; assumption].
    apply Hk; [exact Hc|]. intros E. subst key. in_cases Hin; discriminate.
Qed.

Lemma A_init_item (kwargs : dict) (item : string * pyval) (s : state) :
  exists s0, st_self s0 = st_self s /\ same_world s s0
             /\ Advertiser.init_item kwargs item s
                = Advertiser.setattr (fst item) (chosen kwargs item) s0.
Proof.
  destruct item as [key dflt]. unfold Advertiser.init_item, chosen; simpl.
  destruct (dict_get kwargs key) as [given|].
  - destruct (truthy given).
    + exists s. repeat split.
    + eexists. split; [|split; [|reflexivity]]; repeat split.
  - eexists. split; [|split; [|reflexivity]]; repeat split.
Qed.

Lemma S_init_item (kwargs : dict) (item : string * pyval) (s : state) :
  exists s0, st_self s0 = st_self s /\ same_world s s0
             /\ Scanner.init_item kwargs item s
                = Scanner.setattr (fst item) (chosen kwargs item) s0.
Proof.
  destruct item as [key dflt]. unfold Scanner.init_item, chosen; simpl.
  destruct (dict_get kwargs key) as [given|].
  - destruct (truthy given).
    + exists s. repeat split.
    + eexists. split; [|split; [|reflexivity]]; repeat split.
  - eexists. split; [|split; [|reflexivity]]; repeat split.
Qed.

(** *** The constructor loop *)

Lemma dict_get_In (d : dict) (k : string) (v : pyval) :
  dict_get d k = Some v -> In (k, v) d.
Proof.
  induction d as [|[k0 v0] d IH]; simpl; [discriminate|].
  destruct (String.eqb_spec k k0) as [->|Hne]; intros H.
  - inversion H; subst. left. reflexivity.
  - right. apply IH. exact H.
Qed.

Lemma In_dict_get (d : dict) (k : string) (v : pyval) :
  NoDup (keys d) -> In (k, v) d -> dict_get d k = Some v.
Proof.
  induction d as [|[k0 v0] d IH]; simpl; [contradiction|].
  intros Hnd [H|H]; inversion Hnd as [|? ? Hnotin Hnd']; subst.
  - inversion H; subst. rewrite String.eqb_refl. reflexivity.
  - destruct (String.eqb_spec k k0) as [->|Hne]; [|apply IH; assumption].
    exfalso. apply Hnotin. apply (in_map fst) in H. exact H.
Qed.

Section ConstructorLoop.

Variable role : string.
Variable setattr : string -> pyval -> M unit.
Variable init_item : dict -> string * pyval -> M unit.

Hypothesis init_item_sets :
  forall kwargs item s,
    exists s0, st_self s0 = st_self s /\ same_world s s0
               /\ init_item kwargs item s
                  = setattr (fst item) (chosen kwargs item) s0.

Hypothesis setattr_valid :
  forall key v s,
    In key (default_keys role) ->
    documented_type key v = true ->
    passes key v = true ->
    (forall x, key = "control_file" -> v = PStr x ->
               permits_now s (e_resolve (st_env s) x)) ->
    exists s', setattr key v s = (Ok tt, s')
               /\ frames key s s' /\ keeps key v s' /\ same_world s s'.

Hypothesis setattr_value_error :
  forall key v s,
    In key (default_keys role) ->
    documented_type key v = true ->
    passes key v = false ->
    setattr key v s = (Raise ValueError, s).

Hypothesis setattr_stores :
  forall key v s s',
    In key (default_keys role) ->
    setattr key v s = (Ok tt, s') ->
    documented_type key v = true /\ passes key v = true
    /\ frames key s s' /\ keeps key v s' /\ same_world s s'
    /\ valid_attribute key s'.

Hypothesis no_handle : ~ In "control_file_handle" (default_keys role).

(** The operating system lets the loop create the control file it is
    about to name. *)
Let free (kwargs items : dict) (s : state) : Prop :=
  forall item x, In item items -> fst item = "control_file" ->
                 chosen kwargs item = PStr x ->
                 permits_now s (e_resolve (st_env s) x).

Lemma free_same (kwargs items : dict) (s s' : state) :
  same_world s s' -> free kwargs items s -> free kwargs items s'.
Proof.
  intros Hw H item x Hin Hk Hc.
  pose proof (H item x Hin Hk Hc) as Hp.
  destruct Hw as (He & Ht & Hd). rewrite He.
  apply (permits_now_same s s'); [repeat split; assumption | exact Hp].
Qed.

Lemma loop_step_valid (kwargs : dict) (item : string * pyval) (s : state) :
  In (fst item) (default_keys role) ->
  documented_type (fst item) (chosen kwargs item) = true ->
  passes (fst item) (chosen kwargs item) = true ->
  free kwargs [item] s ->
  exists s', init_item kwargs item s = (Ok tt, s')
             /\ (forall k, k <> fst item -> k <> "control_file_handle" ->
                   dict_get (st_self s') k = dict_get (st_self s) k)
             /\ keeps (fst item) (chosen kwargs item) s'
             /\ same_world s s'.
Proof.
  intros Hin Ht Hp Hfree.
  destruct (init_item_sets kwargs item s) as (s0 & Hself & Hw0 & ->).
  destruct (setattr_valid (fst item) (chosen kwargs item) s0 Hin Ht Hp)
    as (s' & Hrun & Hfr & Hk & Hw).
  { intros x Hc Hv. apply (free_same kwargs [item] s s0 Hw0 Hfree item x);
      [left; reflexivity | exact Hc | exact Hv]. }
  exists s'. split; [exact Hrun|]. split; [|split; [exact Hk|]].
  - intros k Hk1 Hk2. rewrite (Hfr k Hk1 Hk2), Hself. reflexivity.
  - apply (same_world_trans s s0 s'); assumption.
Qed.

(** Every value handed to a setter passes: the loop runs to the end and
    every attribute holds the value chosen for it. *)
Lemma loop_valid (kwargs items : dict) :
  (forall item, In item items -> In (fst item) (default_keys role)) ->
  NoDup (keys items) ->
  (forall item, In item items ->
     documented_type (fst item) (chosen kwargs item) = true
     /\ passes (fst item) (chosen kwargs item) = true) ->
  forall s, free kwargs items s ->
    exists s', for_each items (init_item kwargs) s = (Ok tt, s')
               /\ holds_chosen items kwargs s'
               /\ same_world s s'.
Proof.
  intros Hkeys Hnd Hall.
  assert (G : forall s, free kwargs items s ->
            exists s', for_each items (init_item kwargs) s = (Ok tt, s')
                       /\ holds_chosen items kwargs s'
                       /\ (forall k, ~ In k (keys items) ->
                                     k <> "control_file_handle" ->
                             dict_get (st_self s') k = dict_get (st_self s) k)
                       /\ same_world s s').
  { induction items as [|item items IH]; intros s Hfree.
    - exists s. simpl. split; [reflexivity|].
      split; [intros i []|]. split; [auto|apply same_world_refl].
    - inversion Hnd as [|? ? Hnotin Hnd']; subst.
      destruct (Hall item (or_introl eq_refl)) as [Ht Hp].
      destruct (loop_step_valid kwargs item s (Hkeys item (or_introl eq_refl))
                                Ht Hp)
        as (s1 & Hrun & Hfr & Hkeep & Hw1).
      { intros i x [<-|[]] Hc Hv.
        apply (Hfree item x); [left; reflexivity | | ]; assumption. }
      destruct (IH (fun i Hi => Hkeys i (or_intror Hi)) Hnd'
                   (fun i Hi => Hall i (or_intror Hi)) s1)
        as (s' & Hrun' & Hkeeps & Hrest & Hw').
      { apply (free_same kwargs items s s1 Hw1).
        intros i x Hi. apply Hfree. right. exact Hi. }
      assert (Hh : fst item <> "control_file_handle").
      { intros E. apply no_handle. rewrite <- E.
        apply Hkeys. left. reflexivity. }
      exists s'. split; [|split; [|split]].
      + simpl. rewrite (bind_ok _ _ _ _ _ Hrun). exact Hrun'.
      + intros i [<-|Hi]; [|apply Hkeeps; exact Hi].
        intros Hc Hu. rewrite (Hrest _ Hnotin Hh). apply Hkeep; assumption.
      + intros k Hk Hkh. simpl in Hk.
        rewrite Hrest by tauto. apply Hfr; [|assumption].
        intros E. apply Hk. left. symmetry. exact E.
      + apply (same_world_trans s s1 s'); assumption. }
  intros s Hfree. destruct (G s Hfree) as (s' & H1 & H2 & _ & H4). eauto.
Qed.

(** One of the values handed to a setter does not pass: the loop raises
    [ValueError]. *)
Lemma loop_value_error (kwargs items : dict) :
  (forall item, In item items -> In (fst item) (default_keys role)) ->
  (forall item, In item items ->
     documented_type (fst item) (chosen kwargs item) = true) ->
  (exists item, In item items
                /\ passes (fst item) (chosen kwargs item) = false) ->
  forall s, free kwargs items s ->
    exists s', for_each items (init_item kwargs) s = (Raise ValueError, s').
Proof.
  induction items as [|item items IH]; intros Hkeys Hall (bad & Hin & Hbad) s Hfree.
  - contradiction.
  - pose proof (Hkeys item (or_introl eq_refl)) as Hk.
    pose proof (Hall item (or_introl eq_refl)) as Ht.
    destruct (passes (fst item) (chosen kwargs item)) eqn:Hp.
    + destruct (loop_step_valid kwargs item s Hk Ht Hp)
        as (s1 & Hrun & _ & _ & Hw1).
      { intros i x [<-|[]] Hc Hv.
        apply (Hfree item x); [left; reflexivity | | ]; assumption. }
      destruct (IH (fun i Hi => Hkeys i (or_intror Hi))
                   (fun i Hi => Hall i (or_intror Hi))) with (s := s1)
        as (s' & Hrun').
      * exists bad. split; [|exact Hbad].
        destruct Hin as [<-|Hin]; [congruence | exact Hin].
      * apply (free_same kwargs items s s1 Hw1).
        intros i x Hi. apply Hfree. right. exact Hi.
      * exists s'. simpl. rewrite (bind_ok _ _ _ _ _ Hrun). exact Hrun'.
    + destruct (init_item_sets kwargs item s) as (s0 & _ & _ & Heq).
      exists s0. simpl. apply bind_raise. rewrite Heq.
      apply setattr_value_error; assumption.
Qed.

(** The loop, when it runs to the end: every value it chose passed its
    setter and is still the attribute. *)
Lemma loop_returns (kwargs items : dict) :
  (forall item, In item items -> In (fst item) (default_keys role)) ->
  NoDup (keys items) ->
  forall s s',
    for_each items (init_item kwargs) s = (Ok tt, s') ->
    (forall item, In item items ->
       documented_type (fst item) (chosen kwargs item) = true
       /\ passes (fst item) (chosen kwargs item) = true
       /\ keeps (fst item) (chosen kwargs item) s'
       /\ valid_attribute (fst item) s')
    /\ (forall k, ~ In k (keys items) -> k <> "control_file_handle" ->
          dict_get (st_self s') k = dict_get (st_self s) k)
    /\ same_world s s'.
Proof.
  induction items as [|item items IH]; intros Hkeys Hnd s s' Hrun.
  - simpl in Hrun. inversion Hrun; subst.
    split; [contradiction|]. split; [auto|apply same_world_refl].
  - simpl in Hrun. apply bind_ok_inv in Hrun.
    destruct Hrun as ([] & s1 & Hitem & Hrest).
    inversion Hnd as [|? ? Hnotin Hnd']; subst.
    destruct (init_item_sets kwargs item s) as (s0 & Hself & Hw0 & Heq).
    rewrite Heq in Hitem.
    assert (Hin : In (fst item) (default_keys role))
      by (apply Hkeys; left; reflexivity).
    destruct (setattr_stores _ _ _ _ Hin Hitem)
      as (Ht & Hp & Hfr & Hk & Hw1 & Hv).
    destruct (IH (fun i Hi => Hkeys i (or_intror Hi)) Hnd' s1 s' Hrest)
      as (Hitems & Hothers & Hw').
    assert (Hh : fst item <> "control_file_handle")
      by (intros E; apply no_handle; rewrite <- E; exact Hin).
    split; [|split].
    + intros i [<-|Hi]; [|apply Hitems; exact Hi].
      split; [exact Ht|]. split; [exact Hp|]. split.
      * intros Hc Hu. rewrite (Hothers _ Hnotin Hh). apply Hk; assumption.
      * destruct Hv as (w & Hw & Hwt & Hwr). exists w.
        rewrite (Hothers _ Hnotin Hh). auto.
    + intros k Hk' Hkh. simpl in Hk'.
      rewrite Hothers by tauto.
      rewrite (Hfr k); [rewrite Hself; reflexivity | | exact Hkh].
      intros E. apply Hk'. left. symmetry. exact E.
    + apply (same_world_trans s s0 s'); [exact Hw0|].
      apply (same_world_trans s0 s1 s'); assumption.
Qed.

End ConstructorLoop.

(** *** The constructors *)

Lemma role_section_items (s : state) (role : string) :
  known_keys s role -> default_keys role <> [] ->
  rbind (getitem (st_DEFAULT_CONFIG s) role) items = Ok (role_section s role).
Proof.
  unfold known_keys, role_section. intros Hk Hne.
  destruct (rbind _ _) as [section|e|]; [reflexivity| |];
    simpl in Hk; congruence.
Qed.

Lemma role_section_fresh (s : state) (role : string) :
  st_DEFAULT_CONFIG s = DEFAULT_CONFIG ->
  role = "advertiser" \/ role = "scanner" ->
  role_section s role = default_section role.
Proof.
  intros H [->| ->]; unfold role_section; rewrite H; reflexivity.
Qed.

Lemma init_tail (msg : string) (s : state) :
  e_beacon_service (st_env s) = None ->
  (service <- BeaconService BLE_DEVICE ;;
   store "service" service ;;
   log_info msg) s
  = (Ok tt, add_event (EvLog "INFO" msg)
              (set_self (dict_set (st_self s) "service" (PStr BLE_DEVICE)) s)).
Proof.
  intros H. unfold BeaconService, bind, gets. rewrite H. reflexivity.
Qed.

Lemma init_tail_ok (msg : string) (s s' : state) :
  (service <- BeaconService BLE_DEVICE ;;
   store "service" service ;;
   log_info msg) s = (Ok tt, s') ->
  s' = add_event (EvLog "INFO" msg)
         (set_self (dict_set (st_self s) "service" (PStr BLE_DEVICE)) s).
Proof.
  unfold BeaconService, bind, gets.
  destruct (e_beacon_service (st_env s)); simpl; intros H; inversion H.
  reflexivity.
Qed.

Lemma keeps_service (key : string) (v x : pyval) (msg : string) (s : state) :
  key <> "service" ->
  keeps key v s ->
  keeps key v (add_event (EvLog "INFO" msg)
                 (set_self (dict_set (st_self s) "service" x) s)).
Proof.
  intros Hne Hk Hc Hu. simpl. rewrite dict_get_set_other by exact Hne.
  apply Hk; assumption.
Qed.

Lemma valid_attribute_service (key : string) (x : pyval) (msg : string) (s : state) :
  key <> "service" ->
  valid_attribute key s ->
  valid_attribute key (add_event (EvLog "INFO" msg)
                         (set_self (dict_set (st_self s) "service" x) s)).
Proof.
  intros Hne (w & Hw & Ht & Hp). exists w. simpl.
  rewrite dict_get_set_other by exact Hne. auto.
Qed.

Lemma free_of_control_file_free (s : state) (role : string) (kwargs : dict) :
  NoDup (keys (role_section s role)) ->
  control_file_free s role kwargs ->
  forall item x, In item (role_section s role) -> fst item = "control_file" ->
                 chosen kwargs item = PStr x ->
                 permits_now s (e_resolve (st_env s) x).
Proof.
  intros Hnd Hfree [key dflt] x Hin Hk Hc. simpl in Hk. subst key.
  apply (Hfree dflt x); [|exact Hc].
  apply In_dict_get; assumption.
Qed.

Lemma A_init_unfold (kwargs : dict) (s : state) :
  known_keys s "advertiser" ->
  Advertiser.__init__ kwargs s
  = (for_each (role_section s "advertiser") (Advertiser.init_item kwargs) ;;
     service <- BeaconService BLE_DEVICE ;;
     store "service" service ;;
     log_info "Initialized beacon advertiser.") s.
Proof.
  intros H. unfold Advertiser.__init__.
  unfold bind at 1. unfold gets. unfold bind at 1. unfold lift.
  rewrite (role_section_items s "advertiser" H); [reflexivity | discriminate].
Qed.

Lemma S_init_unfold (kwargs : dict) (s : state) :
  known_keys s "scanner" ->
  Scanner.__init__ kwargs s
  = (for_each (role_section s "scanner") (Scanner.init_item kwargs) ;;
     service <- BeaconService BLE_DEVICE ;;
     store "service" service ;;
     log_info "Initialized beacon scanner.") s.
Proof.
  intros H. unfold Scanner.__init__.
  unfold bind at 1. unfold gets. unfold bind at 1. unfold lift.
  rewrite (role_section_items s "scanner" H); [reflexivity | discriminate].
Qed.

Ltac role_keys :=
  match goal with
  | H : known_keys _ _ |- NoDup _ =>
      rewrite H; repeat constructor; simpl; intuition discriminate
  | H : known_keys _ _ |- forall item, In item _ -> In (fst item) _ =>
      let i := fresh "i" in
      let Hi := fresh "Hi" in
      intros i Hi; rewrite <- H; apply in_map; exact Hi
  | |- ~ In _ _ => simpl; intuition discriminate
  end.

(** Every value handed to a setter passes, the control file can be
    created and the radio device opens: the constructor returns and every
    attribute holds the value chosen for it. *)
Lemma A_init_valid (kwargs : dict) (s : state) :
  known_keys s "advertiser" ->
  (forall item, In item (role_section s "advertiser") ->
     documented_type (fst item) (chosen kwargs item) = true
     /\ passes (fst item) (chosen kwargs item) = true) ->
  control_file_free s "advertiser" kwargs ->
  e_beacon_service (st_env s) = None ->
  exists s', Advertiser.__init__ kwargs s = (Ok tt, s')
             /\ holds_chosen (role_section s "advertiser") kwargs s'.
Proof.
  intros Hk Hall Hfree Hb. rewrite (A_init_unfold _ _ Hk).
  assert (Hnd : NoDup (keys (role_section s "advertiser"))) by role_keys.
  destruct (loop_valid "advertiser" Advertiser.setattr Advertiser.init_item
              A_init_item A_setattr_valid) with
      (kwargs := kwargs) (items := role_section s "advertiser") (s := s)
    as (s1 & Hrun & Hkeeps & (He & _)); try role_keys; try assumption.
  { apply free_of_control_file_free; assumption. }
  eexists. split.
  - rewrite (bind_ok _ _ _ _ _ Hrun). apply init_tail. rewrite He. exact Hb.
  - intros item Hin. apply keeps_service; [|apply Hkeeps; exact Hin].
    assert (Hi : In (fst item) (default_keys "advertiser"))
      by (rewrite <- Hk; apply in_map; exact Hin).
    intros E. rewrite E in Hi. simpl in Hi. intuition discriminate.
Qed.

Lemma S_init_valid (kwargs : dict) (s : state) :
  known_keys s "scanner" ->
  (forall item, In item (role_section s "scanner") ->
     documented_type (fst item) (chosen kwargs item) = true
     /\ passes (fst item) (chosen kwargs item) = true) ->
  control_file_free s "scanner" kwargs ->
  e_beacon_service (st_env s) = None ->
  exists s', Scanner.__init__ kwargs s = (Ok tt, s')
             /\ holds_chosen (role_section s "scanner") kwargs s'.
Proof.
  intros Hk Hall Hfree Hb. rewrite (S_init_unfold _ _ Hk).
  assert (Hnd : NoDup (keys (role_section s "scanner"))) by role_keys.
  destruct (loop_valid "scanner" Scanner.setattr Scanner.init_item
              S_init_item S_setattr_valid) with
      (kwargs := kwargs) (items := role_section s "scanner") (s := s)
    as (s1 & Hrun & Hkeeps & (He & _)); try role_keys; try assumption.
  { apply free_of_control_file_free; assumption. }
  eexists. split.
  - rewrite (bind_ok _ _ _ _ _ Hrun). apply init_tail. rewrite He. exact Hb.
  - intros item Hin. apply keeps_service; [|apply Hkeeps; exact Hin].
    assert (Hi : In (fst item) (default_keys "scanner"))
      by (rewrite <- Hk; apply in_map; exact Hin).
    intros E. rewrite E in Hi. simpl in Hi. intuition discriminate.
Qed.

(** One of the values handed to a setter does not pass: the constructor
    raises [ValueError]. *)
Lemma A_init_value_error (kwargs : dict) (s : state) :
  known_keys s "advertiser" ->
  (forall item, In item (role_section s "advertiser") ->
     documented_type (fst item) (chosen kwargs item) = true) ->
  (exists item, In item (role_section s "advertiser")
                /\ passes (fst item) (chosen kwargs item) = false) ->
  control_file_free s "advertiser" kwargs ->
  exists s', Advertiser.__init__ kwargs s = (Raise ValueError, s').
Proof.
  intros Hk Hall Hbad Hfree. rewrite (A_init_unfold _ _ Hk).
  assert (Hnd : NoDup (keys (role_section s "advertiser"))) by role_keys.
  destruct (loop_value_error "advertiser" Advertiser.setattr Advertiser.init_item
              A_init_item A_setattr_valid A_setattr_value_error) with
      (kwargs := kwargs) (items := role_section s "advertiser") (s := s)
    as (s1 & Hrun); try role_keys; try assumption.
  { apply free_of_control_file_free; assumption. }
  exists s1. apply bind_raise. exact Hrun.
Qed.

Lemma S_init_value_error (kwargs : dict) (s : state) :
  known_keys s "scanner" ->
  (forall item, In item (role_section s "scanner") ->
     documented_type (fst item) (chosen kwargs item) = true) ->
  (exists item, In item (role_section s "scanner")
                /\ passes (fst item) (chosen kwargs item) = false) ->
  control_file_free s "scanner" kwargs ->
  exists s', Scanner.__init__ kwargs s = (Raise ValueError, s').
Proof.
  intros Hk Hall Hbad Hfree. rewrite (S_init_unfold _ _ Hk).
  assert (Hnd : NoDup (keys (role_section s "scanner"))) by role_keys.
  destruct (loop_value_error "scanner" Scanner.setattr Scanner.init_item
              S_init_item S_setattr_valid S_setattr_value_error) with
      (kwargs := kwargs) (items := role_section s "scanner") (s := s)
    as (s1 & Hrun); try role_keys; try assumption.
  { apply free_of_control_file_free; assumption. }
  exists s1. apply bind_raise. exact Hrun.
Qed.

(** A constructor that returns: every value it chose passed its setter
    and is the attribute. *)
Lemma A_init_returns (kwargs : dict) (s s' : state) :
  known_keys s "advertiser" ->
  Advertiser.__init__ kwargs s = (Ok tt, s') ->
  forall item, In item (role_section s "advertiser") ->
    documented_type (fst item) (chosen kwargs item) = true
    /\ passes (fst item) (chosen kwargs item) = true
    /\ keeps (fst item) (chosen kwargs item) s'
    /\ valid_attribute (fst item) s'.
Proof.
  intros Hk Hrun item Hin. rewrite (A_init_unfold _ _ Hk) in Hrun.
  apply bind_ok_inv in Hrun. destruct Hrun as ([] & s1 & Hloop & Htail).
  apply init_tail_ok in Htail. subst s'.
  assert (Hnd : NoDup (keys (role_section s "advertiser"))) by role_keys.
  destruct (loop_returns "advertiser" Advertiser.setattr Advertiser.init_item
              A_init_item A_setattr_stores) with
      (kwargs := kwargs) (items := role_section s "advertiser")
      (s := s) (s' := s1) as (Hitems & _); try role_keys; try assumption.
  destruct (Hitems item Hin) as (Ht & Hp & Hkp & Hv).
  assert (Hne : fst item <> "service").
  { assert (Hi : In (fst item) (default_keys "advertiser"))
      by (rewrite <- Hk; apply in_map; exact Hin).
    intros E. rewrite E in Hi. simpl in Hi. intuition discriminate. }
  split; [exact Ht|]. split; [exact Hp|]. split.
  - apply keeps_service; assumption.
  - apply valid_attribute_service; assumption.
Qed.

Lemma S_init_returns (kwargs : dict) (s s' : state) :
  known_keys s "scanner" ->
  Scanner.__init__ kwargs s = (Ok tt, s') ->
  forall item, In item (role_section s "scanner") ->
    documented_type (fst item) (chosen kwargs item) = true
    /\ passes (fst item) (chosen kwargs item) = true
    /\ keeps (fst item) (chosen kwargs item) s'
    /\ valid_attribute (fst item) s'.
Proof.
  intros Hk Hrun item Hin. rewrite (S_init_unfold _ _ Hk) in Hrun.
  apply bind_ok_inv in Hrun. destruct Hrun as ([] & s1 & Hloop & Htail).
  apply init_tail_ok in Htail. subst s'.
  assert (Hnd : NoDup (keys (role_section s "scanner"))) by role_keys.
  destruct (loop_returns "scanner" Scanner.setattr Scanner.init_item
              S_init_item S_setattr_stores) with
      (kwargs := kwargs) (items := role_section s "scanner")
      (s := s) (s' := s1) as (Hitems & _); try role_keys; try assumption.
  destruct (Hitems item Hin) as (Ht & Hp & Hkp & Hv).
  assert (Hne : fst item <> "service").
  { assert (Hi : In (fst item) (default_keys "scanner"))
      by (rewrite <- Hk; apply in_map; exact Hin).
    intros E. rewrite E in Hi. simpl in Hi. intuition discriminate. }
  split; [exact Ht|]. split; [exact Hp|]. split.
  - apply keeps_service; assumption.
  - apply valid_attribute_service; assumption.
Qed.

(** *** Keywords *)

Lemma defaults_valid (role : string) (item : string * pyval) :
  In item (default_section role) ->
  documented_type (fst item) (snd item) = true
  /\ passes (fst item) (snd item) = true.
Proof.
  unfold default_section, section_of, getitem.
  destruct (dict_get DEFAULT_CONFIG role) as [v|] eqn:E; simpl;
    [|contradiction].
  simpl in E.
  repeat match type of E with
         | (if ?c then _ else _) = _ => destruct c
         end; inversion E; subst; simpl; intros Hin; in_cases Hin;
    split; reflexivity.
Qed.

(** In a fresh process the defaults are the built-in ones, which are
    valid. *)
Lemma fresh_defaults (s : state) (role : string) :
  st_DEFAULT_CONFIG s = DEFAULT_CONFIG ->
  role = "advertiser" \/ role = "scanner" ->
  typed_defaults s role /\ sound_defaults s role.
Proof.
  intros H Hrole. unfold typed_defaults, sound_defaults, known_keys.
  rewrite (role_section_fresh s role H Hrole).
  split; [split; [reflexivity|]|]; intros item Hin;
    apply (defaults_valid role item Hin).
Qed.

Lemma chosen_typed (s : state) (role : string) (kwargs : dict)
      (item : string * pyval) :
  well_typed kwargs -> typed_defaults s role ->
  In item (role_section s role) ->
  documented_type (fst item) (chosen kwargs item) = true.
Proof.
  intros Ht [_ Hd] Hin. unfold chosen.
  destruct (dict_get kwargs (fst item)) as [given|] eqn:E;
    [destruct (truthy given) eqn:Et|];
    try (apply Hd; exact Hin).
  apply (Ht _ _ E Et).
Qed.

Lemma chosen_passes (s : state) (role : string) (kwargs : dict)
      (item : string * pyval) :
  all_in_range kwargs -> sound_defaults s role ->
  In item (role_section s role) ->
  passes (fst item) (chosen kwargs item) = true.
Proof.
  intros Hr Hd Hin. unfold chosen.
  destruct (dict_get kwargs (fst item)) as [given|] eqn:E;
    [destruct (truthy given) eqn:Et|];
    try (apply Hd; exact Hin).
  unfold passes. rewrite (Hr _ _ E Et). reflexivity.
Qed.

Lemma some_fails (s : state) (role : string) (kwargs : dict) :
  known_keys s role -> some_out_of_range role kwargs ->
  exists item, In item (role_section s role)
               /\ passes (fst item) (chosen kwargs item) = false.
Proof.
  intros Hk (key & v & Hin & Hget & Htr & Hr & Hn).
  rewrite <- Hk in Hin. unfold keys in Hin. apply in_map_iff in Hin.
  destruct Hin as (item & <- & Hin).
  exists item. split; [exact Hin|].
  unfold chosen. rewrite Hget, Htr. unfold passes. rewrite Hr, Hn.
  rewrite andb_false_r. reflexivity.
Qed.

Lemma holds_chosen_stored (s : state) (role : string) (kwargs : dict) (s' : state) :
  known_keys s role ->
  holds_chosen (role_section s role) kwargs s' -> stored_as_given role kwargs s'.
Proof.
  intros Hkeys H key v Hin Hc Hget Htr.
  rewrite <- Hkeys in Hin. unfold keys in Hin. apply in_map_iff in Hin.
  destruct Hin as (item & <- & Hin).
  pose proof (H item Hin Hc) as Hk.
  unfold chosen in Hk. rewrite Hget, Htr in Hk. apply Hk. auto.
Qed.

Lemma for_each_ext {A} (l : list A) (f g : A -> M unit) (s : state) :
  (forall x s0, In x l -> f x s0 = g x s0) ->
  for_each l f s = for_each l g s.
Proof.
  revert s. induction l as [|x l IH]; intros s H; simpl.
  - reflexivity.
  - unfold bind. rewrite (H x s (or_introl eq_refl)).
    destruct (g x s) as [[[]|e|] s1]; try reflexivity.
    apply IH. intros y s0 Hy. apply H. right. exact Hy.
Qed.

(** Concrete keyword arguments: every binding is checked in turn. *)
Ltac check_kwargs :=
  let key := fresh "key" in
  let v := fresh "v" in
  let H := fresh "H" in
  intros key v H _; simpl in H;
  repeat match type of H with
         | (if String.eqb key ?c then _ else _) = _ =>
             destruct (String.eqb key c) eqn:?
         end;
  try discriminate H; inversion H; subst; try reflexivity;
  match goal with
  | E : String.eqb key _ = true |- _ =>
      apply String.eqb_eq in E; subst key; reflexivity
  end.

(** C1, as amended. Let the truthy keywords have the documented types,
    let [DEFAULT_CONFIG] hold values of the documented types for the
    role, and let the operating system allow the control file to be
    created.  When every truthy keyword lies in its documented range, the
    defaults in force pass their setters and [BeaconService] opens the
    device, constructing an [Advertiser] or a [Scanner] succeeds and each
    attribute of the role equals the truthy value supplied for it.  When
    a truthy value of one of the role's fields, NaN apart, lies outside
    its documented range, the constructor raises [ValueError]. *)
Theorem constructor_validates_truthy_keywords (kwargs : dict) (s : state) :
  well_typed kwargs ->
  (typed_defaults s "advertiser" ->
   control_file_free s "advertiser" kwargs ->
   (all_in_range kwargs -> sound_defaults s "advertiser" ->
    e_beacon_service (st_env s) = None ->
      exists s', Advertiser.__init__ kwargs s = (Ok tt, s')
                 /\ stored_as_given "advertiser" kwargs s')
   /\ (some_out_of_range "advertiser" kwargs ->
         exists s', Advertiser.__init__ kwargs s = (Raise ValueError, s')))
  /\ (typed_defaults s "scanner" ->
      control_file_free s "scanner" kwargs ->
      (all_in_range kwargs -> sound_defaults s "scanner" ->
       e_beacon_service (st_env s) = None ->
         exists s', Scanner.__init__ kwargs s = (Ok tt, s')
                    /\ stored_as_given "scanner" kwargs s')
      /\ (some_out_of_range "scanner" kwargs ->
            exists s', Scanner.__init__ kwargs s = (Raise ValueError, s'))).
Proof.
  intros Ht. split; intros Hd Hfree; pose proof (proj1 Hd) as Hk; split.
  - intros Hr Hs Hb.
    destruct (A_init_valid kwargs s Hk) as (s' & Hrun & Hc);
      try assumption.
    { intros item Hin. split;
        [apply (chosen_typed s "advertiser") | apply (chosen_passes s "advertiser")];
        assumption. }
    exists s'. split; [exact Hrun|].
    apply (holds_chosen_stored s); assumption.
  - intros Hbad. apply A_init_value_error; try assumption.
    + intros item Hin. apply (chosen_typed s "advertiser"); assumption.
    + apply some_fails; assumption.
  - intros Hr Hs Hb.
    destruct (S_init_valid kwargs s Hk) as (s' & Hrun & Hc);
      try assumption.
    { intros item Hin. split;
        [apply (chosen_typed s "scanner") | apply (chosen_passes s "scanner")];
        assumption. }
    exists s'. split; [exact Hrun|].
    apply (holds_chosen_stored s); assumption.
  - intros Hbad. apply S_init_value_error; try assumption.
    + intros item Hin. apply (chosen_typed s "scanner"); assumption.
    + apply some_fails; assumption.
Qed.

Lemma constructor_validates_truthy_keywords_witness :
  exists s', Advertiser.__init__ Sample.scenario_kwargs (Sample.fresh Sample.env0)
             = (Ok tt, s')
             /\ stored_as_given "advertiser" Sample.scenario_kwargs s'.
Proof.
  refine (proj1 (proj1 (constructor_validates_truthy_keywords
                          Sample.scenario_kwargs (Sample.fresh Sample.env0) _)
                       _ _) _ _ _).
  - unfold well_typed. check_kwargs.
  - apply fresh_defaults; [reflexivity | left; reflexivity].
  - intros dflt value _ _ op. reflexivity.
  - unfold all_in_range. check_kwargs.
  - apply fresh_defaults; [reflexivity | left; reflexivity].
  - reflexivity.
Defined.

(** C1 fails on the code: [major = 0] lies outside [1, 65535] and the
    constructor succeeds; [tx_power = 0] lies inside [-40, 4] and the
    stored attribute is 1. *)
Lemma constructor_range_counterexample :
  documented_range "major" (PInt 0) = false
  /\ fst (Advertiser.__init__ [("major", PInt 0)] (Sample.fresh Sample.env0))
     = Ok tt
  /\ documented_range "tx_power" (PInt 0) = true
  /\ dict_get (st_self (snd (Advertiser.__init__ [("tx_power", PInt 0)]
                                                 (Sample.fresh Sample.env0))))
              "tx_power"
     = Some (PInt 1).
Proof. vm_compute. repeat split. Qed.

(** What the amended claim leaves out: NaN is a float outside the range
    of the timeout, of which neither [value <= 0] nor
    [value > MAX_TIMEOUT] holds, so both setters store it. *)
Lemma nan_timeout_is_stored (s : state) :
  documented_range "timeout" PNaN = false
  /\ Advertiser.setattr "timeout" PNaN s
     = (Ok tt, set_self (dict_set (st_self s) "timeout" PNaN) s)
  /\ Scanner.setattr "timeout" PNaN s
     = (Ok tt, set_self (dict_set (st_self s) "timeout" PNaN) s).
Proof. repeat split. Qed.

(** Why the amended claim asks for the operating system's leave: when the
    directory of the control file is missing, [Path.touch()] raises
    [FileNotFoundError] and so does the constructor, whatever the
    keywords. *)
Lemma refused_control_file_aborts (kwargs : dict) (s : state) (p : string) :
  st_DEFAULT_CONFIG s = DEFAULT_CONFIG ->
  dict_get kwargs "control_file" = Some (PStr p) -> p <> EmptyString ->
  e_refuses (st_env s) (st_tick s) Touch (e_resolve (st_env s) p)
  = Some NoSuchDirectory ->
  exists s', Advertiser.__init__ kwargs s = (Raise FileNotFoundError, s').
Proof.
  intros HD Hget Hne Href.
  assert (Htr : truthy (PStr p) = true).
  { simpl. destruct (String.eqb_spec p EmptyString); [contradiction|reflexivity]. }
  unfold Advertiser.__init__, bind at 1, gets. rewrite HD.
  unfold bind at 1, lift. simpl rbind. cbv iota beta.
  unfold for_each at 1. unfold bind at 1, bind at 1.
  unfold Advertiser.init_item. rewrite Hget, Htr.
  change (Advertiser.setattr "control_file" (PStr p))
    with (Advertiser.control_file_setter (PStr p)).
  unfold Advertiser.control_file_setter, path_touch, os_check.
  unfold bind, gets, store, modify. cbn [st_env st_tick set_self].
  rewrite Href. eexists. reflexivity.
Qed.

(** *** Falsy keywords *)

Lemma init_item_del_A (kwargs : dict) (key : string) (given : pyval)
      (item : string * pyval) :
  dict_get kwargs key = Some given -> truthy given = false ->
  Advertiser.init_item kwargs item = Advertiser.init_item (dict_del kwargs key) item.
Proof.
  intros Hget Hf. destruct item as [k dflt]. unfold Advertiser.init_item.
  rewrite dict_get_del. destruct (String.eqb_spec k key) as [->|]; [|reflexivity].
  rewrite Hget, Hf. reflexivity.
Qed.

Lemma init_item_del_S (kwargs : dict) (key : string) (given : pyval)
      (item : string * pyval) :
  dict_get kwargs key = Some given -> truthy given = false ->
  Scanner.init_item kwargs item = Scanner.init_item (dict_del kwargs key) item.
Proof.
  intros Hget Hf. destruct item as [k dflt]. unfold Scanner.init_item.
  rewrite dict_get_del. destruct (String.eqb_spec k key) as [->|]; [|reflexivity].
  rewrite Hget, Hf. reflexivity.
Qed.

Lemma A_init_ext (kwargs kwargs' : dict) (s : state) :
  (forall item, Advertiser.init_item kwargs item = Advertiser.init_item kwargs' item) ->
  Advertiser.__init__ kwargs s = Advertiser.__init__ kwargs' s.
Proof.
  intros H. unfold Advertiser.__init__.
  unfold bind at 1. unfold bind at 5. unfold gets.
  unfold bind at 1. unfold bind at 4. unfold lift.
  destruct (rbind _ _) as [section| |]; try reflexivity.
  unfold bind at 1. unfold bind at 3.
  rewrite (for_each_ext section _ (Advertiser.init_item kwargs')).
  - reflexivity.
  - intros item s0 _. rewrite H. reflexivity.
Qed.

Lemma S_init_ext (kwargs kwargs' : dict) (s : state) :
  (forall item, Scanner.init_item kwargs item = Scanner.init_item kwargs' item) ->
  Scanner.__init__ kwargs s = Scanner.__init__ kwargs' s.
Proof.
  intros H. unfold Scanner.__init__.
  unfold bind at 1. unfold bind at 5. unfold gets.
  unfold bind at 1. unfold bind at 4. unfold lift.
  destruct (rbind _ _) as [section| |]; try reflexivity.
  unfold bind at 1. unfold bind at 3.
  rewrite (for_each_ext section _ (Scanner.init_item kwargs')).
  - reflexivity.
  - intros item s0 _. rewrite H. reflexivity.
Qed.

Lemma falsy_only_kwargs (key : string) (v : pyval) :
  truthy v = false ->
  well_typed [(key, v)] /\ all_in_range [(key, v)].
Proof.
  intros Hf. split; intros k w H Ht; simpl in H;
    destruct (String.eqb k key); try discriminate H;
    inversion H; subst; congruence.
Qed.

Lemma chosen_falsy (kwargs : dict) (key : string) (given dflt : pyval) :
  dict_get kwargs key = Some given -> truthy given = false ->
  chosen kwargs (key, dflt) = dflt.
Proof. intros H1 H2. unfold chosen. simpl. rewrite H1, H2. reflexivity. Qed.




(* ===================================================================== *)
(** ** The scan-record pipeline *)
(* ===================================================================== *)

(** C7. With one timestamp and no scan, [zip_longest] pairs the timestamp
    with [None] in the place of the scan and [scan.items()] raises:
    [process_scans] aborts instead of returning the empty table. *)
Theorem process_scans_extra_timestamp_aborts :
  Scanner.process_scans [] [PTime 0] = Raise AttributeError.
Proof. reflexivity. Qed.

Lemma zip_longest_nil_r {A B} (l : list A) :
  @zip_longest A B l [] = map (fun a => (Some a, None)) l.
Proof. induction l as [|a l IH]; simpl; [|rewrite IH]; reflexivity. Qed.

Lemma collect_pairs (scans : list scan_result) (timestamps : list pyval) :
  (List.length timestamps <= List.length scans)%nat ->
  forall acc,
    Scanner.collect (zip_longest scans timestamps) acc
    = Ok (acc ++ flat_map cycle_records (pair_up scans timestamps))%list.
Proof.
  revert timestamps.
  induction scans as [|scan scans IH]; intros timestamps Hlen acc.
  - destruct timestamps; simpl in *; [|lia]. rewrite app_nil_r. reflexivity.
  - destruct timestamps as [|t timestamps]; simpl.
    + rewrite IH by (simpl; lia). rewrite <- app_assoc. reflexivity.
    + simpl in Hlen. rewrite IH by lia. rewrite <- app_assoc. reflexivity.
Qed.

Lemma map_snd_combine_seq {A} (l : list A) (n : nat) :
  map snd (combine (seq n (List.length l)) l) = l.
Proof.
  revert n. induction l as [|x l IH]; intros n; simpl; [reflexivity|].
  rewrite IH. reflexivity.
Qed.

Lemma map_fst_combine_seq {A} (l : list A) (n : nat) :
  map fst (combine (seq n (List.length l)) l) = seq n (List.length l).
Proof.
  revert n. induction l as [|x l IH]; intros n; simpl; [reflexivity|].
  rewrite IH. reflexivity.
Qed.

(** An advertisement already has the table's columns, in order. *)
Lemma row_of_advertisement (timestamp : pyval) (item : string * payload) :
  map (fun c => (c, match dict_get (Scanner.advertisement timestamp item) c with
                    | Some v => v
                    | None => PNone
                    end)) Scanner.COLUMNS
  = Scanner.advertisement timestamp item.
Proof. destruct item as [address p]. reflexivity. Qed.

Lemma rows_of_records (records : list dict) :
  (forall d, In d records -> exists t item, d = Scanner.advertisement t item) ->
  map snd (df_rows (pd_DataFrame records Scanner.COLUMNS)) = records.
Proof.
  intros H. unfold pd_DataFrame. cbv zeta. cbn [df_rows].
  assert (E : map (fun d => map (fun c => (c, match dict_get d c with
                                               | Some v => v
                                               | None => PNone
                                               end)) Scanner.COLUMNS) records
              = records).
  { induction records as [|d records IH]; [reflexivity|].
    rewrite map_cons.
    destruct (H d (or_introl eq_refl)) as (t & item & ->).
    rewrite row_of_advertisement. rewrite IH; [reflexivity|].
    intros d' Hd'. apply H. right. exact Hd'. }
  rewrite E.
  apply map_snd_combine_seq.
Qed.

(** With no more timestamps than scans [process_scans] returns: one record
    per item of each scan, cycle after cycle, under the fixed header. *)
Lemma process_scans_returns (scans : list scan_result) (timestamps : list pyval) :
  (List.length timestamps <= List.length scans)%nat ->
  exists df,
    Scanner.process_scans scans timestamps = Ok df
    /\ df_columns df = Scanner.COLUMNS
    /\ map snd (df_rows df) = flat_map cycle_records (pair_up scans timestamps).
Proof.
  intros Hlen. unfold Scanner.process_scans.
  rewrite (collect_pairs _ _ Hlen). simpl.
  eexists. split; [reflexivity|]. split; [reflexivity|].
  apply rows_of_records.
  intros d Hd. apply in_flat_map in Hd. destruct Hd as (c & _ & Hd).
  unfold cycle_records in Hd. apply in_map_iff in Hd.
  destruct Hd as (item & <- & _). eauto.
Qed.

(** *** Row order *)

Lemma StronglySorted_app {A} (R : A -> A -> Prop) (l1 l2 : list A) :
  StronglySorted R l1 -> StronglySorted R l2 ->
  (forall x y, In x l1 -> In y l2 -> R x y) ->
  StronglySorted R (l1 ++ l2).
Proof.
  induction l1 as [|a l1 IH]; intros H1 H2 H12; simpl; [exact H2|].
  inversion H1 as [|? ? Hs Hall]; subst. constructor.
  - apply IH; [exact Hs | exact H2 |].
    intros x y Hx Hy. apply H12; [right; exact Hx | exact Hy].
  - apply Forall_app. split; [exact Hall|].
    apply Forall_forall. intros y Hy. apply H12; [left; reflexivity | exact Hy].
Qed.

Lemma StronglySorted_filter {A} (R : A -> A -> Prop) (f : A -> bool) (l : list A) :
  StronglySorted R l -> StronglySorted R (filter f l).
Proof.
  induction 1 as [|a l Hs IH Hall]; simpl; [constructor|].
  destruct (f a); [|exact IH].
  constructor; [exact IH|].
  apply Forall_forall. intros y Hy. apply filter_In in Hy.
  rewrite Forall_forall in Hall. apply Hall. tauto.
Qed.

Lemma cycle_records_time (scan : scan_result) (timestamp : pyval) (row : dict) :
  In row (cycle_records (scan, timestamp)) ->
  dict_get row "TIMESTAMP" = Some timestamp.
Proof.
  unfold cycle_records; simpl. intros H. apply in_map_iff in H.
  destruct H as ([address p] & <- & _). reflexivity.
Qed.

Lemma cycles_sorted (scans : list scan_result) (tss : list Z) :
  List.length tss = List.length scans ->
  StronglySorted Z.le tss ->
  StronglySorted time_le (flat_map cycle_records (pair_up scans (map PTime tss)))
  /\ forall row, In row (flat_map cycle_records (pair_up scans (map PTime tss))) ->
                 exists t, In t tss /\ dict_get row "TIMESTAMP" = Some (PTime t).
Proof.
  revert tss. induction scans as [|scan scans IH]; intros tss Hlen Hs.
  - simpl. split; [constructor | contradiction].
  - destruct tss as [|t tss]; [discriminate|].
    simpl in Hlen. injection Hlen as Hlen.
    inversion Hs as [|? ? Hs' Hall]; subst.
    destruct (IH tss Hlen Hs') as [IHs IHin].
    simpl. split.
    + apply StronglySorted_app; [| exact IHs |].
      * assert (G : forall l, (forall r, In r l ->
                       dict_get r "TIMESTAMP" = Some (PTime t)) ->
                     StronglySorted time_le l).
        { induction l as [|r l IHl]; intros Hl; constructor.
          - apply IHl. intros r' Hr'. apply Hl. right. exact Hr'.
          - apply Forall_forall. intros r' Hr'.
            exists t, t. repeat split;
              [apply Hl; left; reflexivity | apply Hl; right; exact Hr' | lia]. }
        apply G. intros r Hr. apply (cycle_records_time scan). exact Hr.
      * intros x y Hx Hy. apply (cycle_records_time scan) in Hx.
        destruct (IHin y Hy) as (t' & Ht' & Hy').
        exists t, t'. repeat split; [exact Hx | exact Hy' |].
        rewrite Forall_forall in Hall. apply Hall. exact Ht'.
    + intros row Hrow. apply in_app_or in Hrow. destruct Hrow as [Hrow|Hrow].
      * exists t. split; [left; reflexivity|].
        apply (cycle_records_time scan). exact Hrow.
      * destruct (IHin row Hrow) as (t' & Ht' & Hr').
        exists t'. split; [right; exact Ht' | exact Hr'].
Qed.

(** Selection keeps a sub-sequence of the rows. *)
Lemma select_sorted (R : dict -> dict -> Prop) (mask : list bool)
      (rows : list (nat * dict)) :
  StronglySorted R (map snd rows) ->
  StronglySorted R (map snd (select mask rows))
  /\ forall row, In row (select mask rows) -> In row rows.
Proof.
  revert mask. induction rows as [|row rows IH]; intros mask Hs.
  - destruct mask; simpl; split; (constructor || tauto).
  - simpl in Hs. inversion Hs as [|? ? Hs' Hall]; subst.
    destruct mask as [|keep mask]; [simpl; split; [constructor|tauto]|].
    destruct (IH mask Hs') as [IHs IHin]. simpl.
    destruct keep; simpl.
    + split.
      * constructor; [exact IHs|].
        apply Forall_forall. intros y Hy. apply in_map_iff in Hy.
        destruct Hy as (r & <- & Hr).
        rewrite Forall_forall in Hall. apply Hall.
        apply in_map. apply IHin. exact Hr.
      * intros r [<-|Hr]; [left; reflexivity | right; apply IHin; exact Hr].
    + split; [exact IHs|]. intros r Hr. right. apply IHin. exact Hr.
Qed.

Lemma apply_filter_sorted (R : dict -> dict -> Prop) (e : env)
      (item : string * pyval) (df df' : DataFrame) :
  Scanner.apply_filter e item df = Ok df' ->
  StronglySorted R (map snd (df_rows df)) ->
  StronglySorted R (map snd (df_rows df')).
Proof.
  destruct item as [key value]. unfold Scanner.apply_filter.
  intros H Hs.
  destruct (str_in key ID_FILTERS).
  - unfold isin_mask in H.
    destruct (column df key) as [cells| |]; simpl in H; try discriminate.
    inversion H; subst. simpl. apply select_sorted. exact Hs.
  - destruct (py_index value 0) as [low| |]; try discriminate.
    destruct (py_index value 1) as [high| |]; try discriminate.
    simpl in H. unfold query in H.
    destruct (query_mask _ _ _) as [mask| |]; simpl in H; try discriminate.
    inversion H; subst. simpl. apply select_sorted. exact Hs.
Qed.

Lemma filter_advertisements_sorted (R : dict -> dict -> Prop) (e : env)
      (filters : dict) (df df' : DataFrame) :
  Scanner.filter_advertisements e filters df = Ok df' ->
  StronglySorted R (map snd (df_rows df)) ->
  StronglySorted R (map snd (df_rows df')).
Proof.
  unfold Scanner.filter_advertisements.
  destruct (Scanner.apply_filters e filters df) as [df1| |] eqn:E;
    try discriminate.
  simpl. intros H Hs. inversion H; subst. clear H.
  unfold reset_index; simpl.
  rewrite <- (length_map snd), map_snd_combine_seq.
  revert df df1 E Hs.
  induction filters as [|item filters IH]; intros df df1 E Hs; simpl in E.
  - inversion E; subst. exact Hs.
  - destruct (Scanner.apply_filter e item df) as [df0| |] eqn:E0;
      try discriminate.
    simpl in E. apply (IH df0 df1 E).
    apply (apply_filter_sorted R e item df df0 E0 Hs).
Qed.




(** *** Filtering *)

(** C4. A filter on the timestamp with two datetimes as bounds never
    filters: the f-string prints the datetimes into the query as
    [2020-01-01 00:00:00 <= TIMESTAMP and TIMESTAMP <= 2020-01-02 00:00:00],
    which is no expression, and [query] raises [SyntaxError] on every
    table. *)
Theorem timestamp_filter_aborts (e : env) (df : DataFrame) :
  Scanner.filter_advertisements e Sample.timestamp_filters df
  = Raise SyntaxError.
Proof.
  unfold Scanner.filter_advertisements, Sample.timestamp_filters.
  cbn [Scanner.apply_filters Scanner.apply_filter str_in existsb ID_FILTERS
       py_index nth_error rbind py_str].
  replace (str_in "TIMESTAMP" ID_FILTERS) with false by reflexivity.
  cbn [rbind py_index nth_error py_str].
  unfold query, query_mask.
  match goal with
  | |- context [parse_query ?text] =>
      replace (parse_query text) with Malformed by (vm_compute; reflexivity)
  end.
  reflexivity.
Qed.

(** The text the filter hands to [query]. *)
Lemma timestamp_query_text (e : env) :
  (py_str e (PTime Sample.new_year_2020) ++ " <= TIMESTAMP and TIMESTAMP <= "
   ++ py_str e (PTime (Sample.new_year_2020 + 86400000000)))%string
  = "2020-01-01 00:00:00 <= TIMESTAMP and TIMESTAMP <= 2020-01-02 00:00:00".
Proof. vm_compute. reflexivity. Qed.

(** What does work: an identity filter keeps the rows whose cell equals
    the target, whatever the target is. *)
Lemma identity_filter_keeps (e : env) (key : string) (value : pyval)
      (df : DataFrame) :
  In key ID_FILTERS -> In key (df_columns df) ->
  Scanner.apply_filter e (key, value) df
  = Ok (mkDataFrame (df_columns df)
          (select (map (fun row => py_eqb (cell (snd row) key) value
                                   || (is_nan (cell (snd row) key) && is_nan value))
                       (df_rows df))
                  (df_rows df))).
Proof.
  intros Hid Hcol. unfold Scanner.apply_filter.
  replace (str_in key ID_FILTERS) with true
    by (in_cases Hid; reflexivity).
  unfold isin_mask, column.
  replace (str_in key (df_columns df)) with true.
  - simpl. unfold isin. rewrite map_map. simpl.
    f_equal. f_equal. f_equal. apply map_ext. intros row.
    rewrite orb_false_r. reflexivity.
  - symmetry. unfold str_in. apply existsb_exists. exists key.
    split; [exact Hcol | apply String.eqb_refl].
Qed.

(** And a filter on the RSSI with two integers as bounds: the text is a
    range test, which keeps the rows inside the range. *)
Lemma rssi_filter_sample (e : env) :
  exists df',
    Scanner.filter_advertisements e Sample.scenario_filters Sample.scenario_table
    = Ok df'
    /\ map (fun row => cell (snd row) "RSSI") (df_rows df') = [PInt (-65)].
Proof. eexists. split; vm_compute; reflexivity. Qed.

(** *** The advertiser loop *)

Lemma advertise_cycle_self (timeout : pyval) (start : Q) (s : state) :
  post (Advertiser.advertise_cycle timeout start s)
       (fun _ s' => st_self s' = st_self s /\ st_env s' = st_env s)
       not_radio.
Proof.
  unfold Advertiser.advertise_cycle. run;
    try (unfold not_radio; discriminate); try env_kept.
  eapply elapsed_gt_raises; eassumption.
Qed.

Lemma advertise_loop_self (fuel : nat) (timeout : pyval) (start : Q) :
  forall s : state,
    post (Advertiser.advertise_loop fuel timeout start s)
         (fun _ s' => st_self s' = st_self s /\ st_env s' = st_env s)
         not_radio.
Proof.
  induction fuel as [|fuel IH]; intros s; simpl.
  - exact I.
  - apply sat_bind.
    eapply post_conseq;
      [apply advertise_cycle_self | | intros e s1 H; exact H | exact (fun _ => I)].
    intros run s1 [Hs1 He1]. destruct run.
    + eapply post_conseq;
        [apply IH | | intros e s2 H; exact H | exact (fun _ => I)].
      simpl. intros _ s2 [Hs2 He2]. split; congruence.
    + apply sat_ret. split; assumption.
Qed.

(** *** A session that ends in a radio fault *)

Lemma content_after_write (p c : string) (s : state) :
  content_of (write_file p c s) p = Some c.
Proof.
  unfold content_of, write_file, set_fs, fs_upd. simpl.
  rewrite String.eqb_refl. reflexivity.
Qed.


Lemma as_path_ok (v : pyval) (p : string) : as_path v = Ok p -> v = PStr p.
Proof. destruct v; simpl; intros H; inversion H. reflexivity. Qed.

Ltac handle_cases :=
  try match goal with
      | H : PFile _ true = PFile _ false |- _ => discriminate H
      | H : forall p b, PFile ?a true <> PFile p b |- _ =>
          exfalso; apply (H a true); reflexivity
      | H : PFile _ true = PFile _ true |- _ => inversion H; subst; clear H
      end.

Ltac cleaned :=
  eexists; split; [eassumption|]; split;
  [ cbn [st_self add_csv add_event write_file set_fs set_self set_advertising];
    apply dict_get_set_same
  | unfold content_of, write_file, set_fs, fs_upd;
    cbn [st_fs add_csv add_event];
    rewrite String.eqb_refl; reflexivity ].

Lemma scan_post (fuel : nat) (scan_prefix timeout revisit : pyval) (s : state) :
  post (Scanner.scan fuel scan_prefix timeout revisit s)
       (fun _ s' => exists p, dict_get (st_self s) "control_file" = Some (PStr p)
                              /\ cleaned_up p s')
       fault_leaves_open.
Proof.
  unfold Scanner.scan. run.
  all: try (unfold fault_leaves_open; discriminate).
  all: try (unfold fault_leaves_open; intros ->;
            exfalso; eapply as_path_raises; eauto; fail).
  all: try (unfold fault_leaves_open; intros Hradio;
            exfalso; eapply os_exn_not_radio; eauto; fail).
  all: (eapply post_conseq; [apply scan_loop_self | | | exact (fun _ => I)]).
  all: try (intros e s1 Hs1 _; eexists; rewrite Hs1;
            cbn [st_self set_self]; apply dict_get_set_same).
  all: intros [timestamps scans] s1 Hs1; run.
  all: try (unfold fault_leaves_open; discriminate).
  all: try (unfold fault_leaves_open; intros ->; exfalso;
            first [ eapply process_scans_raises; eauto; fail
                  | eapply items_raises; eauto; fail
                  | eapply filter_advertisements_raises; eauto; fail ]).
  all: try (unfold fault_leaves_open; intros Hradio;
            exfalso; eapply os_exn_not_radio; eauto; fail).
  all: match goal with
       | H : dict_get (st_self (add_event _ ?s1)) "control_file_handle" = Some _,
         Hs : st_self ?s1 = _ |- _ =>
           cbn [st_self add_event] in H; rewrite Hs in H;
           cbn [st_self set_self] in H; rewrite dict_get_set_same in H;
           inversion H; subst; clear H
       end.
  all: handle_cases.
  all: match goal with
       | H : as_path _ = Ok _ |- _ => apply as_path_ok in H; subst
       end.
  all: cleaned.
Qed.

Lemma advertise_post (fuel : nat) (timeout : pyval) (s : state) :
  post (Advertiser.advertise fuel timeout s)
       (fun _ s' => exists p, dict_get (st_self s) "control_file" = Some (PStr p)
                              /\ cleaned_up p s')
       (fun e s' => e_start_advertising (st_env s) = None ->
                    fault_leaves_open e s').
Proof.
  unfold Advertiser.advertise. run.
  all: try (intros _; unfold fault_leaves_open; discriminate).
  all: try (unfold fault_leaves_open; intros _ ->;
            exfalso; eapply as_path_raises; eauto; fail).
  all: try (unfold fault_leaves_open; intros _ Hradio;
            exfalso; eapply os_exn_not_radio; eauto; fail).
  all: try match goal with
           | H : e_start_advertising _ = Some _ |- _ =>
               cbn [st_env add_event write_file set_fs] in H;
               intros Hn; rewrite Hn in H; discriminate H
           end.
  all: (eapply post_conseq; [apply advertise_loop_self | | | exact (fun _ => I)]).
  all: try (intros e s1 Hs1 _ He; exfalso; exact (Hs1 He)).
  all: intros [] s1 [Hs1 He1]; run.
  all: try (intros _; unfold fault_leaves_open; discriminate).
  all: try (unfold fault_leaves_open; intros _ Hradio;
            exfalso; eapply os_exn_not_radio; eauto; fail).
  all: try (intros _ _; eexists; cbn [st_self add_event]; rewrite Hs1;
            cbn [st_self set_self]; apply dict_get_set_same).
  all: match goal with
       | H : dict_get (st_self (add_event _ (set_advertising _ (add_event _ ?s1))))
                      "control_file_handle" = Some _,
         Hs : st_self ?s1 = _ |- _ =>
           cbn [st_self add_event set_advertising] in H; rewrite Hs in H;
           cbn [st_self set_self] in H; rewrite dict_get_set_same in H;
           inversion H; subst; clear H
       end.
  all: handle_cases.
  all: match goal with
       | H : as_path _ = Ok _ |- _ => apply as_path_ok in H; subst
       end.
  all: cleaned.
Qed.

(** The destructor closes an open handle and removes the control file. *)
Lemma del_removes (s : state) (p : string) (h : pyval) :
  dict_get (st_self s) "control_file" = Some (PStr p) ->
  dict_get (st_self s) "control_file_handle" = Some h ->
  (h = PNone \/ exists q b, h = PFile q b) ->
  st_fs (snd (Advertiser.__del__ s)) p = None
  /\ st_fs (snd (Scanner.__del__ s)) p = None
  /\ (forall q, h = PFile q true ->
        dict_get (st_self (snd (Scanner.__del__ s))) "control_file_handle"
        = Some (PFile q false)).
Proof.
  intros Hc Hh Hcase.
  assert (G : st_fs (snd (Scanner.__del__ s)) p = None
              /\ (forall q, h = PFile q true ->
                    dict_get (st_self (snd (Scanner.__del__ s))) "control_file_handle"
                    = Some (PFile q false))).
  { unfold Scanner.__del__, bind, getattr. rewrite Hh.
    destruct Hcase as [->|(q & [|] & ->)]; simpl; rewrite ?Hc; simpl;
      unfold path_unlink; simpl.
    - destruct (st_fs s p) eqn:E; simpl.
      + unfold fs_upd. rewrite String.eqb_refl. split; [reflexivity|discriminate].
      + split; [exact E|discriminate].
    - rewrite dict_get_set_other by discriminate. rewrite Hc. simpl.
      destruct (st_fs s p) eqn:E; simpl.
      + unfold fs_upd. rewrite String.eqb_refl. split; [reflexivity|].
        intros q' Hq. inversion Hq; subst. apply dict_get_set_same.
      + split; [exact E|].
        intros q' Hq. inversion Hq; subst. apply dict_get_set_same.
    - destruct (st_fs s p) eqn:E; simpl.
      + unfold fs_upd. rewrite String.eqb_refl. split; [reflexivity|discriminate].
      + split; [exact E|discriminate]. }
  split; [|exact G]. exact (proj1 G).
Qed.




(* ===================================================================== *)
(** ** The control file *)
(* ===================================================================== *)

Lemma poll_reads (s : state) (p : string) (f : file) :
  dict_get (st_self s) "control_file_handle" = Some (PFile p true) ->
  st_fs s p = Some f ->
  poll s = (Ok (negb (String.eqb (f_content f) "0")), s).
Proof.
  intros Hh Hf. unfold poll, bind, getattr. rewrite Hh. simpl.
  rewrite Hf. reflexivity.
Qed.

Lemma content_of_file (s : state) (p c : string) :
  content_of s p = Some c -> exists f, st_fs s p = Some f /\ f_content f = c.
Proof.
  unfold content_of. destruct (st_fs s p) as [f|]; simpl; intros H;
    inversion H. eauto.
Qed.

(* ===================================================================== *)
(** ** The scan loop's clock *)
(* ===================================================================== *)

Lemma content_pass_cycle (s : state) (p : string) :
  content_of s p = Some "0" ->
  no_stop_signal p (e_cycle (st_env s) (st_tick s)) ->
  content_of (pass_cycle s) p = Some "0".
Proof.
  intros Hc Hq. unfold pass_cycle, no_stop_signal in *.
  destruct (c_write _) as [[q content]|]; [|exact Hc].
  unfold content_of, write_file, set_fs, set_time, fs_upd in *. simpl.
  destruct (String.eqb_spec p q) as [->|Hne].
  - destruct Hq as [Hq| ->]; [contradiction|]. reflexivity.
  - exact Hc.
Qed.

Lemma st_clock_pass_cycle (s : state) :
  st_clock (pass_cycle s)
  = (st_clock s + c_duration (e_cycle (st_env s) (st_tick s)))%Q.
Proof. reflexivity. Qed.

Lemma st_tick_pass_cycle (s : state) : st_tick (pass_cycle s) = S (st_tick s).
Proof. reflexivity. Qed.

Lemma number_of_num (v : pyval) (q : Q) :
  num_of v = Some q -> number_of v = Some (Finite q).
Proof.
  destruct v; simpl; intros H; inversion H; subst; reflexivity.
Qed.

Lemma quiet_cycle (s : state) (p : string) (revisit : Z) (timeout : pyval)
      (T start : Q) (n : nat) :
  scanning s p revisit ->
  no_stop_signal p (e_cycle (st_env s) (st_tick s)) ->
  (exists scan, c_scan (e_cycle (st_env s) (st_tick s)) = Ok scan) ->
  num_of timeout = Some T ->
  exists s' timestamp scan,
    Scanner.scan_cycle timeout start n s
    = (Ok (Qle_bool (st_clock s' - start) T, timestamp, scan), s')
    /\ st_clock s'
       = (st_clock s + c_duration (e_cycle (st_env s) (st_tick s)))%Q
    /\ st_tick s' = S (st_tick s)
    /\ st_env s' = st_env s
    /\ scanning s' p revisit.
Proof.
  intros (Hh & Hc & Hr) Hq (scan & Hscan) HT.
  set (s0 := add_event (EvScan (PInt revisit))
                       (add_event (EvLog "DEBUG" "Performing scan") s)).
  set (s1 := pass_cycle s0).
  assert (Hself1 : st_self s1 = st_self s)
    by (unfold s1; rewrite st_self_pass_cycle; reflexivity).
  assert (Hcont1 : content_of s1 p = Some "0")
    by (apply content_pass_cycle; [exact Hc | exact Hq]).
  assert (Hnone : negb (is_None timeout) = true)
    by (destruct timeout; try discriminate HT; reflexivity).
  set (late := negb (Qle_bool (st_clock s1 - start) T)).
  set (s2 := if late
             then add_event (EvLog "DEBUG" "Beacon scanner timed out.") s1
             else s1).
  assert (Hself2 : st_self s2 = st_self s)
    by (unfold s2; destruct late; exact Hself1).
  assert (Hcont2 : content_of s2 p = Some "0")
    by (unfold s2; destruct late; exact Hcont1).
  assert (Hclock2 : st_clock s2 = st_clock s1)
    by (unfold s2; destruct late; reflexivity).
  destruct (content_of_file _ _ _ Hcont2) as (f & Hf & Hfc).
  assert (Hpoll : poll s2 = (Ok false, s2)).
  { rewrite (poll_reads s2 p f); [rewrite Hfc; reflexivity | | exact Hf].
    rewrite Hself2. exact Hh. }
  exists s2, (PTime (c_now (e_cycle (st_env s) (st_tick s)))), scan.
  split; [|split; [|split; [|split]]].
  - unfold Scanner.scan_cycle.
    unfold bind at 1. unfold getattr at 1. rewrite Hr.
    unfold bind at 1. unfold log_debug, emit, modify.
    unfold bind at 1. unfold datetime_now, gets.
    unfold bind at 1. unfold service_scan, bind, emit, modify, gets, lift.
    cbn [st_env st_tick add_event]. rewrite Hscan.
    fold s0. fold s1. rewrite Hnone.
    unfold monotonic, gets, elapsed_gt. rewrite (number_of_num _ _ HT).
    cbn [number_lt]. fold late.
    rewrite Hclock2.
    destruct late eqn:El; unfold s2 in *.
    + unfold ret. rewrite Hpoll.
      apply negb_true_iff in El. rewrite El. reflexivity.
    + unfold ret. rewrite Hpoll.
      apply negb_false_iff in El. rewrite El. reflexivity.
  - rewrite Hclock2. reflexivity.
  - unfold s2. destruct late; reflexivity.
  - unfold s2. destruct late; cbn [st_env add_event]; unfold s1;
      rewrite st_env_pass_cycle; reflexivity.
  - split; [|split].
    + rewrite Hself2. exact Hh.
    + exact Hcont2.
    + rewrite Hself2. exact Hr.
Qed.

Lemma inject_Z_succ (n : nat) :
  (inject_Z (Z.of_nat (S n)) == inject_Z (Z.of_nat n) + 1)%Q.
Proof.
  rewrite Nat2Z.inj_succ. unfold Z.succ. rewrite inject_Z_plus. reflexivity.
Qed.

Lemma steady_loop (p : string) (revisit : Z) (timeout : pyval) (T start : Q) :
  num_of timeout = Some T -> 0 < revisit ->
  forall (fuel : nat) (s : state) (n : nat) (timestamps : list pyval)
         (scans : list scan_result),
    scanning s p revisit -> steady s p revisit ->
    (st_clock s - start <= T)%Q ->
    (T - (st_clock s - start) < inject_Z (Z.of_nat fuel))%Q ->
    exists r s',
      Scanner.scan_loop fuel timeout start n timestamps scans s = (Ok r, s')
      /\ (T < st_clock s' - start)%Q
      /\ (st_clock s' - start <= T + inject_Z revisit)%Q.
Proof.
  intros HT Hrev.
  assert (Hone : (1 <= inject_Z revisit)%Q).
  { change 1%Q with (inject_Z 1). rewrite <- Zle_Qle. lia. }
  induction fuel as [|fuel IH]; intros s n timestamps scans Hsc Hst He Hfuel.
  - change (inject_Z (Z.of_nat 0)) with 0%Q in Hfuel. exfalso. lra.
  - destruct (Hst (st_tick s) (le_n _)) as (Hdur & Hquiet & Hscan).
    destruct (quiet_cycle s p revisit timeout T start (S n) Hsc Hquiet Hscan HT)
      as (s1 & timestamp & scan & Hrun & Hclock & Htick & Henv & Hsc1).
    simpl. rewrite (bind_ok _ _ _ _ _ Hrun).
    assert (Hc1 : (st_clock s1 == st_clock s + inject_Z revisit)%Q)
      by (rewrite Hclock, Hdur; reflexivity).
    destruct (Qle_bool (st_clock s1 - start) T) eqn:Erun.
    + apply Qle_bool_iff in Erun.
      apply IH; [exact Hsc1 | | exact Erun |].
      * intros k Hk. rewrite Henv. apply Hst. lia.
      * rewrite inject_Z_succ in Hfuel. rewrite Hc1. lra.
    + assert (Hlate : ~ (st_clock s1 - start <= T)%Q).
      { intros H. apply Qle_bool_iff in H. congruence. }
      apply Qnot_le_lt in Hlate.
      eexists. exists s1. split; [reflexivity|].
      split; [exact Hlate|]. rewrite Hc1. lra.
Qed.

(** C3, as amended. With a timeout T > 0, steady cycles of [revisit]
    seconds and no stop signal, the scan loop ends, given enough fuel, and
    the time it took is more than T and at most T + revisit: the overrun
    is one full cycle when T is a multiple of [revisit]. *)
Theorem scan_loop_overrun (s : state) (p : string) (revisit : Z)
        (timeout : pyval) (T : Q) :
  scanning s p revisit ->
  steady s p revisit ->
  num_of timeout = Some T ->
  (0 < T)%Q ->
  0 < revisit ->
  exists fuel0, forall fuel, (fuel0 <= fuel)%nat ->
    exists r s',
      Scanner.scan_loop fuel timeout (st_clock s) 0 [] [] s = (Ok r, s')
      /\ (T < st_clock s' - st_clock s)%Q
      /\ (st_clock s' - st_clock s <= T + inject_Z revisit)%Q.
Proof.
  intros Hsc Hst HT Hpos Hrev.
  exists (Z.to_nat (Qceiling T + 1)). intros fuel Hfuel.
  apply (steady_loop p revisit timeout T (st_clock s) HT Hrev); try assumption.
  - lra.
  - assert (H1 : (T <= inject_Z (Qceiling T))%Q) by apply Qle_ceiling.
    assert (H2 : (inject_Z (Qceiling T + 1) <= inject_Z (Z.of_nat fuel))%Q)
      by (rewrite <- Zle_Qle; lia).
    rewrite inject_Z_plus in H2. change (inject_Z 1) with 1%Q in H2. lra.
Qed.

Lemma scan_loop_overrun_witness :
  exists fuel0, forall fuel, (fuel0 <= fuel)%nat ->
    exists r s',
      Scanner.scan_loop fuel (PInt 2) (st_clock Sample.started_scanner) 0 [] []
                        Sample.started_scanner = (Ok r, s')
      /\ (2 < st_clock s' - st_clock Sample.started_scanner)%Q
      /\ (st_clock s' - st_clock Sample.started_scanner <= 2 + inject_Z 1)%Q.
Proof.
  apply (scan_loop_overrun Sample.started_scanner "scanner_control" 1
                           (PInt 2) 2).
  - vm_compute. repeat split.
  - intros k _. vm_compute. repeat split. eexists. reflexivity.
  - reflexivity.
  - reflexivity.
  - reflexivity.
Defined.

(** C3 fails on the code: with a timeout of 2 s and cycles of 1 s the loop
    stops after the third cycle, 3 s after it began, which is not less
    than 2 + 1. *)
Lemma scan_overrun_counterexample :
  let r := Sample.scanner_session 10 [("timeout", PInt 2)]
                                  (Sample.fresh Sample.env0) in
  (exists df, fst r = Ok df)
  /\ (st_clock (snd r) - st_clock (Sample.fresh Sample.env0) == 2 + inject_Z 1)%Q
  /\ ~ (st_clock (snd r) - st_clock (Sample.fresh Sample.env0) < 2 + inject_Z 1)%Q.
Proof.
  split; [|split].
  - vm_compute. eexists. reflexivity.
  - vm_compute. reflexivity.
  - intros H. vm_compute in H. discriminate H.
Qed.

(* ===================================================================== *)
(** ** The control channel in a session *)
(* ===================================================================== *)

Lemma st_fs_pass_cycle_event (ev : event) (s : state) :
  st_fs (pass_cycle (add_event ev s)) = st_fs (pass_cycle s).
Proof.
  unfold pass_cycle. cbn [st_env st_tick add_event].
  destruct (c_write _) as [[q c]|]; reflexivity.
Qed.

(** The state after some steps of a session, in terms of the state
    before them. *)
Ltac session_state :=
  repeat first [ rewrite st_self_pass_cycle
               | rewrite st_env_pass_cycle
               | rewrite st_tick_pass_cycle
               | rewrite st_fs_pass_cycle_event
               | progress cbn [st_self st_env st_tick st_fs add_event
                               set_advertising set_self] ].

Ltac session_state_in H :=
  repeat first [ rewrite st_self_pass_cycle in H
               | rewrite st_env_pass_cycle in H
               | rewrite st_tick_pass_cycle in H
               | rewrite st_fs_pass_cycle_event in H
               | progress cbn [st_self st_env st_tick st_fs add_event
                               set_advertising set_self] in H ].

Lemma elapsed_gt_answers (elapsed : Q) (timeout : pyval) :
  session_timeout timeout -> negb (is_None timeout) = true ->
  exists late, elapsed_gt elapsed timeout = Ok late.
Proof.
  intros [->|(x & Hx)] Hn; [discriminate Hn|].
  unfold elapsed_gt. rewrite Hx. eauto.
Qed.

(** The facts the steps of one turn of a loop leave behind, brought back
    to the state the turn began in. *)
Ltac turn_facts Hh Hf Ht p :=
  repeat match goal with
         | H : dict_get (st_self (_ _)) "control_file_handle" = _ |- _ =>
             session_state_in H; rewrite Hh in H; inversion H; subst; clear H
         | H : PFile _ _ = PFile _ _ |- _ => inversion H; subst; clear H
         | H : forall q b, _ <> PFile q b |- _ =>
             exfalso; apply (H p true); reflexivity
         | H : elapsed_gt ?el ?t = Raise _, Hn : negb (is_None ?t) = true |- _ =>
             let late := fresh "late" in
             let Hl := fresh "Hl" in
             destruct (elapsed_gt_answers el t Ht Hn) as (late & Hl);
             rewrite Hl in H; discriminate H
         | H : elapsed_gt ?el ?t = OutOfFuel, Hn : negb (is_None ?t) = true |- _ =>
             let late := fresh "late" in
             let Hl := fresh "Hl" in
             destruct (elapsed_gt_answers el t Ht Hn) as (late & Hl);
             rewrite Hl in H; discriminate H
         | H : negb (String.eqb (match st_fs _ _ with _ => _ end) _) = _ |- _ =>
             session_state_in H; rewrite Hf in H
         end.

(** One turn of the advertiser's loop: it ends the loop when the control
    file holds anything but "0" once the sleep is over, and without a
    timeout only then. *)
Lemma advertise_cycle_polls (s : state) (p c : string) (timeout : pyval) (start : Q) :
  dict_get (st_self s) "control_file_handle" = Some (PFile p true) ->
  content_of (pass_cycle s) p = Some c ->
  session_timeout timeout ->
  returns (Advertiser.advertise_cycle timeout start s)
          (fun run s' =>
             (c <> "0" -> run = false)
             /\ (timeout = PNone -> run = String.eqb c "0")
             /\ st_tick s' = S (st_tick s)
             /\ st_env s' = st_env s
             /\ st_self s' = st_self s
             /\ st_fs s' = st_fs (pass_cycle s)).
Proof.
  intros Hh Hc Ht. unfold Advertiser.advertise_cycle.
  destruct (content_of_file _ _ _ Hc) as (f & Hf & Hfc).
  run.
  all: turn_facts Hh Hf Ht p.
  all: try discriminate.
  all: session_state.
  all: try (destruct (String.eqb_spec (f_content f) "0"); simpl in *;
            try discriminate; repeat split; try reflexivity; try congruence;
            intros ->; discriminate).
Qed.

(** One turn of the scanner's loop: it ends the loop when the control
    file holds anything but "0" once the scan is over, and without a
    timeout only then. *)
Lemma scan_cycle_polls (s : state) (p c : string) (timeout : pyval) (start : Q)
      (n : nat) :
  dict_get (st_self s) "control_file_handle" = Some (PFile p true) ->
  dict_get (st_self s) "revisit" <> None ->
  (exists scan, c_scan (e_cycle (st_env s) (st_tick s)) = Ok scan) ->
  content_of (pass_cycle s) p = Some c ->
  session_timeout timeout ->
  returns (Scanner.scan_cycle timeout start n s)
          (fun r s' =>
             (c <> "0" -> fst (fst r) = false)
             /\ (timeout = PNone -> fst (fst r) = String.eqb c "0")
             /\ st_tick s' = S (st_tick s)
             /\ st_env s' = st_env s
             /\ st_self s' = st_self s
             /\ st_fs s' = st_fs (pass_cycle s)).
Proof.
  intros Hh Hr (scan & Hscan) Hc Ht. unfold Scanner.scan_cycle.
  destruct (content_of_file _ _ _ Hc) as (f & Hf & Hfc).
  run.
  all: try (exfalso; apply Hr; assumption).
  all: try match goal with
           | H : c_scan _ = _ |- _ =>
               cbn [st_env st_tick add_event] in H; rewrite Hscan in H;
               try discriminate H
           end.
  all: turn_facts Hh Hf Ht p.
  all: try discriminate.
  all: session_state.
  all: cbn [fst].
  all: try (destruct (String.eqb_spec (f_content f) "0"); simpl in *;
            try discriminate; repeat split; try reflexivity; try congruence;
            intros ->; discriminate).
Qed.

Lemma polling_after (s s1 : state) (p : string) :
  dict_get (st_self s) "control_file_handle" = Some (PFile p true) ->
  content_of (pass_cycle s) p = Some "0" ->
  st_self s1 = st_self s -> st_fs s1 = st_fs (pass_cycle s) ->
  polling s1 p.
Proof.
  intros Hh Hc Hself Hfs. split; [rewrite Hself; exact Hh|].
  unfold content_of in *. rewrite Hfs. exact Hc.
Qed.

Lemma undisturbed_step (s s' : state) (p : string) :
  undisturbed s p -> st_env s' = st_env s -> st_tick s' = S (st_tick s) ->
  undisturbed s' p.
Proof.
  intros H He Ht k Hk. rewrite He. apply H. lia.
Qed.

Lemma stop_request_step (s s' : state) (p content : string) (k : nat) :
  stop_request s p content (S k) ->
  st_env s' = st_env s -> st_tick s' = S (st_tick s) ->
  stop_request s' p content k.
Proof.
  intros [Hq Hw] He Ht. split.
  - intros j Hj. rewrite He, Ht.
    replace (S (st_tick s) + j)%nat with (st_tick s + S j)%nat by lia.
    apply Hq. lia.
  - rewrite He, Ht.
    replace (S (st_tick s) + k)%nat with (st_tick s + S k)%nat by lia.
    exact Hw.
Qed.

Lemma content_pass_cycle_write (s : state) (p content : string) :
  c_write (e_cycle (st_env s) (st_tick s)) = Some (p, content) ->
  content_of (pass_cycle s) p = Some content.
Proof.
  intros H. unfold pass_cycle. rewrite H.
  unfold content_of, write_file, set_fs, set_time, fs_upd. simpl.
  rewrite String.eqb_refl. reflexivity.
Qed.

(** With no timeout and no stop request the advertiser's loop uses up any
    fuel: every poll says go on. *)
Lemma advertise_loop_continues (p : string) (start : Q) :
  forall (fuel : nat) (s : state),
    polling s p -> undisturbed s p ->
    sat (Advertiser.advertise_loop fuel PNone start s)
        (fun _ _ => False) (fun _ _ => False)
        (fun s' => st_tick s' = (st_tick s + fuel)%nat
                   /\ polling s' p
                   /\ st_env s' = st_env s).
Proof.
  induction fuel as [|fuel IH]; intros s [Hh Hc] Hu; simpl.
  - repeat split; try assumption. lia.
  - pose proof (content_pass_cycle _ _ Hc (Hu _ (le_n _))) as Hc1.
    apply sat_bind.
    eapply sat_conseq;
      [apply (advertise_cycle_polls s p "0" PNone start Hh Hc1 (or_introl eq_refl))
      | | intros e s1 H; exact H | intros s1 []].
    intros run s1 (_ & Hrun & Htick & Henv & Hself & Hfs).
    rewrite (Hrun eq_refl). cbn [String.eqb Ascii.eqb Bool.eqb andb].
    eapply sat_conseq;
      [apply (IH s1 (polling_after _ _ _ Hh Hc1 Hself Hfs)
                 (undisturbed_step _ _ _ Hu Henv Htick))
      | intros a s2 H; exact H | intros e s2 H; exact H | ].
    intros s2 (Htick2 & Hp2 & Henv2).
    split; [lia|]. split; [exact Hp2 | congruence].
Qed.

(** The advertiser's loop obeys a stop request at the poll that follows
    it: it ends after [k + 1] turns, or sooner when the timeout has run
    out. *)
Lemma advertise_loop_stops (p content : string) (timeout : pyval) (start : Q) :
  content <> "0" -> session_timeout timeout ->
  forall (k fuel : nat) (s : state),
    polling s p -> stop_request s p content k -> (k < fuel)%nat ->
    returns (Advertiser.advertise_loop fuel timeout start s)
            (fun _ s' => exists j,
                 st_tick s' = (st_tick s + S j)%nat
                 /\ (j <= k)%nat /\ (timeout = PNone -> j = k)
                 /\ st_self s' = st_self s
                 /\ st_env s' = st_env s
                 /\ st_fs s' p <> None).
Proof.
  intros Hne Ht.
  induction k as [|k IH]; intros fuel s [Hh Hc] Hstop Hfuel;
    (destruct fuel as [|fuel]; [lia|]); simpl.
  - destruct Hstop as [_ Hw]. rewrite Nat.add_0_r in Hw.
    pose proof (content_pass_cycle_write _ _ _ Hw) as Hc1.
    apply sat_bind.
    eapply sat_conseq;
      [apply (advertise_cycle_polls s p content timeout start Hh Hc1 Ht)
      | | intros e s1 H; exact H | intros s1 H; exact H].
    intros run s1 (Hrun & _ & Htick & Henv & Hself & Hfs).
    rewrite (Hrun Hne). apply sat_ret. exists 0%nat.
    split; [lia|]. split; [lia|]. split; [reflexivity|].
    split; [exact Hself|]. split; [exact Henv|].
    rewrite Hfs. destruct (content_of_file _ _ _ Hc1) as (f & Hf & _).
    rewrite Hf. discriminate.
  - pose proof (proj1 Hstop 0%nat ltac:(lia)) as Hq.
    rewrite Nat.add_0_r in Hq.
    pose proof (content_pass_cycle _ _ Hc Hq) as Hc1.
    apply sat_bind.
    eapply sat_conseq;
      [apply (advertise_cycle_polls s p "0" timeout start Hh Hc1 Ht)
      | | intros e s1 H; exact H | intros s1 H; exact H].
    intros run s1 (_ & Hrun & Htick & Henv & Hself & Hfs).
    destruct run.
    + eapply sat_conseq;
        [apply (IH fuel s1 (polling_after _ _ _ Hh Hc1 Hself Hfs)
                   (stop_request_step _ _ _ _ _ Hstop Henv Htick))
        | | intros e s2 H; exact H | intros s2 H; exact H]; [lia|].
      intros [] s2 (j & Htick2 & Hj & Hnone & Hself2 & Henv2 & Hfs2).
      exists (S j). split; [lia|]. split; [lia|].
      split; [intros Hn; rewrite (Hnone Hn); reflexivity|].
      split; [congruence|]. split; [congruence | exact Hfs2].
    + apply sat_ret. exists 0%nat.
      split; [lia|]. split; [lia|].
      split; [intros Hn; specialize (Hrun Hn); discriminate Hrun|].
      split; [exact Hself|]. split; [exact Henv|].
      rewrite Hfs. destruct (content_of_file _ _ _ Hc1) as (f & Hf & _).
      rewrite Hf. discriminate.
Qed.

(** With no timeout and no stop request the scanner's loop uses up any
    fuel: every poll says go on. *)
Lemma scan_loop_continues (p : string) (start : Q) :
  forall (fuel : nat) (s : state) (n : nat) (timestamps : list pyval)
         (scans : list scan_result),
    polling s p -> undisturbed s p ->
    dict_get (st_self s) "revisit" <> None ->
    (forall k, exists scan, c_scan (e_cycle (st_env s) k) = Ok scan) ->
    sat (Scanner.scan_loop fuel PNone start n timestamps scans s)
        (fun _ _ => False) (fun _ _ => False)
        (fun s' => st_tick s' = (st_tick s + fuel)%nat
                   /\ polling s' p
                   /\ st_env s' = st_env s).
Proof.
  induction fuel as [|fuel IH]; intros s n timestamps scans [Hh Hc] Hu Hr Hscan;
    simpl.
  - repeat split; try assumption. lia.
  - pose proof (content_pass_cycle _ _ Hc (Hu _ (le_n _))) as Hc1.
    apply sat_bind.
    eapply sat_conseq;
      [apply (scan_cycle_polls s p "0" PNone start (S n) Hh Hr (Hscan _) Hc1
                               (or_introl eq_refl))
      | | intros e s1 H; exact H | intros s1 []].
    intros [[run timestamp] scan] s1 (_ & Hrun & Htick & Henv & Hself & Hfs).
    cbn [fst] in Hrun.
    rewrite (Hrun eq_refl). cbn [String.eqb Ascii.eqb Bool.eqb andb].
    eapply sat_conseq;
      [apply (IH s1 (S n) _ _ (polling_after _ _ _ Hh Hc1 Hself Hfs)
                 (undisturbed_step _ _ _ Hu Henv Htick))
      | intros a s2 H; exact H | intros e s2 H; exact H | ].
    + rewrite Hself. exact Hr.
    + intros k. rewrite Henv. apply Hscan.
    + intros s2 (Htick2 & Hp2 & Henv2).
      split; [lia|]. split; [exact Hp2 | congruence].
Qed.

(** The scanner's loop obeys a stop request at the poll that follows it:
    it ends after [k + 1] scans, or sooner when the timeout has run
    out. *)
Lemma scan_loop_stops (p content : string) (timeout : pyval) (start : Q) :
  content <> "0" -> session_timeout timeout ->
  forall (k fuel : nat) (s : state) (n : nat) (timestamps : list pyval)
         (scans : list scan_result),
    polling s p -> stop_request s p content k -> (k < fuel)%nat ->
    dict_get (st_self s) "revisit" <> None ->
    (forall k, exists scan, c_scan (e_cycle (st_env s) k) = Ok scan) ->
    returns (Scanner.scan_loop fuel timeout start n timestamps scans s)
            (fun _ s' => exists j,
                 st_tick s' = (st_tick s + S j)%nat
                 /\ (j <= k)%nat /\ (timeout = PNone -> j = k)
                 /\ st_self s' = st_self s
                 /\ st_env s' = st_env s
                 /\ st_fs s' p <> None).
Proof.
  intros Hne Ht.
  induction k as [|k IH];
    intros fuel s n timestamps scans [Hh Hc] Hstop Hfuel Hr Hscan;
    (destruct fuel as [|fuel]; [lia|]); simpl.
  - destruct Hstop as [_ Hw]. rewrite Nat.add_0_r in Hw.
    pose proof (content_pass_cycle_write _ _ _ Hw) as Hc1.
    apply sat_bind.
    eapply sat_conseq;
      [apply (scan_cycle_polls s p content timeout start (S n) Hh Hr (Hscan _)
                               Hc1 Ht)
      | | intros e s1 H; exact H | intros s1 H; exact H].
    intros [[run timestamp] scan] s1 (Hrun & _ & Htick & Henv & Hself & Hfs).
    cbn [fst] in Hrun.
    rewrite (Hrun Hne). apply sat_ret. exists 0%nat.
    split; [lia|]. split; [lia|]. split; [reflexivity|].
    split; [exact Hself|]. split; [exact Henv|].
    rewrite Hfs. destruct (content_of_file _ _ _ Hc1) as (f & Hf & _).
    rewrite Hf. discriminate.
  - pose proof (proj1 Hstop 0%nat ltac:(lia)) as Hq.
    rewrite Nat.add_0_r in Hq.
    pose proof (content_pass_cycle _ _ Hc Hq) as Hc1.
    apply sat_bind.
    eapply sat_conseq;
      [apply (scan_cycle_polls s p "0" timeout start (S n) Hh Hr (Hscan _)
                               Hc1 Ht)
      | | intros e s1 H; exact H | intros s1 H; exact H].
    intros [[run timestamp] scan] s1 (_ & Hrun & Htick & Henv & Hself & Hfs).
    cbn [fst] in Hrun.
    destruct run.
    + eapply sat_conseq;
        [apply (IH fuel s1 (S n) _ _ (polling_after _ _ _ Hh Hc1 Hself Hfs)
                   (stop_request_step _ _ _ _ _ Hstop Henv Htick))
        | | intros e s2 H; exact H | intros s2 H; exact H].
      * lia.
      * rewrite Hself. exact Hr.
      * intros j. rewrite Henv. apply Hscan.
      * intros r s2 (j & Htick2 & Hj & Hnone & Hself2 & Henv2 & Hfs2).
        exists (S j). split; [lia|]. split; [lia|].
        split; [intros Hn; rewrite (Hnone Hn); reflexivity|].
        split; [congruence|]. split; [congruence | exact Hfs2].
    + apply sat_ret. exists 0%nat.
      split; [lia|]. split; [lia|].
      split; [intros Hn; specialize (Hrun Hn); discriminate Hrun|].
      split; [exact Hself|]. split; [exact Henv|].
      rewrite Hfs. destruct (content_of_file _ _ _ Hc1) as (f & Hf & _).
      rewrite Hf. discriminate.
Qed.

(** The facts the steps before the loop leave behind, brought back to the
    state the session began in. *)
Ltac start_facts Hc Ht :=
  unfold effective_timeout in Ht;
  cbn [st_self st_env st_fs st_tick st_clock add_event set_advertising
       write_file set_fs set_self] in *;
  repeat match goal with
         | H : py_eqb _ (PInt 0) = _ |- _ => rewrite H in Ht; clear H
         | H : dict_get (st_self _) "control_file" = Some ?v |- _ =>
             lazymatch v with
             | PStr _ => fail
             | _ => rewrite Hc in H; inversion H; subst; clear H
             end
         | H : dict_get (st_self _) "control_file" = None |- _ =>
             rewrite Hc in H; discriminate H
         | H : as_path (PStr _) = _ |- _ =>
             cbn [as_path] in H; inversion H; subst; clear H
         | H : dict_get (st_self _) "timeout" = _ |- _ =>
             rewrite Ht in H; inversion H; subst; clear H
         | H : fs_upd _ ?p _ ?p = _ |- _ =>
             unfold fs_upd in H; rewrite String.eqb_refl in H;
             inversion H; subst; clear H
         end.

Lemma advertise_never_returns (s : state) (p : string) (timeout : pyval)
      (fuel : nat) :
  permits s p -> undisturbed s p -> advertiser_ready s p ->
  effective_timeout s timeout = Some PNone ->
  sat (Advertiser.advertise fuel timeout s)
      (fun _ _ => False) (fun _ _ => False)
      (fun s' => st_tick s' = (st_tick s + fuel)%nat /\ polling s' p).
Proof.
  intros Hperm Hu (Hc & Hpar & Hstart & Hstop) Ht.
  pose proof (Hperm (st_tick s) OpenWrite) as Hw.
  pose proof (Hperm (st_tick s) OpenUpdate) as Ho.
  pose proof (Hpar "uuid" ltac:(simpl; tauto)) as P1.
  pose proof (Hpar "major" ltac:(simpl; tauto)) as P2.
  pose proof (Hpar "minor" ltac:(simpl; tauto)) as P3.
  pose proof (Hpar "tx_power" ltac:(simpl; tauto)) as P4.
  pose proof (Hpar "interval" ltac:(simpl; tauto)) as P5.
  unfold Advertiser.advertise. run.
  all: start_facts Hc Ht.
  all: try congruence.
  all: try (injection Ht as ->).
  all: (eapply sat_conseq;
        [apply (advertise_loop_continues a)
        | intros _ s1 [] | intros _ s1 [] | intros s1 (Htick & Hp & _) ]).
  all: try (split; [exact Htick | exact Hp]).
  all: try (split; [cbn [st_self set_self]; apply dict_get_set_same
                   | unfold content_of;
                     cbn [st_fs set_self add_event set_advertising write_file set_fs];
                     unfold fs_upd; rewrite String.eqb_refl; reflexivity]).
  all: exact Hu.
Qed.

(** The facts the steps after the loop leave behind, brought back to the
    state the loop ended in. *)
Ltac stop_facts Hself Henv Hperm a :=
  cbn [st_self st_env st_fs st_tick st_clock add_event set_advertising
       write_file set_fs set_self add_csv] in *;
  repeat match goal with
         | H : dict_get (st_self _) "control_file_handle" = _ |- _ =>
             rewrite Hself, dict_get_set_same in H; inversion H; subst; clear H
         | H : PFile _ _ = PFile _ _ |- _ => inversion H; subst; clear H
         | H : forall q b, _ <> PFile q b |- _ =>
             exfalso; apply (H a true); reflexivity
         | H : e_stop_advertising (st_env _) = Some _ |- _ =>
             rewrite Henv in H; congruence
         | H : e_refuses (st_env _) _ _ _ = Some _ |- _ =>
             rewrite Henv, Hperm in H; discriminate H
         end.

Ltac cleaned_up_now :=
  split;
  [ cbn [st_self set_self add_event write_file set_fs add_csv];
    apply dict_get_set_same
  | unfold content_of; cbn [st_fs add_event write_file set_fs set_self add_csv];
    unfold fs_upd; rewrite String.eqb_refl; reflexivity ].

Lemma advertise_obeys_stop (s : state) (p content : string) (timeout t : pyval)
      (k fuel : nat) :
  permits s p -> advertiser_ready s p ->
  content <> "0" -> stop_request s p content k ->
  effective_timeout s timeout = Some t -> session_timeout t ->
  (k < fuel)%nat ->
  returns (Advertiser.advertise fuel timeout s)
          (fun _ s' => exists j,
               st_tick s' = (st_tick s + S j)%nat
               /\ (j <= k)%nat /\ (t = PNone -> j = k)
               /\ cleaned_up p s').
Proof.
  intros Hperm (Hc & Hpar & Hstart & Hstop) Hne Hreq Ht Hst Hfuel.
  pose proof (Hperm (st_tick s) OpenWrite) as Hw.
  pose proof (Hperm (st_tick s) OpenUpdate) as Ho.
  pose proof (Hpar "uuid" ltac:(simpl; tauto)) as P1.
  pose proof (Hpar "major" ltac:(simpl; tauto)) as P2.
  pose proof (Hpar "minor" ltac:(simpl; tauto)) as P3.
  pose proof (Hpar "tx_power" ltac:(simpl; tauto)) as P4.
  pose proof (Hpar "interval" ltac:(simpl; tauto)) as P5.
  unfold Advertiser.advertise. run.
  all: start_facts Hc Ht.
  all: try congruence.
  all: try (injection Ht as ->).
  all: (eapply sat_conseq;
        [apply (advertise_loop_stops a content _ _ Hne Hst k fuel)
        | | intros e s1 [] | intros s1 [] ]).
  all: try exact Hfuel.
  all: try exact Hreq.
  all: try (split; [cbn [st_self set_self]; apply dict_get_set_same
                   | unfold content_of;
                     cbn [st_fs set_self add_event set_advertising write_file set_fs];
                     unfold fs_upd; rewrite String.eqb_refl; reflexivity]).
  all: intros [] s1 (j & Htick & Hj & Hnone & Hself & Henv & Hfs).
  all: cbn [st_self st_env st_tick set_self add_event set_advertising
            write_file set_fs] in Hself, Henv, Htick.
  all: run.
  all: stop_facts Hself Henv Hperm a.
  all: try discriminate.
  all: exists j; split; [exact Htick|]; split; [exact Hj|]; split; [exact Hnone|];
    cleaned_up_now.
Qed.

(** The pure parts of [scan] are not what the fuel cuts short. *)
Lemma collect_ends (pairs : list (option scan_result * option pyval)) :
  forall acc, Scanner.collect pairs acc <> OutOfFuel.
Proof.
  induction pairs as [|[[scan|] timestamp] pairs IH]; intros acc; simpl.
  - discriminate.
  - apply IH.
  - discriminate.
Qed.

Lemma process_scans_ends (scans : list scan_result) (timestamps : list pyval) :
  Scanner.process_scans scans timestamps <> OutOfFuel.
Proof.
  unfold Scanner.process_scans.
  destruct (Scanner.collect _ _) as [ads|e|] eqn:E; simpl; try discriminate.
  exfalso. exact (collect_ends _ _ E).
Qed.

Lemma items_ends (v : pyval) : items v <> OutOfFuel.
Proof. destruct v; discriminate. Qed.

Lemma as_path_ends (v : pyval) : as_path v <> OutOfFuel.
Proof. destruct v; discriminate. Qed.

Lemma py_index_ends (v : pyval) (i : nat) : py_index v i <> OutOfFuel.
Proof.
  unfold py_index. intros H. split_result H.
Qed.

Lemma query_ends (e : env) (text : string) (df : DataFrame) :
  query e text df <> OutOfFuel.
Proof.
  unfold query, query_mask. intros H.
  destruct (parse_query text) as [low c c' high| |]; simpl in H.
  - destruct (range_mask low c c' high df); simpl in H; [discriminate|].
    destruct (e_eval e text df) as [err|mask]; simpl in H; discriminate.
  - discriminate.
  - destruct (e_eval e text df) as [err|mask]; simpl in H; discriminate.
Qed.

Lemma apply_filter_ends (e : env) (item : string * pyval) (df : DataFrame) :
  Scanner.apply_filter e item df <> OutOfFuel.
Proof.
  destruct item as [key value]. unfold Scanner.apply_filter. intros H.
  destruct (str_in key ID_FILTERS).
  - unfold isin_mask, column in H. destruct (str_in key (df_columns df));
      simpl in H; discriminate.
  - destruct (py_index value 0) as [low|e'|] eqn:E0; simpl in H;
      try discriminate; [|exact (py_index_ends _ _ E0)].
    destruct (py_index value 1) as [high|e'|] eqn:E1; simpl in H;
      try discriminate; [|exact (py_index_ends _ _ E1)].
    exact (query_ends _ _ _ H).
Qed.

Lemma filter_advertisements_ends (e : env) (filters : dict) (df : DataFrame) :
  Scanner.filter_advertisements e filters df <> OutOfFuel.
Proof.
  unfold Scanner.filter_advertisements. intros H.
  destruct (Scanner.apply_filters e filters df) as [df'|e'|] eqn:E; simpl in H;
    try discriminate.
  clear H. revert df E.
  induction filters as [|item filters IH]; intros df E; simpl in E.
  - discriminate.
  - destruct (Scanner.apply_filter e item df) as [df0|e0|] eqn:E0; simpl in E;
      try discriminate.
    + apply (IH df0 E).
    + exact (apply_filter_ends _ _ _ E0).
Qed.

Lemma scan_never_returns (s : state) (p : string) (scan_prefix timeout revisit : pyval)
      (fuel : nat) :
  permits s p -> undisturbed s p -> scanner_ready s p ->
  effective_timeout s timeout = Some PNone ->
  sat (Scanner.scan fuel scan_prefix timeout revisit s)
      (fun _ _ => False) (fun _ _ => False)
      (fun s' => st_tick s' = (st_tick s + fuel)%nat /\ polling s' p).
Proof.
  intros Hperm Hu (Hc & Hprefix & Hrev & Hscan) Ht.
  pose proof (Hperm (st_tick s) OpenWrite) as Hw.
  pose proof (Hperm (st_tick s) OpenUpdate) as Ho.
  unfold Scanner.scan. run.
  all: start_facts Hc Ht.
  all: try congruence.
  all: try (injection Ht as ->).
  all: (eapply sat_conseq;
        [apply (scan_loop_continues a)
        | intros _ s1 [] | intros _ s1 [] | intros s1 (Htick & Hp & _) ]).
  all: try (split; [exact Htick | exact Hp]).
  all: try (split; [cbn [st_self set_self]; apply dict_get_set_same
                   | unfold content_of;
                     cbn [st_fs set_self add_event set_advertising write_file set_fs];
                     unfold fs_upd; rewrite String.eqb_refl; reflexivity]).
  all: try exact Hu.
  all: try exact Hscan.
  all: cbn [st_self set_self add_event write_file set_fs];
    rewrite dict_get_set_other by discriminate; exact Hrev.
Qed.

Lemma scan_obeys_stop (s : state) (p content : string)
      (scan_prefix timeout t revisit : pyval) (k fuel : nat) :
  permits s p -> scanner_ready s p ->
  content <> "0" -> stop_request s p content k ->
  effective_timeout s timeout = Some t -> session_timeout t ->
  (k < fuel)%nat ->
  let ended (s' : state) :=
    exists j, st_tick s' = (st_tick s + S j)%nat
              /\ (j <= k)%nat /\ (t = PNone -> j = k)
              /\ cleaned_up p s' in
  sat (Scanner.scan fuel scan_prefix timeout revisit s)
      (fun _ s' => ended s') (fun _ s' => ended s') (fun _ => False).
Proof.
  intros Hperm (Hc & Hprefix & Hrev & Hscan) Hne Hreq Ht Hst Hfuel ended.
  subst ended.
  pose proof (Hperm (st_tick s) OpenWrite) as Hw.
  pose proof (Hperm (st_tick s) OpenUpdate) as Ho.
  unfold Scanner.scan. run.
  all: start_facts Hc Ht.
  all: try congruence.
  all: try (injection Ht as ->).
  all: (eapply sat_conseq;
        [apply (scan_loop_stops a content _ _ Hne Hst k fuel)
        | | intros e s1 [] | intros s1 [] ]).
  all: try exact Hfuel.
  all: try exact Hreq.
  all: try exact Hscan.
  all: try (split; [cbn [st_self set_self]; apply dict_get_set_same
                   | unfold content_of;
                     cbn [st_fs set_self add_event set_advertising write_file set_fs];
                     unfold fs_upd; rewrite String.eqb_refl; reflexivity]).
  all: try (cbn [st_self set_self add_event write_file set_fs];
            rewrite dict_get_set_other by discriminate; exact Hrev).
  all: intros [timestamps scans] s1 (j & Htick & Hj & Hnone & Hself & Henv & Hfs).
  all: cbn [st_self st_env st_tick set_self add_event set_advertising
            write_file set_fs] in Hself, Henv, Htick.
  all: run.
  all: stop_facts Hself Henv Hperm a.
  all: try discriminate.
  all: try (exfalso; eapply process_scans_ends; eassumption).
  all: try (exfalso; eapply items_ends; eassumption).
  all: try (exfalso; eapply filter_advertisements_ends; eassumption).
  all: exists j; split; [exact Htick|]; split; [exact Hj|]; split; [exact Hnone|];
    cleaned_up_now.
Qed.



(** A session does not trust what an earlier one left in the control
    file: the scanner whose file holds "1" goes on scanning, and the
    advertiser that is told to stop during its third sleep returns after
    the third, the file back at "0". *)
Lemma stale_flag_is_reset :
  content_of Sample.stopped_scanner "scanner_control" = Some "1"
  /\ fst (Scanner.scan 4 (PStr EmptyString) (PInt 0) (PInt 1) Sample.stopped_scanner)
     = OutOfFuel
  /\ content_of Sample.stopped_advertiser "advertiser_control" = Some "1"
  /\ fst (Advertiser.advertise 10 (PInt 0) Sample.stopped_advertiser) = Ok tt
  /\ st_tick (snd (Advertiser.advertise 10 (PInt 0) Sample.stopped_advertiser))
     = 3%nat
  /\ content_of (snd (Advertiser.advertise 10 (PInt 0) Sample.stopped_advertiser))
                "advertiser_control" = Some "0".
Proof. vm_compute. repeat split. Qed.

(** The control-file setter fails when the operating system refuses to
    create the file, as for a path in a directory that does not exist. *)
Lemma refused_control_file_raises (s : state) (value : string) :
  e_refuses (st_env s) (st_tick s) Touch (e_resolve (st_env s) value)
  = Some NoSuchDirectory ->
  fst (Advertiser.control_file_setter (PStr value) s) = Raise FileNotFoundError
  /\ fst (Scanner.control_file_setter (PStr value) s) = Raise FileNotFoundError.
Proof.
  intros H.
  unfold Advertiser.control_file_setter, Scanner.control_file_setter,
    path_touch, os_check, store.
  unfold bind, gets, modify. cbn [st_env st_tick set_self].
  rewrite H. split; reflexivity.
Qed.
(* ===================================================================== *)
(** ** load_config *)
(* ===================================================================== *)

Lemma dict_get_absent (d : dict) (k : string) :
  ~ In k (keys d) -> dict_get d k = None.
Proof.
  induction d as [|[k0 v0] d IH]; simpl; intros H; [reflexivity|].
  destruct (String.eqb_spec k k0) as [->|Hne]; [tauto|].
  apply IH. tauto.
Qed.

Lemma dict_mem_set (d : dict) (k k' : string) (v : pyval) :
  dict_mem (dict_set d k v) k' = (String.eqb k' k || dict_mem d k')%bool.
Proof.
  unfold dict_mem. rewrite dict_get_set.
  destruct (String.eqb k' k); reflexivity.
Qed.

Lemma dict_get_merge (a b : dict) (k : string) :
  NoDup (keys b) ->
  dict_get (dict_merge a b) k
  = match dict_get b k with
    | Some v => Some v
    | None => dict_get a k
    end.
Proof.
  unfold dict_merge. revert a.
  induction b as [|[k0 v0] b IH]; intros a Hnd; simpl; [reflexivity|].
  inversion Hnd as [|? ? Hnotin Hnd']; subst.
  rewrite IH by exact Hnd'.
  destruct (String.eqb_spec k k0) as [->|Hne].
  - rewrite (dict_get_absent b k0 Hnotin). apply dict_get_set_same.
  - destruct (dict_get b k); [reflexivity|].
    apply dict_get_set_other. exact Hne.
Qed.

Lemma dict_mem_merge (a b : dict) (k : string) :
  NoDup (keys b) ->
  dict_mem (dict_merge a b) k = (dict_mem a k || dict_mem b k)%bool.
Proof.
  intros Hnd. unfold dict_mem. rewrite (dict_get_merge a b k Hnd).
  destruct (dict_get b k), (dict_get a k); reflexivity.
Qed.

Lemma section_of_set (config : dict) (role role' : string) (d : dict) :
  section_of (dict_set config role (PDict d)) role'
  = if String.eqb role' role then Ok d else section_of config role'.
Proof.
  unfold section_of, getitem. rewrite dict_get_set.
  destruct (String.eqb role' role); reflexivity.
Qed.

(** One command-line item, applied to a config whose two role sections
    are mappings. *)
Lemma override_sections (key : string) (value : pyval) (config a b : dict) :
  section_of config "advertiser" = Ok a ->
  section_of config "scanner" = Ok b ->
  let pick (sec : dict) :=
    if negb (is_None value) && dict_mem sec key then dict_set sec key value
    else sec in
  exists config',
    override (key, value) config = Ok config'
    /\ section_of config' "advertiser" = Ok (pick a)
    /\ section_of config' "scanner" = Ok (pick b).
Proof.
  intros Ha Hb pick. unfold override, pick.
  destruct (negb (is_None value)); simpl; [|eauto].
  unfold key_in_section, set_in_section. rewrite Ha. simpl.
  destruct (dict_mem a key); simpl;
    rewrite ?section_of_set; simpl; rewrite Hb; simpl;
    destruct (dict_mem b key); simpl;
    eexists; (split; [reflexivity|]);
    rewrite ?section_of_set; simpl; auto.
Qed.

Lemma over_step (sec parsed_args : dict) (k0 : string) (v0 : pyval) (key : string) :
  ~ In k0 (keys parsed_args) ->
  over (if negb (is_None v0) && dict_mem sec k0 then dict_set sec k0 v0 else sec)
       parsed_args key
  = over sec ((k0, v0) :: parsed_args) key.
Proof.
  intros Hnotin. unfold over. simpl.
  destruct (String.eqb_spec key k0) as [->|Hne].
  - rewrite (dict_get_absent _ _ Hnotin).
    destruct (negb (is_None v0) && dict_mem sec k0)%bool; [|reflexivity].
    apply dict_get_set_same.
  - destruct (negb (is_None v0) && dict_mem sec k0)%bool; [|reflexivity].
    rewrite dict_mem_set, dict_get_set_other by exact Hne.
    destruct (String.eqb_spec key k0); [contradiction|]. reflexivity.
Qed.

Lemma merge_args_sections (aliased : bool) (parsed_args : dict) :
  NoDup (keys parsed_args) ->
  forall (config a b : dict) (s : state),
    section_of config "advertiser" = Ok a ->
    section_of config "scanner" = Ok b ->
    exists config' s',
      merge_args aliased parsed_args config s = (Ok config', s')
      /\ st_env s' = st_env s
      /\ (st_DEFAULT_CONFIG s'
          = if aliased
            then match parsed_args with [] => st_DEFAULT_CONFIG s | _ => config' end
            else st_DEFAULT_CONFIG s)
      /\ forall key,
           section_get config' "advertiser" key = over a parsed_args key
           /\ section_get config' "scanner" key = over b parsed_args key.
Proof.
  induction parsed_args as [|[k0 v0] parsed_args IH];
    intros Hnd config a b s Ha Hb.
  - exists config, s. split; [reflexivity|]. split; [reflexivity|].
    split; [destruct aliased; reflexivity|].
    intros key. unfold section_get, over. rewrite Ha, Hb. simpl. auto.
  - inversion Hnd as [|? ? Hnotin Hnd']; subst.
    destruct (override_sections k0 v0 config a b Ha Hb)
      as (config1 & Hov & Ha1 & Hb1).
    set (s1 := if aliased then set_DEFAULT_CONFIG config1 s else s).
    destruct (IH Hnd' config1 _ _ s1 Ha1 Hb1)
      as (config' & s' & Hrun & Henv & Hglobal & Hres).
    exists config', s'. split; [|split; [|split]].
    + cbn [merge_args]. unfold bind at 1. unfold lift. rewrite Hov.
      unfold bind at 1. unfold put_config.
      destruct aliased; exact Hrun.
    + rewrite Henv. unfold s1. destruct aliased; reflexivity.
    + rewrite Hglobal. unfold s1. destruct aliased; [|reflexivity].
      destruct parsed_args as [|item rest]; [|reflexivity].
      simpl in Hrun. inversion Hrun; subst. reflexivity.
    + intros key. destruct (Hres key) as [H1 H2].
      rewrite H1, H2. split; apply over_step; exact Hnotin.
Qed.

Lemma over_resolved (defaults file parsed_args : dict) (key : string) :
  NoDup (keys file) ->
  over (dict_merge defaults file) parsed_args key
  = resolved defaults file parsed_args key.
Proof.
  intros Hnd. unfold over, resolved.
  rewrite (dict_mem_merge _ _ _ Hnd), (dict_get_merge _ _ _ Hnd). reflexivity.
Qed.

Lemma over_resolved_nil (defaults parsed_args : dict) (key : string) :
  over defaults parsed_args key = resolved defaults [] parsed_args key.
Proof.
  unfold over, resolved. simpl. rewrite orb_false_r. reflexivity.
Qed.

Lemma merge_config_resolved (s : state) (parsed_args da ds fa fs : dict) :
  NoDup (keys parsed_args) ->
  section_of (st_DEFAULT_CONFIG s) "advertiser" = Ok da ->
  section_of (st_DEFAULT_CONFIG s) "scanner" = Ok ds ->
  loaded_sections s parsed_args = Some (fa, fs) ->
  NoDup (keys fa) -> NoDup (keys fs) ->
  exists config s',
    merge_config parsed_args s = (Ok (no_file parsed_args, config), s')
    /\ st_env s' = st_env s
    /\ (if no_file parsed_args then st_DEFAULT_CONFIG s' = config
        else st_DEFAULT_CONFIG s' = st_DEFAULT_CONFIG s)
    /\ (forall key,
          section_get config "advertiser" key = resolved da fa parsed_args key
          /\ section_get config "scanner" key = resolved ds fs parsed_args key).
Proof.
  intros Hnd Hda Hds Hload Hfa Hfs. unfold loaded_sections in Hload.
  unfold no_file, merge_config, bind at 1. unfold lift, getitem.
  destruct (dict_get parsed_args "config_yml") as [cy|]; [|discriminate].
  destruct cy as [| | | |path| | | | | |]; try discriminate.
  - (* no file: the config is the global itself *)
    inversion Hload; subst. simpl. unfold bind at 1. unfold gets.
    destruct (merge_args_sections true parsed_args Hnd
                (st_DEFAULT_CONFIG s) da ds s Hda Hds)
      as (config & s' & Hrun & Henv & Hglobal & Hres).
    exists config, s'. split; [|split; [|split]].
    + unfold bind. rewrite Hrun. reflexivity.
    + exact Henv.
    + rewrite Hglobal. destruct parsed_args; [|reflexivity].
      simpl in Hrun. inversion Hrun. reflexivity.
    + intros key. destruct (Hres key) as [H1 H2].
      rewrite H1, H2, <- !over_resolved_nil. auto.
  - (* a file: fresh sections merged over the defaults *)
    simpl. unfold bind at 1. unfold bind at 1. unfold gets.
    destruct (e_yaml (st_env s) path) as [[| | | | | | | |doc| |]| |];
      try discriminate.
    destruct (dict_get doc "advertiser") as [[| | | | | | | |a| |]|] eqn:Ea;
      try discriminate.
    destruct (dict_get doc "scanner") as [[| | | | | | | |b| |]|] eqn:Eb;
      try discriminate.
    inversion Hload; subst. simpl.
    unfold bind at 1. unfold bind at 1. rewrite Hda. simpl.
    unfold bind at 1. unfold section_of at 1, getitem. rewrite Ea. simpl.
    unfold bind at 1. rewrite Hds. simpl.
    unfold bind at 1. rewrite section_of_set. simpl.
    unfold section_of at 1, getitem. rewrite Eb. simpl.
    unfold bind at 1. cbv beta iota.
    match goal with
    | |- context [merge_args false parsed_args ?c] => set (config0 := c)
    end.
    destruct (merge_args_sections false parsed_args Hnd config0
                (dict_merge da fa) (dict_merge ds fs) s)
      as (config & s' & Hrun & Henv & Hglobal & Hres).
    { unfold config0. rewrite !section_of_set. reflexivity. }
    { unfold config0. rewrite !section_of_set. reflexivity. }
    exists config, s'. split; [|split; [|split]].
    + unfold bind. rewrite Hrun. reflexivity.
    + exact Henv.
    + exact Hglobal.
    + intros key. destruct (Hres key) as [H1 H2].
      rewrite H1, H2, !over_resolved by assumption. auto.
Qed.

(** *** Removing malformed filters *)

Lemma in_dict_del (d : dict) (k0 : string) (item : string * pyval) :
  In item (dict_del d k0) <-> In item d /\ fst item <> k0.
Proof.
  induction d as [|[k v] d IH]; simpl.
  - tauto.
  - destruct (String.eqb_spec k0 k) as [->|Hne].
    + rewrite IH. split.
      * tauto.
      * intros [[<-|H] Hk]; [simpl in Hk; contradiction | tauto].
    + simpl. rewrite IH. split.
      * intros [<-|[H Hk]]; [simpl; split; [tauto|congruence] | tauto].
      * tauto.
Qed.

Lemma in_fold_del (to_remove : list string) (d : dict) (item : string * pyval) :
  In item (fold_left dict_del to_remove d)
  <-> In item d /\ ~ In (fst item) to_remove.
Proof.
  revert d. induction to_remove as [|k0 l IH]; intros d; simpl.
  - tauto.
  - rewrite IH, in_dict_del. intuition congruence.
Qed.

Lemma filters_to_remove_spec (entries : dict) (to_remove : list string) :
  filters_to_remove entries = Ok to_remove ->
  forall item, In item entries ->
    (malformed item = Ok true /\ In (fst item) to_remove)
    \/ malformed item = Ok false.
Proof.
  revert to_remove.
  induction entries as [|[key value] entries IH]; intros to_remove H item Hin.
  - contradiction.
  - cbn [filters_to_remove] in H.
    destruct (malformed (key, value)) as [bad| |] eqn:Em; simpl in H;
      try discriminate.
    destruct (filters_to_remove entries) as [more| |] eqn:Er; simpl in H;
      try discriminate.
    inversion H; subst. destruct Hin as [<-|Hin].
    + destruct bad; [left; split; [exact Em | left; reflexivity] | right; exact Em].
    + destruct (IH more eq_refl item Hin) as [[Hm Hi]|Hm]; [|right; exact Hm].
      left. split; [exact Hm|]. destruct bad; [right|]; exact Hi.
Qed.

Lemma filters_to_remove_only (entries : dict) (to_remove : list string) :
  filters_to_remove entries = Ok to_remove ->
  forall key, In key to_remove ->
    exists value, In (key, value) entries /\ malformed (key, value) = Ok true.
Proof.
  revert to_remove.
  induction entries as [|[k v] entries IH]; intros to_remove H key Hin;
    cbn [filters_to_remove] in H.
  - inversion H; subst. contradiction.
  - destruct (malformed (k, v)) as [bad| |] eqn:Em; simpl in H;
      try discriminate.
    destruct (filters_to_remove entries) as [more| |] eqn:Er; simpl in H;
      try discriminate.
    inversion H; subst. destruct bad.
    + destruct Hin as [<-|Hin]; [exists v; split; [left; reflexivity|exact Em]|].
      destruct (IH more eq_refl key Hin) as (value & Hv & Hm).
      exists value. split; [right; exact Hv | exact Hm].
    + destruct (IH more eq_refl key Hin) as (value & Hv & Hm).
      exists value. split; [right; exact Hv | exact Hm].
Qed.

Lemma malformed_false (item : string * pyval) :
  malformed item = Ok false -> well_formed_filter item.
Proof.
  destruct item as [key value]. unfold malformed, well_formed_filter.
  destruct (str_in key ALLOWABLE_FILTERS); cbn [negb]; [|discriminate].
  destruct (is_None value) eqn:En; [discriminate|].
  destruct (str_in key MEASUREMENT_FILTERS).
  - destruct (py_len value) as [n| |]; cbn [rbind]; try discriminate.
    intros H. inversion H as [Hn]. apply negb_false_iff in Hn.
    apply Nat.eqb_eq in Hn. subst.
    split; [reflexivity|]. split; [intros ->; discriminate|]. auto.
  - intros _. split; [reflexivity|]. split; [intros ->; discriminate|].
    discriminate.
Qed.

Lemma malformed_true (item : string * pyval) :
  malformed item = Ok true -> ~ well_formed_filter item.
Proof.
  destruct item as [key value]. unfold malformed, well_formed_filter.
  destruct (str_in key ALLOWABLE_FILTERS); cbn [negb];
    [|intros _ [H _]; discriminate].
  destruct (is_None value) eqn:En.
  - intros _ (_ & H & _). destruct value; try discriminate. congruence.
  - destruct (str_in key MEASUREMENT_FILTERS); [|discriminate].
    destruct (py_len value) as [n| |]; cbn [rbind]; try discriminate.
    intros H (_ & _ & Hl). inversion H as [Hn]. apply negb_true_iff in Hn.
    specialize (Hl eq_refl). inversion Hl; subst. discriminate.
Qed.

Lemma filters_to_remove_total (entries : dict) :
  Forall sized_filter entries ->
  exists to_remove, filters_to_remove entries = Ok to_remove.
Proof.
  induction 1 as [|[key value] entries Hs _ IH]; cbn [filters_to_remove].
  - eauto.
  - destruct IH as (more & ->).
    assert (Hm : exists bad, malformed (key, value) = Ok bad).
    { unfold malformed, sized_filter in *.
      destruct (str_in key ALLOWABLE_FILTERS); cbn [negb]; [|eauto].
      destruct (is_None value) eqn:En; [eauto|].
      destruct (str_in key MEASUREMENT_FILTERS); [|eauto].
      destruct (Hs eq_refl) as [->|(n & ->)]; [discriminate|].
      cbn [rbind]. eauto. }
    destruct Hm as (bad & ->). cbn [rbind]. eauto.
Qed.

(** What the clean-up returns: the same config, with the filters that
    were not marked. *)
Lemma remove_malformed_filters_spec (config scanner entries : dict) :
  section_of config "scanner" = Ok scanner ->
  dict_get scanner "filters" = Some (PDict entries) ->
  forall config',
    remove_malformed_filters config = Ok config' ->
    exists kept,
      config' = dict_set config "scanner"
                         (PDict (dict_set scanner "filters" (PDict kept)))
      /\ Forall well_formed_filter kept
      /\ (forall item, In item kept -> In item entries)
      /\ (NoDup (keys entries) ->
          forall item, In item entries -> well_formed_filter item -> In item kept).
Proof.
  intros Hs Hf config' H. unfold remove_malformed_filters in H.
  rewrite Hs in H. simpl in H. unfold getitem in H. rewrite Hf in H.
  simpl in H.
  destruct (filters_to_remove entries) as [to_remove| |] eqn:Er; simpl in H;
    try discriminate.
  unfold set_in_section in H. rewrite Hs in H. simpl in H.
  inversion H; subst. clear H.
  exists (fold_left dict_del to_remove entries).
  split; [reflexivity|]. split; [|split].
  - apply Forall_forall. intros item Hin. apply in_fold_del in Hin.
    destruct Hin as [Hin Hnot].
    destruct (filters_to_remove_spec _ _ Er item Hin) as [[_ Hi]|Hm];
      [contradiction|].
    apply malformed_false. exact Hm.
  - intros item Hin. apply in_fold_del in Hin. tauto.
  - intros Hnd [key value] Hin Hwf. apply in_fold_del. split; [exact Hin|].
    simpl. intros Hrem.
    destruct (filters_to_remove_only _ _ Er key Hrem) as (value' & Hin' & Hm).
    assert (value' = value).
    { clear - Hnd Hin Hin'. induction entries as [|[k v] entries IH];
        [contradiction|].
      simpl in Hnd. inversion Hnd as [|? ? Hnotin Hnd']; subst.
      destruct Hin as [Hin|Hin], Hin' as [Hin'|Hin'].
      - congruence.
      - inversion Hin; subst. exfalso. apply Hnotin.
        apply (in_map fst) in Hin'. exact Hin'.
      - inversion Hin'; subst. exfalso. apply Hnotin.
        apply (in_map fst) in Hin. exact Hin.
      - apply IH; assumption. }
    subst. apply (malformed_true _ Hm). exact Hwf.
Qed.

Lemma remove_malformed_filters_total (config scanner entries : dict) :
  section_of config "scanner" = Ok scanner ->
  dict_get scanner "filters" = Some (PDict entries) ->
  Forall sized_filter entries ->
  exists config', remove_malformed_filters config = Ok config'.
Proof.
  intros Hs Hf Hsized. unfold remove_malformed_filters.
  rewrite Hs. simpl. unfold getitem. rewrite Hf. simpl.
  destruct (filters_to_remove_total entries Hsized) as (to_remove & ->).
  simpl. unfold set_in_section. rewrite Hs. simpl. eauto.
Qed.

(** *** The whole of load_config *)

Lemma load_config_result (parsed_args cfg : dict) (s s' : state) :
  load_config parsed_args s = (Ok cfg, s') ->
  exists aliased config s1,
    merge_config parsed_args s = (Ok (aliased, config), s1)
    /\ remove_malformed_filters config = Ok cfg.
Proof.
  intros H. unfold load_config in H.
  apply bind_ok_inv in H. destruct H as ([aliased config] & s1 & Hm & H).
  apply bind_ok_inv in H. destruct H as (cfg0 & s2 & Hr & H).
  apply bind_ok_inv in H. destruct H as (shared & s3 & _ & H).
  apply bind_ok_inv in H. destruct H as ([] & s4 & _ & H).
  inversion H; subst.
  unfold lift in Hr. inversion Hr; subst.
  do 3 eexists. split; [eassumption | reflexivity].
Qed.

Lemma section_get_of (config : dict) (role key : string) (v : pyval) :
  section_get config role key = Some v ->
  exists d, section_of config role = Ok d /\ dict_get d key = Some v.
Proof.
  unfold section_get. destruct (section_of config role) as [d| |];
    try discriminate. eauto.
Qed.

Lemma remove_keeps_sections (config cfg : dict) :
  remove_malformed_filters config = Ok cfg ->
  (forall key, section_get cfg "advertiser" key = section_get config "advertiser" key)
  /\ (forall key, key <> "filters" ->
        section_get cfg "scanner" key = section_get config "scanner" key)
  /\ (forall fs, section_get cfg "scanner" "filters" = Some (PDict fs) ->
        Forall well_formed_filter fs).
Proof.
  intros H. pose proof H as H0. unfold remove_malformed_filters in H.
  destruct (section_of config "scanner") as [scanner| |] eqn:Es; simpl in H;
    try discriminate.
  unfold getitem in H.
  destruct (dict_get scanner "filters") as [filters|] eqn:Ef; simpl in H;
    try discriminate.
  destruct (is_None filters) eqn:En; simpl in H.
  - inversion H; subst. split; [auto|]. split; [auto|].
    intros fs Hfs. unfold section_get in Hfs. rewrite Es, Ef in Hfs.
    destruct filters; discriminate.
  - destruct filters as [| | | | | | | |entries| |]; try discriminate.
    destruct (remove_malformed_filters_spec config scanner entries Es Ef cfg H0)
      as (kept & -> & Hwf & _).
    split; [|split].
    + intros key. unfold section_get. rewrite section_of_set. reflexivity.
    + intros key Hk. unfold section_get. rewrite section_of_set. simpl.
      rewrite Es. apply dict_get_set_other. exact Hk.
    + intros fs Hfs. unfold section_get in Hfs. rewrite section_of_set in Hfs.
      simpl in Hfs. rewrite dict_get_set_same in Hfs.
      inversion Hfs; subst. exact Hwf.
Qed.

(** When the file holds both role sections, or no file is named: the two
    role sections that [load_config] returns hold, key by key, the
    command-line value when it is given (not [None]) and the key is known
    to the role, else the file's value, else the default; the filter
    clean-up that follows the merge touches [filters] only. *)
Lemma load_config_resolves
        (s : state) (parsed_args da ds fa fs : dict) :
  NoDup (keys parsed_args) ->
  section_of (st_DEFAULT_CONFIG s) "advertiser" = Ok da ->
  section_of (st_DEFAULT_CONFIG s) "scanner" = Ok ds ->
  loaded_sections s parsed_args = Some (fa, fs) ->
  NoDup (keys fa) -> NoDup (keys fs) ->
  (exists aliased config s',
     merge_config parsed_args s = (Ok (aliased, config), s')
     /\ forall key,
          section_get config "advertiser" key = resolved da fa parsed_args key
          /\ section_get config "scanner" key = resolved ds fs parsed_args key)
  /\ (forall cfg s',
        load_config parsed_args s = (Ok cfg, s') ->
        forall key,
          section_get cfg "advertiser" key = resolved da fa parsed_args key
          /\ (key <> "filters" ->
              section_get cfg "scanner" key = resolved ds fs parsed_args key)).
Proof.
  intros Hnd Hda Hds Hload Hfa Hfs.
  destruct (merge_config_resolved s parsed_args da ds fa fs
              Hnd Hda Hds Hload Hfa Hfs)
    as (config & s1 & Hrun & _ & _ & Hres).
  split.
  - exists (no_file parsed_args), config, s1. auto.
  - intros cfg s' Hl key.
    destruct (load_config_result _ _ _ _ Hl) as (al & config' & s1' & Hm & Hr).
    rewrite Hrun in Hm. inversion Hm; subst.
    destruct (remove_keeps_sections _ _ Hr) as (Ha & Hb & _).
    rewrite Ha. split; [apply Hres|].
    intros Hk. rewrite (Hb key Hk). apply Hres.
Qed.

Lemma filters_shared_returns (s s1 : state) (parsed_args fa fs : dict) :
  loaded_sections s parsed_args = Some (fa, fs) ->
  st_env s1 = st_env s ->
  exists shared,
    filters_shared (no_file parsed_args) parsed_args s1 = (Ok shared, s1).
Proof.
  intros Hload Henv. unfold loaded_sections in Hload.
  unfold no_file, filters_shared, bind, lift, getitem, gets.
  destruct (dict_get parsed_args "config_yml") as [cy|]; [|discriminate].
  destruct cy as [| | | |path| | | | | |]; try discriminate.
  - eexists. reflexivity.
  - rewrite Henv.
    destruct (e_yaml (st_env s) path) as [[| | | | | | | |doc| |]| |];
      try discriminate.
    destruct (dict_get doc "advertiser") as [[| | | | | | | |a| |]|];
      try discriminate.
    unfold section_of, getitem. simpl.
    destruct (dict_get doc "scanner") as [[| | | | | | | |b| |]|];
      try discriminate.
    simpl. eexists. reflexivity.
Qed.

Lemma load_config_total (s : state) (parsed_args da ds fa fs : dict) (v : pyval) :
  NoDup (keys parsed_args) ->
  section_of (st_DEFAULT_CONFIG s) "advertiser" = Ok da ->
  section_of (st_DEFAULT_CONFIG s) "scanner" = Ok ds ->
  loaded_sections s parsed_args = Some (fa, fs) ->
  NoDup (keys fa) -> NoDup (keys fs) ->
  resolved ds fs parsed_args "filters" = Some v ->
  (v = PNone \/ exists entries, v = PDict entries /\ Forall sized_filter entries) ->
  exists cfg s', load_config parsed_args s = (Ok cfg, s').
Proof.
  intros Hnd Hda Hds Hload Hfa Hfs Hv Hsized.
  destruct (merge_config_resolved s parsed_args da ds fa fs
              Hnd Hda Hds Hload Hfa Hfs)
    as (config & s1 & Hrun & Henv & Hglobal & Hres).
  destruct (Hres "filters") as [_ Hf]. rewrite Hv in Hf.
  destruct (section_get_of _ _ _ _ Hf) as (scanner & Hs & Hfil).
  assert (Hrm : exists cfg, remove_malformed_filters config = Ok cfg).
  { destruct Hsized as [->|(entries & -> & Hsz)].
    - exists config. unfold remove_malformed_filters. rewrite Hs. simpl.
      unfold getitem. rewrite Hfil. reflexivity.
    - apply (remove_malformed_filters_total config scanner entries); assumption. }
  destruct Hrm as (cfg & Hrm).
  assert (Hcfg : exists x, rbind (section_of cfg "scanner")
                                 (fun scanner => getitem scanner "filters") = Ok x).
  { destruct Hsized as [->|(entries & -> & Hsz)].
    - unfold remove_malformed_filters in Hrm. rewrite Hs in Hrm. simpl in Hrm.
      unfold getitem in Hrm. rewrite Hfil in Hrm. simpl in Hrm.
      inversion Hrm; subst. rewrite Hs. simpl. unfold getitem. rewrite Hfil.
      eauto.
    - destruct (remove_malformed_filters_spec config scanner entries Hs Hfil
                  cfg Hrm) as (kept & -> & _).
      rewrite section_of_set. simpl. unfold getitem.
      rewrite dict_get_set_same. eauto. }
  destruct Hcfg as (x & Hx).
  assert (Hdef : exists d, section_of (st_DEFAULT_CONFIG s1) "scanner" = Ok d).
  { destruct (no_file parsed_args); rewrite Hglobal; eauto. }
  destruct Hdef as (d & Hdef).
  destruct (filters_shared_returns s s1 parsed_args fa fs Hload Henv)
    as (shared & Hshared).
  assert (G : returns (load_config parsed_args s) (fun _ _ => True)).
  { unfold load_config, returns. apply sat_bind. rewrite Hrun. cbn [sat].
    run; try (exfalso; congruence); try exact I.
    rewrite Hshared. cbn [sat].
    assert (a = cfg) by congruence. subst a.
    destruct shared; run; try (exfalso; congruence); try exact I.
    all: match goal with
         | H : set_in_section _ _ _ _ = _ |- _ =>
             unfold set_in_section in H; cbn [st_DEFAULT_CONFIG] in H;
             rewrite Hdef in H; discriminate H
         end. }
  destruct (returns_ok _ _ G) as (a & s' & Heq & _). eauto.
Qed.

Ltac nodup_keys :=
  repeat constructor; simpl; intuition discriminate.

Lemma load_config_resolves_sample :
  exists aliased config s',
    merge_config Sample.parsed_args (Sample.fresh Sample.env_yaml)
    = (Ok (aliased, config), s')
    /\ forall key,
         section_get config "advertiser" key
         = resolved (default_section "advertiser") Sample.yaml_advertiser
                    Sample.parsed_args key
         /\ section_get config "scanner" key
            = resolved (default_section "scanner") Sample.yaml_scanner
                       Sample.parsed_args key.
Proof.
  refine (proj1 (load_config_resolves
                   (Sample.fresh Sample.env_yaml) Sample.parsed_args
                   (default_section "advertiser") (default_section "scanner")
                   Sample.yaml_advertiser Sample.yaml_scanner
                   _ eq_refl eq_refl eq_refl _ _)).
  - nodup_keys.
  - nodup_keys.
  - nodup_keys.
Qed.

(** *** A file without a role section *)

(** Stepping into the branch of [load_config] that reads a file. *)
Ltac into_file Hcy Hy :=
  unfold load_config; apply bind_raise; unfold merge_config;
  unfold bind at 1; unfold lift at 1, getitem; rewrite Hcy; cbn [is_None];
  unfold bind at 1; unfold lift at 1;
  unfold bind at 1; unfold gets at 1; rewrite Hy;
  unfold bind at 1; unfold lift at 1.

Ltac into_advertiser Hda :=
  cbn [rbind unpack];
  unfold bind at 1; unfold gets at 1;
  unfold bind at 1; unfold lift at 1; rewrite Hda;
  unfold bind at 1; unfold lift at 1;
  unfold section_of at 1, getitem.

Ltac into_scanner Ha Hds :=
  rewrite Ha; cbn [rbind unpack];
  unfold bind at 1; unfold lift at 1; rewrite Hds;
  unfold bind at 1; unfold lift at 1;
  rewrite section_of_set; cbn [String.eqb Ascii.eqb Bool.eqb];
  unfold section_of, getitem.

(** A configuration file must carry both role sections, whichever mode is
    run: a document that is no mapping (an empty file loads as [None]) or
    a role section that is no mapping raises [TypeError], and a document
    without the [advertiser] or without the [scanner] key raises
    [KeyError]; nothing has been changed when the error is raised. *)
Lemma config_file_needs_both_sections
      (s : state) (parsed_args da ds : dict) (path : string) (doc : pyval) :
  dict_get parsed_args "config_yml" = Some (PStr path) ->
  e_yaml (st_env s) path = Ok doc ->
  section_of (st_DEFAULT_CONFIG s) "advertiser" = Ok da ->
  section_of (st_DEFAULT_CONFIG s) "scanner" = Ok ds ->
  (isinstance_dict doc = false ->
   load_config parsed_args s = (Raise TypeError, s))
  /\ (forall d, doc = PDict d -> dict_get d "advertiser" = None ->
        load_config parsed_args s = (Raise KeyError, s))
  /\ (forall d a, doc = PDict d -> dict_get d "advertiser" = Some (PDict a) ->
        dict_get d "scanner" = None ->
        load_config parsed_args s = (Raise KeyError, s))
  /\ (forall d v, doc = PDict d -> dict_get d "advertiser" = Some v ->
        isinstance_dict v = false ->
        load_config parsed_args s = (Raise TypeError, s))
  /\ (forall d a v, doc = PDict d -> dict_get d "advertiser" = Some (PDict a) ->
        dict_get d "scanner" = Some v -> isinstance_dict v = false ->
        load_config parsed_args s = (Raise TypeError, s)).
Proof.
  intros Hcy Hy Hda Hds.
  split; [|split; [|split; [|split]]].
  - intros Hd. into_file Hcy Hy.
    destruct doc; try discriminate Hd; reflexivity.
  - intros d -> Ha. into_file Hcy Hy. into_advertiser Hda.
    rewrite Ha. reflexivity.
  - intros d a -> Ha Hb. into_file Hcy Hy. into_advertiser Hda.
    into_scanner Ha Hds. rewrite Hb. reflexivity.
  - intros d v -> Ha Hv. into_file Hcy Hy. into_advertiser Hda.
    rewrite Ha. destruct v; try discriminate Hv; reflexivity.
  - intros d a v -> Ha Hb Hv. into_file Hcy Hy. into_advertiser Hda.
    into_scanner Ha Hds. rewrite Hb.
    destruct v; try discriminate Hv; reflexivity.
Qed.

(** C8. A configuration file that sets [advertiser: {major: 5}] and says
    nothing of the scanner is a partially specified configuration: the
    scanner's keys are all missing from it.  [load_config] does not give
    them their defaults: [config['scanner']] raises [KeyError] and no
    configuration is returned. *)
Theorem partial_file_aborts :
  e_yaml Sample.env_yaml "partial.yml"
  = Ok (PDict [("advertiser", PDict [("major", PInt 5)])])
  /\ load_config Sample.parsed_args_partial (Sample.fresh Sample.env_yaml)
     = (Raise KeyError, Sample.fresh Sample.env_yaml).
Proof. split; vm_compute; reflexivity. Qed.

(** *** What load_config says and does *)

Lemma silent_refl (s : state) : silent s s.
Proof. repeat split. Qed.

Lemma silent_trans (s s1 s2 : state) :
  silent s s1 -> silent s1 s2 -> silent s s2.
Proof. intros (H1 & H2 & H3) (H4 & H5 & H6). repeat split; congruence. Qed.

Lemma merge_args_silent (aliased : bool) (parsed_args : dict) :
  forall (config : dict) (s : state),
    sat (merge_args aliased parsed_args config s)
        (fun _ s' => silent s s') (fun _ s' => silent s s')
        (fun s' => silent s s').
Proof.
  induction parsed_args as [|item rest IH]; intros config s; cbn [merge_args].
  - apply silent_refl.
  - run; try apply silent_refl.
    unfold put_config. destruct aliased; run.
    + eapply sat_conseq; [apply IH | | |];
        cbn beta; intros; (eapply silent_trans; [|eassumption]); repeat split.
    + apply IH.
Qed.

(** [load_config] has no logger and writes no file: whatever it returns
    or raises, no record has been logged and nothing but the module's
    defaults has changed. *)
Lemma load_config_silent (parsed_args : dict) (s : state) :
  sat (load_config parsed_args s)
      (fun _ s' => silent s s') (fun _ s' => silent s s')
      (fun s' => silent s s').
Proof.
  unfold load_config, merge_config, filters_shared.
  run; try apply silent_refl.
  all: try (eapply sat_conseq; [apply merge_args_silent | | |]; cbn beta;
            [intros config s1 Hs1 | intros; assumption | intros; assumption];
            run; try assumption).
  all: try (eapply silent_trans; [eassumption|]; repeat split).
  all: try (repeat split; fail).
Qed.

(** C6, as amended. When [load_config] returns, every entry left in the
    scanner's filters has an allowable key, a value that is not [None]
    and, for a measurement filter, a value of length two.  Whatever
    [load_config] returns or raises, it has logged nothing and written
    nothing: the entries go without a diagnostic.  On a command line
    that names no file, or a file with both role sections, whose
    measurement-filter values all have a length (or are [None]),
    [load_config] does return: the entries with an unknown key, a [None]
    value or a length other than two are dropped, and every other entry
    is kept. *)
Theorem malformed_filters_dropped (s : state) (parsed_args : dict) :
  (forall cfg s' kept,
     load_config parsed_args s = (Ok cfg, s') ->
     section_get cfg "scanner" "filters" = Some (PDict kept) ->
     Forall well_formed_filter kept)
  /\ (forall r s', load_config parsed_args s = (r, s') -> silent s s')
  /\ (forall da ds fa fs entries,
        NoDup (keys parsed_args) ->
        section_of (st_DEFAULT_CONFIG s) "advertiser" = Ok da ->
        section_of (st_DEFAULT_CONFIG s) "scanner" = Ok ds ->
        loaded_sections s parsed_args = Some (fa, fs) ->
        NoDup (keys fa) -> NoDup (keys fs) ->
        resolved ds fs parsed_args "filters" = Some (PDict entries) ->
        Forall sized_filter entries ->
        exists cfg s' kept,
          load_config parsed_args s = (Ok cfg, s')
          /\ section_get cfg "scanner" "filters" = Some (PDict kept)
          /\ Forall well_formed_filter kept
          /\ (forall item, In item kept -> In item entries)
          /\ (NoDup (keys entries) ->
              forall item, In item entries -> well_formed_filter item ->
                           In item kept)).
Proof.
  split; [|split].
  - intros cfg s' kept Hl Hk.
    destruct (load_config_result _ _ _ _ Hl) as (al & config & s1 & _ & Hr).
    destruct (remove_keeps_sections _ _ Hr) as (_ & _ & Hwf).
    apply Hwf. exact Hk.
  - intros r s' Hl.
    pose proof (run_sat _ _ _ _ _ _ _ (load_config_silent parsed_args s) Hl) as H.
    destruct r; exact H.
  - intros da ds fa fs entries Hnd Hda Hds Hload Hfa Hfs Hv Hsz.
    destruct (load_config_total s parsed_args da ds fa fs (PDict entries)
                Hnd Hda Hds Hload Hfa Hfs Hv) as (cfg & s' & Hl).
    { right. eauto. }
    destruct (load_config_result _ _ _ _ Hl) as (al & config & s1 & Hm & Hr).
    destruct (merge_config_resolved s parsed_args da ds fa fs
                Hnd Hda Hds Hload Hfa Hfs)
      as (config' & s1' & Hrun & _ & _ & Hres).
    rewrite Hrun in Hm. inversion Hm; subst.
    destruct (Hres "filters") as [_ Hf]. rewrite Hv in Hf.
    destruct (section_get_of _ _ _ _ Hf) as (scanner & Hs & Hfil).
    destruct (remove_malformed_filters_spec config scanner entries Hs Hfil cfg Hr)
      as (kept & -> & Hwf & Hsub & Hall).
    eexists. exists s', kept. split; [exact Hl|]. split; [|auto].
    unfold section_get. rewrite section_of_set. simpl.
    apply dict_get_set_same.
Qed.

Lemma malformed_filters_dropped_witness :
  exists cfg s' kept,
    load_config Sample.parsed_args (Sample.fresh Sample.env_yaml) = (Ok cfg, s')
    /\ section_get cfg "scanner" "filters" = Some (PDict kept)
    /\ Forall well_formed_filter kept.
Proof.
  destruct (proj2 (proj2 (malformed_filters_dropped
                            (Sample.fresh Sample.env_yaml) Sample.parsed_args))
                  (default_section "advertiser") (default_section "scanner")
                  Sample.yaml_advertiser Sample.yaml_scanner
                  [ ("RSSI", PList [PInt (-80); PInt (-40)]);
                    ("COLOUR", PStr "red");
                    ("UUID", PNone);
                    ("TIMESTAMP", PList [PTime 0]) ])
    as (cfg & s' & kept & Hl & Hk & Hwf & _).
  - nodup_keys.
  - reflexivity.
  - reflexivity.
  - reflexivity.
  - nodup_keys.
  - nodup_keys.
  - reflexivity.
  - repeat (apply Forall_cons;
            [ unfold sized_filter; simpl; intros H; try discriminate H;
              right; eexists; reflexivity | ]).
    apply Forall_nil.
  - exists cfg, s', kept. auto.
Defined.

(** C6 fails on the code: of the four filters of the file, the three
    malformed ones are dropped, and the run has logged nothing and
    written nothing: there is no diagnostic. *)
Lemma silent_drop_counterexample :
  exists cfg s',
    load_config Sample.parsed_args (Sample.fresh Sample.env_yaml) = (Ok cfg, s')
    /\ dict_get Sample.yaml_scanner "filters"
       = Some (PDict [ ("RSSI", PList [PInt (-80); PInt (-40)]);
                       ("COLOUR", PStr "red");
                       ("UUID", PNone);
                       ("TIMESTAMP", PList [PTime 0]) ])
    /\ section_get cfg "scanner" "filters"
       = Some (PDict [ ("RSSI", PList [PInt (-80); PInt (-40)]) ])
    /\ st_trace s' = []
    /\ st_fs s' = st_fs (Sample.fresh Sample.env_yaml).
Proof.
  do 2 eexists. split; [vm_compute; reflexivity|].
  repeat split.
Qed.

(** What the amended claim leaves out: an RSSI filter that is a bare
    number is a malformed entry, [len] of a number raises, and
    [load_config] ends in [TypeError]. *)
Lemma bare_bound_rejects_run :
  ~ well_formed_filter ("RSSI", PInt (-60))
  /\ fst (load_config Sample.parsed_args_bare (Sample.fresh Sample.env_yaml))
     = Raise TypeError.
Proof.
  split.
  - intros (_ & _ & H). specialize (H eq_refl). discriminate H.
  - vm_compute. reflexivity.
Qed.

